(** * YouTube comment analytics: the dashboard (app.py) and the batch chart
      script (generate_charts.py), embedded over a small model of the pandas
      operations they call.

    A DataFrame is a list of column names and a list of rows; a row gives a
    cell for every column name.  Library calls whose code is not part of the
    repository (timestamp parsing, widgets, rendering) are parameters or
    recorded effects.  Percentages are IEEE binary64 values, as in Python. *)

From Stdlib Require Import List String Ascii ZArith QArith Bool Lia Floats Uint63.
From Stdlib Require Import Permutation Sorting.Sorted Sorting.Mergesort.
From Stdlib Require Import Structures.Orders Structures.OrdersEx.
Import ListNotations.

Local Open Scope string_scope.
Local Open Scope list_scope.
Local Open Scope nat_scope.

(** ** Exceptions and fallible computations *)

Inductive exn : Type :=
| KeyError (column : string)
| TypeError
| ValueError
| IndexError
| FileNotFoundError (msg : string).

Inductive result (A : Type) : Type :=
| Ok (a : A)
| Raise (e : exn).

Arguments Ok {A} a.
Arguments Raise {A} e.

Definition bind {A B : Type} (m : result A) (k : A -> result B) : result B :=
  match m with
  | Ok a => k a
  | Raise e => Raise e
  end.

Notation "x <- m ;; k" := (bind m (fun x => k))
  (at level 61, m at next level, right associativity).

Notation "m ;; k" := (bind m (fun _ => k))
  (at level 61, right associativity).

Fixpoint mapM {A B : Type} (f : A -> result B) (l : list A) : result (list B) :=
  match l with
  | [] => Ok []
  | a :: l' => b <- f a ;; bs <- mapM f l' ;; Ok (b :: bs)
  end.

(** ** Orders used to sort group keys *)

Module StringFull := OT_to_Full String_as_OT.
Module StringLeb := OTF_to_TTLB StringFull.
Module StringSort := Sort StringLeb.
Module ZLeb := OTF_to_TTLB BinInt.Z.
Module ZSort := Sort ZLeb.

(** ** pandas: cells, frames and the operations the two scripts use *)

Module pd.

(** A value of a column.  [NaN], [NaT] and [PyNone] are the three missing
    values pandas recognises; a [Timestamp] is an instant in UTC, in
    nanoseconds since the epoch; a [Date] is a [datetime.date], as the number
    of days since the epoch. *)
Inductive cell : Type :=
| NaN
| NaT
| PyNone
| Str (s : string)
| Int (z : Z)
| Flt (f : float)
| Timestamp (ns : Z)
| Date (day : Z).

Definition isna (c : cell) : bool :=
  match c with
  | NaN | NaT | PyNone => true
  | _ => false
  end.

Definition notna (c : cell) : bool := negb (isna c).

Definition Series : Type := list cell.

Definition Row : Type := string -> cell.

Record DataFrame : Type := {
  columns : list string;
  rows : list Row
}.

(** [len(df)] *)
Definition len (df : DataFrame) : nat := List.length (rows df).

(** [c in df.columns] *)
Definition has_col (df : DataFrame) (c : string) : bool :=
  existsb (String.eqb c) (columns df).

(** [df[c]] *)
Definition getcol (df : DataFrame) (c : string) : result Series :=
  if has_col df c then Ok (map (fun r : Row => r c) (rows df))
  else Raise (KeyError c).

Definition set_cell (r : Row) (c : string) (v : cell) : Row :=
  fun c' => if String.eqb c' c then v else r c'.

Definition add_col (cols : list string) (c : string) : list string :=
  if existsb (String.eqb c) cols then cols else cols ++ [c].

(** [df[c] = s] for a Series [s] on the index of [df]. *)
Definition setcol (df : DataFrame) (c : string) (s : Series) : DataFrame :=
  {| columns := add_col (columns df) c;
     rows := map (fun rv : Row * cell => set_cell (fst rv) c (snd rv))
                 (combine (rows df) s) |}.

(** [df[c] = v] for a scalar [v]. *)
Definition setcol_scalar (df : DataFrame) (c : string) (v : cell) : DataFrame :=
  {| columns := add_col (columns df) c;
     rows := map (fun r : Row => set_cell r c v) (rows df) |}.

(** [df[mask]] for a boolean Series [mask] on the index of [df]. *)
Definition select (df : DataFrame) (mask : list bool) : DataFrame :=
  {| columns := columns df;
     rows := map fst (filter snd (combine (rows df) mask)) |}.

(** [s == v] for a string [v]: missing values and values of another type
    compare unequal. *)
Definition eq_str (v : string) (c : cell) : bool :=
  match c with
  | Str s => String.eqb s v
  | _ => false
  end.

(** [s >= d] and [s <= d] for a [datetime.date] [d] on an object column:
    a missing value compares false, a date compares by the calendar, and any
    other value raises. *)
Definition cmp_date (op : Z -> Z -> bool) (d : Z) (c : cell) : result bool :=
  if isna c then Ok false
  else match c with
       | Date x => Ok (op x d)
       | _ => Raise TypeError
       end.

Definition ge_date (s : Series) (d : Z) : result (list bool) :=
  mapM (cmp_date Z.geb d) s.

Definition le_date (s : Series) (d : Z) : result (list bool) :=
  mapM (cmp_date Z.leb d) s.

(** [a & b] *)
Definition mask_and (a b : list bool) : list bool :=
  map (fun p : bool * bool => andb (fst p) (snd p)) (combine a b).

(** [s.notna().any()] and [s.isna().all()] *)
Definition any_notna (s : Series) : bool := existsb notna s.
Definition all_isna (s : Series) : bool := forallb isna s.

Definition ns_per_day : Z := 86400000000000.

(** [s.dt.date] on a datetime column: the UTC calendar day of each instant,
    [NaT] where there is none. *)
Definition dt_date_cell (c : cell) : cell :=
  match c with
  | Timestamp ns => Date (ns / ns_per_day)
  | _ => NaT
  end.

Definition dt_date (s : Series) : Series := map dt_date_cell s.

Section Parsing.

(** What [pd.to_datetime(..., utc=True)] makes of one value that is not
    missing: the instant it denotes, converted to UTC, or nothing when the
    value cannot be parsed. *)
Variable parse_utc : cell -> option Z.

(** [pd.to_datetime(s, errors="coerce", utc=True)]: a value that is missing
    or cannot be parsed becomes [NaT]; nothing is raised. *)
Definition to_datetime_cell (c : cell) : cell :=
  if isna c then NaT
  else match parse_utc c with
       | Some ns => Timestamp ns
       | None => NaT
       end.

Definition to_datetime (s : Series) : Series := map to_datetime_cell s.

End Parsing.

(** *** Group keys

    The label columns hold text or missing values and the date column holds
    dates or missing values; a group key is read off a cell accordingly, and
    a row whose key is missing belongs to no group (pandas drops it). *)

Definition label_of (c : cell) : option string :=
  match c with
  | Str s => Some s
  | _ => None
  end.

Definition date_of (c : cell) : option Z :=
  match c with
  | Date d => Some d
  | _ => None
  end.

(** The labels of a column, missing values dropped. *)
Definition labels_of (s : Series) : list string :=
  flat_map (fun c => match label_of c with Some l => [l] | None => [] end) s.

Definition dates_of (s : Series) : list Z :=
  flat_map (fun c => match date_of c with Some d => [d] | None => [] end) s.

Definition uniq_labels (l : list string) : list string :=
  StringSort.sort (nodup string_dec l).

Definition uniq_dates (l : list Z) : list Z :=
  ZSort.sort (nodup Z.eq_dec l).

Definition count_label (l : string) (ls : list string) : nat :=
  List.length (filter (String.eqb l) ls).

Definition count_date (d : Z) (ds : list Z) : nat :=
  List.length (filter (Z.eqb d) ds).

(** [s.value_counts()]: one entry per distinct label, missing values
    excluded, largest count first (labels of equal count stay in label
    order; no property below depends on the order among them). *)
Fixpoint insert_by_count (e : string * nat) (l : list (string * nat))
  : list (string * nat) :=
  match l with
  | [] => [e]
  | x :: l' => if Nat.ltb (snd x) (snd e) then e :: x :: l'
               else x :: insert_by_count e l'
  end.

Definition value_counts (s : Series) : list (string * nat) :=
  let ls := labels_of s in
  fold_right insert_by_count []
    (map (fun l => (l, count_label l ls)) (uniq_labels ls)).

(** [counts.sort_index()] *)
Definition sort_index_counts (vc : list (string * nat)) : list (string * nat) :=
  flat_map (fun l => match find (fun e => String.eqb l (fst e)) vc with
                     | Some e => [e]
                     | None => []
                     end)
           (StringSort.sort (map fst vc)).

(** [counts.sort_values(ascending=False)] *)
Definition sort_values_desc (vc : list (string * nat)) : list (string * nat) :=
  fold_right insert_by_count [] vc.

(** [df.groupby(c).size()] on a date column. *)
Definition groupby_size (s : Series) : list (Z * nat) :=
  let ds := dates_of s in
  map (fun d => (d, count_date d ds)) (uniq_dates ds).

(** A table with one row per key of [index] and one column per label. *)
Record Pivot (K V : Type) : Type := {
  index : list K;
  labels : list string;
  cells : list (list V)
}.

Arguments index {K V} p.
Arguments labels {K V} p.
Arguments cells {K V} p.

(** [t.empty] *)
Definition empty {K V : Type} (t : Pivot K V) : bool :=
  match index t, labels t with
  | [], _ => true
  | _, [] => true
  | _, _ => false
  end.

Section GroupBy.

Context {K : Type}.
Variable K_eq_dec : forall a b : K, {a = b} + {a <> b}.
Variable K_sort : list K -> list K.
Variable key_of : cell -> option K.

Definition pair_eqb (a b : K * string) : bool :=
  if K_eq_dec (fst a) (fst b) then String.eqb (snd a) (snd b) else false.

Definition count_pair (p : K * string) (pairs : list (K * string)) : nat :=
  List.length (filter (pair_eqb p) pairs).

Definition uniq_keys (l : list K) : list K := K_sort (nodup K_eq_dec l).

(** The key pairs of two aligned columns; a row where either is missing is
    dropped. *)
Definition key_pairs (a b : Series) : list (K * string) :=
  flat_map (fun p : cell * cell =>
              match key_of (fst p), label_of (snd p) with
              | Some k, Some l => [(k, l)]
              | _, _ => []
              end)
           (combine a b).

(** [groupby([a, b]).size()]: one entry per observed key pair with the number
    of rows that carry it, in key order. *)
Definition group_sizes (pairs : list (K * string)) : list ((K * string) * nat) :=
  flat_map (fun k =>
     flat_map (fun l =>
        let n := count_pair (k, l) pairs in
        if Nat.eqb n 0 then [] else [((k, l), n)])
       (uniq_labels (map snd pairs)))
    (uniq_keys (map fst pairs)).

Definition lookup_size (p : K * string) (sizes : list ((K * string) * nat))
  : option nat :=
  option_map snd (find (fun e => pair_eqb p (fst e)) sizes).

(** [sizes.unstack(fill_value=v)]: the second key becomes the columns. *)
Definition unstack (fill_value : nat) (sizes : list ((K * string) * nat))
  : Pivot K nat :=
  let idx := uniq_keys (map (fun e => fst (fst e)) sizes) in
  let labs := uniq_labels (map (fun e => snd (fst e)) sizes) in
  {| index := idx;
     labels := labs;
     cells := map (fun k =>
                map (fun l => match lookup_size (k, l) sizes with
                              | Some n => n
                              | None => fill_value
                              end) labs) idx |}.

(** [t.sort_index()] *)
Definition sort_index {V : Type} (t : Pivot K V) : Pivot K V :=
  let idx := K_sort (index t) in
  {| index := idx;
     labels := labels t;
     cells := map (fun k =>
                match find (fun e => if K_eq_dec k (fst e) then true else false)
                           (combine (index t) (cells t)) with
                | Some e => snd e
                | None => []
                end) idx |}.

End GroupBy.

(** [pd.crosstab(a, b)]: the number of rows for each pair of labels, zero
    where a pair does not occur. *)
Definition crosstab (a b : Series) : Pivot string nat :=
  unstack string_dec StringSort.sort 0
    (group_sizes string_dec StringSort.sort
       (key_pairs label_of a b)).

(** [t.sum(axis=1)] *)
Definition sum_axis1 (t : Pivot string nat) : list nat :=
  map (fun row => fold_right Nat.add 0 row) (cells t).

(** *** binary64 arithmetic *)

Definition float_of_nat (n : nat) : float :=
  PrimFloat.of_uint63 (Uint63.of_Z (Z.of_nat n)).

(** [m.mean()] for a boolean Series [m]: the number of [True] over the length. *)
Definition mean_bool (m : list bool) : float :=
  PrimFloat.div (float_of_nat (List.length (filter (fun b : bool => b) m)))
                (float_of_nat (List.length m)).

(** [t.div(d, axis=0) * 100] *)
Definition div_axis0_times100 (t : Pivot string nat) (d : list nat)
  : Pivot string float :=
  {| index := index t;
     labels := labels t;
     cells := map (fun rd : list nat * nat =>
                map (fun n => PrimFloat.mul
                                (PrimFloat.div (float_of_nat n)
                                               (float_of_nat (snd rd)))
                                100%float)
                    (fst rd))
                (combine (cells t) d) |}.

(** The files [pd.read_csv] can see: the table each existing path parses to. *)
Definition FileSystem : Type := string -> option DataFrame.

(** [Path(p).exists()] *)
Definition path_exists (fs : FileSystem) (p : string) : bool :=
  match fs p with
  | Some _ => true
  | None => false
  end.

(** [pd.read_csv(p)] *)
Definition read_csv (fs : FileSystem) (p : string) : result DataFrame :=
  match fs p with
  | Some df => Ok df
  | None => Raise (FileNotFoundError p)
  end.

(** [df[cols]] and [df.head(n)] *)
Definition project (df : DataFrame) (cols : list string) : DataFrame :=
  {| columns := cols; rows := rows df |}.

Definition head (n : nat) (df : DataFrame) : DataFrame :=
  {| columns := columns df; rows := firstn n (rows df) |}.

(** The content of a CSV file: the header and one record per row.  How the
    fields are quoted, joined and encoded is the CSV writer's business. *)
Record CsvFile : Type := {
  header : list string;
  records : list (list cell)
}.

(** [df.to_csv(index=False)]: every column of [df], no index column. *)
Definition to_csv (df : DataFrame) : CsvFile :=
  {| header := columns df;
     records := map (fun r : Row => map r (columns df)) (rows df) |}.

End pd.

(** ** app.py: the dashboard script *)

Module App.
Import pd.

Definition CSV_PATH : string := "data/all_comments_with_topics_and_sentiment.csv".

Section Script.

Variable parse_utc : cell -> option Z.

(** [df["date"].min()] and [df["date"].max()]: reductions of pandas over an
    object column; they return or raise. *)
Variable series_min series_max : Series -> result cell.

(** [st.sidebar.date_input(label, value=(min_date, max_date))]: the date
    widget of the sidebar, seeded with a pair of values.  It returns the
    dates picked in it so far, a tuple of none, one or two dates, or
    raises. *)
Variable date_input : cell * cell -> result (list Z).

Definition load_data (fs : FileSystem) : result DataFrame :=
  df <- read_csv fs CSV_PATH ;;
  if has_col df "published_at" then
    s <- getcol df "published_at" ;;
    let df := setcol df "published_at" (to_datetime parse_utc s) in
    s' <- getcol df "published_at" ;;
    Ok (setcol df "date" (dt_date s'))
  else Ok (setcol_scalar df "date" PyNone).

(** *** Sidebar *)

Definition topic_options (df : DataFrame) : result (list string) :=
  s <- getcol df "topic_label" ;;
  Ok ("All" :: uniq_labels (labels_of s)).

Definition sentiment_options (df : DataFrame) : result (list string) :=
  s <- getcol df "sentiment_label" ;;
  Ok ("All" :: uniq_labels (labels_of s)).

Definition has_dates (df : DataFrame) : result bool :=
  if has_col df "date" then s <- getcol df "date" ;; Ok (any_notna s)
  else Ok false.

(** [start_date, end_date = t] for a tuple [t]: the assignment raises
    [ValueError] unless [t] holds exactly two values. *)
Definition unpack_pair (t : list Z) : result (Z * Z) :=
  match t with
  | [a; b] => Ok (a, b)
  | _ => Raise ValueError
  end.

(** The date widget is shown only when some row has a date: it is seeded
    with the least and the greatest date, and the tuple it returns is
    unpacked into the two bounds.  Without the widget both bounds are
    [None]. *)
Definition date_range (df : DataFrame) : result (option Z * option Z) :=
  dated <- has_dates df ;;
  if dated then
    s <- getcol df "date" ;;
    min_date <- series_min s ;;
    max_date <- series_max s ;;
    picked <- date_input (min_date, max_date) ;;
    bounds <- unpack_pair picked ;;
    Ok (Some (fst bounds), Some (snd bounds))
  else Ok (None, None).

(** *** Filters *)

Definition filter_topic (filtered : DataFrame) (chosen_topic : string)
  : result DataFrame :=
  if negb (String.eqb chosen_topic "All") then
    s <- getcol filtered "topic_label" ;;
    Ok (select filtered (map (eq_str chosen_topic) s))
  else Ok filtered.

Definition filter_sentiment (filtered : DataFrame) (chosen_sentiment : string)
  : result DataFrame :=
  if negb (String.eqb chosen_sentiment "All") then
    s <- getcol filtered "sentiment_label" ;;
    Ok (select filtered (map (eq_str chosen_sentiment) s))
  else Ok filtered.

(** A [datetime.date] is always true in a condition; [None] is false. *)
Definition filter_dates (filtered : DataFrame) (start_date end_date : option Z)
  : result DataFrame :=
  match start_date, end_date with
  | Some lo, Some hi =>
      if has_col filtered "date" then
        s1 <- getcol filtered "date" ;;
        ge <- ge_date s1 lo ;;
        s2 <- getcol filtered "date" ;;
        le <- le_date s2 hi ;;
        Ok (select filtered (mask_and ge le))
      else Ok filtered
  | _, _ => Ok filtered
  end.

Definition apply_filters (df : DataFrame) (chosen_topic chosen_sentiment : string)
  (start_date end_date : option Z) : result DataFrame :=
  let filtered := df in
  filtered <- filter_topic filtered chosen_topic ;;
  filtered <- filter_sentiment filtered chosen_sentiment ;;
  filter_dates filtered start_date end_date.

(** *** Summary metrics *)

Record Metrics : Type := {
  total : nat;
  pos_pct : float;
  neg_pct : float
}.

Definition label_pct (filtered : DataFrame) (label : string) : result float :=
  s <- getcol filtered "sentiment_label" ;;
  Ok (PrimFloat.mul (mean_bool (map (eq_str label) s)) 100%float).

Definition summary_metrics (filtered : DataFrame) : result Metrics :=
  if Nat.ltb 0 (len filtered) then
    p <- label_pct filtered "POSITIVE" ;;
    n <- label_pct filtered "NEGATIVE" ;;
    Ok {| total := len filtered; pos_pct := p; neg_pct := n |}
  else Ok {| total := len filtered; pos_pct := 0%float; neg_pct := 0%float |}.

(** *** Distributions: [None] where the page shows its no-data text *)

Definition topic_counts (filtered : DataFrame)
  : result (option (list (string * nat))) :=
  if has_col filtered "topic_label" && Nat.ltb 0 (len filtered) then
    s <- getcol filtered "topic_label" ;;
    Ok (Some (sort_values_desc (value_counts s)))
  else Ok None.

Definition sent_counts (filtered : DataFrame)
  : result (option (list (string * nat))) :=
  if has_col filtered "sentiment_label" && Nat.ltb 0 (len filtered) then
    s <- getcol filtered "sentiment_label" ;;
    Ok (Some (value_counts s))
  else Ok None.

(** *** Sentiment over time: [None] when the section is not rendered *)

Definition sent_time (filtered : DataFrame) : result (option (Pivot Z nat)) :=
  dated <- has_dates filtered ;;
  if dated then
    a <- getcol filtered "date" ;;
    b <- getcol filtered "sentiment_label" ;;
    Ok (Some (unstack Z.eq_dec ZSort.sort 0
                (group_sizes Z.eq_dec ZSort.sort (key_pairs date_of a b))))
  else Ok None.

(** What the section shows: a line chart of the table, or a text when the
    table is empty; nothing when the section is not rendered. *)
Inductive time_widget : Type :=
| LineChart (t : Pivot Z nat)
| NoData (msg : string).

Definition time_section (filtered : DataFrame) : result (option time_widget) :=
  st <- sent_time filtered ;;
  match st with
  | Some t =>
      if negb (empty t) then Ok (Some (LineChart t))
      else Ok (Some (NoData "No data to show for selected filters."))
  | None => Ok None
  end.

(** *** Sample table and download *)

Definition visible_columns : list string :=
  ["author"; "clean_text"; "published_at"; "likes";
   "topic_label"; "sentiment_label"; "sentiment_score"].

Definition show_cols (filtered : DataFrame) : list string :=
  filter (has_col filtered) visible_columns.

Definition sample_table (filtered : DataFrame) : DataFrame :=
  head 200 (project filtered (show_cols filtered)).

Definition csv_bytes (filtered : DataFrame) : CsvFile := to_csv filtered.

(** *** One run of the script

    The script runs from top to bottom on every interaction; the selections
    of the two select boxes are its inputs and the page is its result. *)

Record Page : Type := {
  shown : nat;
  metrics : Metrics;
  topic_chart : option (list (string * nat));
  sentiment_chart : option (list (string * nat));
  time_chart : option (Pivot Z nat);
  sample : DataFrame;
  download : CsvFile
}.

Definition script (fs : FileSystem) (chosen_topic chosen_sentiment : string)
  : result Page :=
  df <- load_data fs ;;
  topic_options df ;;
  sentiment_options df ;;
  rng <- date_range df ;;
  filtered <- apply_filters df chosen_topic chosen_sentiment (fst rng) (snd rng) ;;
  m <- summary_metrics filtered ;;
  tc <- topic_counts filtered ;;
  sc <- sent_counts filtered ;;
  st <- sent_time filtered ;;
  Ok {| shown := len filtered;
        metrics := m;
        topic_chart := tc;
        sentiment_chart := sc;
        time_chart := st;
        sample := sample_table filtered;
        download := csv_bytes filtered |}.

End Script.

End App.

(** ** generate_charts.py: the batch script *)

Module Charts.
Import pd.

Definition INPUT_CSV : string := "all_comments_with_topics_and_sentiment.csv".

(** The directory of the charts; the module creates it when it is loaded. *)
Definition OUTPUT_DIR : string := "charts".

(** [OUTPUT_DIR / name] *)
Definition out_file (name : string) : string := OUTPUT_DIR ++ "/" ++ name.

(** What reaches [plt.savefig]: the title and the plotted data. *)
Inductive figure : Type :=
| BarCounts (title : string) (bars : list (string * nat))
| BarDays (title : string) (bars : list (Z * nat))
| StackedPct (title : string) (t : Pivot string float)
| Lines (title : string) (t : Pivot Z nat).

(** The effects of a run: the image files written, each with the figure it
    holds, and the console lines. *)
Record Output : Type := {
  saved : list (string * figure);
  printed : list string
}.

Definition print (msg : string) (o : Output) : Output :=
  {| saved := saved o; printed := printed o ++ [msg] |}.

Definition savefig (out_path : string) (fig : figure) (o : Output) : Output :=
  {| saved := saved o ++ [(out_path, fig)]; printed := printed o |}.

Section Script.

Variable parse_utc : cell -> option Z.

(** The rendering library drawing a figure ([plt.figure], [.plot], [plt.bar],
    the titles and labels): it returns or raises. *)
Variable render : figure -> result unit.

(** The plotting calls of a view, from [plt.figure] to [plt.close]. *)
Definition draw_and_save (fig : figure) (out_path : string) (o : Output)
  : result Output :=
  render fig ;;
  Ok (savefig out_path fig o).

Definition load_data (fs : FileSystem) (csv_path : string) : result DataFrame :=
  df <- read_csv fs csv_path ;;
  if has_col df "published_at" then
    s <- getcol df "published_at" ;;
    let df := setcol df "published_at" (to_datetime parse_utc s) in
    s' <- getcol df "published_at" ;;
    Ok (setcol df "date" (dt_date s'))
  else Ok (setcol_scalar df "date" NaT).

Definition plot_overall_sentiment (df : DataFrame) (out_path : string)
  (o : Output) : result Output :=
  if negb (has_col df "sentiment_label") then
    Ok (print "No 'sentiment_label' column found. Skipping overall sentiment chart." o)
  else
    s <- getcol df "sentiment_label" ;;
    let counts := sort_index_counts (value_counts s) in
    o <- draw_and_save (BarCounts "Overall Sentiment Distribution" counts)
           out_path o ;;
    Ok (print ("Saved overall sentiment chart -> " ++ out_path) o).

Definition plot_topic_distribution (df : DataFrame) (out_path : string)
  (o : Output) : result Output :=
  if negb (has_col df "topic_label") then
    Ok (print "No 'topic_label' column found. Skipping topic distribution chart." o)
  else
    s <- getcol df "topic_label" ;;
    let topic_counts := sort_values_desc (value_counts s) in
    o <- draw_and_save
           (BarCounts "Topic Distribution (Share of Comments per Topic)"
                      topic_counts) out_path o ;;
    Ok (print ("Saved topic distribution chart -> " ++ out_path) o).

Definition crosstab_pct (df : DataFrame) : result (Pivot string float) :=
  a <- getcol df "topic_label" ;;
  b <- getcol df "sentiment_label" ;;
  let crosstab := crosstab a b in
  Ok (div_axis0_times100 crosstab (sum_axis1 crosstab)).

Definition plot_sentiment_by_topic (df : DataFrame) (out_path : string)
  (o : Output) : result Output :=
  if negb (has_col df "topic_label") || negb (has_col df "sentiment_label") then
    Ok (print "Missing 'topic_label' or 'sentiment_label'. Skipping sentiment-by-topic chart." o)
  else
    t <- crosstab_pct df ;;
    o <- draw_and_save (StackedPct "Sentiment within Each Topic (Stacked %)" t)
           out_path o ;;
    Ok (print ("Saved sentiment-by-topic chart -> " ++ out_path) o).

(** ["date" not in df.columns or df["date"].isna().all()] *)
Definition no_dates (df : DataFrame) : result bool :=
  if negb (has_col df "date") then Ok true
  else s <- getcol df "date" ;; Ok (all_isna s).

Definition plot_comments_per_day (df : DataFrame) (out_path : string)
  (o : Output) : result Output :=
  skip <- no_dates df ;;
  if skip then
    Ok (print "No 'date' column or all dates NaT. Skipping comments-per-day chart." o)
  else
    s <- getcol df "date" ;;
    let counts := groupby_size s in
    o <- draw_and_save (BarDays "Number of Comments per Day" counts)
           out_path o ;;
    Ok (print ("Saved comments-per-day chart -> " ++ out_path) o).

Definition sentiment_over_time_counts (df : DataFrame) : result (Pivot Z nat) :=
  let tmp := df in
  a <- getcol tmp "date" ;;
  b <- getcol tmp "sentiment_label" ;;
  Ok (sort_index Z.eq_dec ZSort.sort
        (unstack Z.eq_dec ZSort.sort 0
           (group_sizes Z.eq_dec ZSort.sort (key_pairs date_of a b)))).

Definition plot_sentiment_over_time (df : DataFrame) (out_path : string)
  (o : Output) : result Output :=
  nodate <- no_dates df ;;
  if nodate || negb (has_col df "sentiment_label") then
    Ok (print "Missing 'date' or 'sentiment_label'. Skipping sentiment-over-time chart." o)
  else
    counts <- sentiment_over_time_counts df ;;
    if empty counts then
      Ok (print "No data after grouping for sentiment-over-time. Skipping chart." o)
    else
      o <- draw_and_save (Lines "Sentiment Over Time (Daily Counts)" counts)
             out_path o ;;
      Ok (print ("Saved sentiment-over-time chart -> " ++ out_path) o).

Definition main (fs : FileSystem) (o : Output) : result Output :=
  if negb (path_exists fs INPUT_CSV) then
    Raise (FileNotFoundError
             ("Could not find " ++ INPUT_CSV ++ " in current directory."))
  else
    df <- load_data fs INPUT_CSV ;;
    o <- plot_overall_sentiment df (out_file "overall_sentiment.png") o ;;
    o <- plot_topic_distribution df (out_file "topic_distribution.png") o ;;
    o <- plot_sentiment_by_topic df (out_file "sentiment_by_topic.png") o ;;
    o <- plot_comments_per_day df (out_file "comments_per_day.png") o ;;
    plot_sentiment_over_time df (out_file "sentiment_over_time.png") o.

End Script.

End Charts.

(** * Vocabulary of the properties *)

Import pd.

(** ** Normalized tables

    A table is normalized when it has a [date] column whose cells are dates
    or missing values: what both loaders return. *)

Definition date_or_na (c : cell) : bool :=
  match c with
  | NaN | NaT | PyNone | Date _ => true
  | _ => false
  end.

Definition normalized (df : DataFrame) : bool :=
  has_col df "date" && forallb (fun r : Row => date_or_na (r "date")) (rows df).

Definition undated_row (novalue : cell) (r : Row) : Row :=
  set_cell r "date" novalue.

Section LoadedTables.

Variable parse_utc : cell -> option Z.

(** The row a loader makes of a raw row when the table has a
    [published_at] column. *)
Definition parsed_row (r : Row) : Row :=
  let ts := to_datetime_cell parse_utc (r "published_at") in
  set_cell (set_cell r "published_at" ts) "date" (dt_date_cell ts).

Definition normalize (novalue : cell) (raw : DataFrame) : DataFrame :=
  {| columns := add_col (columns raw) "date";
     rows := if has_col raw "published_at" then map parsed_row (rows raw)
             else map (undated_row novalue) (rows raw) |}.

(** How the loaded table [df] relates to the raw table: it has a [date]
    column, put last when the file has none; it has the rows of the file in
    the same order; outside [published_at] and [date] no cell changes.  With
    a [published_at] column, a timestamp that is missing or does not parse
    leaves [NaT] in both columns, and one that parses to the instant [ns]
    (nanoseconds since the epoch, in UTC) leaves that instant and the day
    that contains it, the time of day dropped.  Without the column, [date]
    is [novalue] on every row, a missing value. *)
Definition loaded_from (novalue : cell) (raw df : DataFrame) : Prop :=
  In "date" (columns df) /\
  has_col df "date" = true /\
  (In "date" (columns raw) -> columns df = columns raw) /\
  (~ In "date" (columns raw) -> columns df = columns raw ++ ["date"]) /\
  len df = len raw /\
  forall i r, nth_error (rows raw) i = Some r ->
    exists r', nth_error (rows df) i = Some r' /\
      (forall c, c <> "published_at" -> c <> "date" -> r' c = r c) /\
      (has_col raw "published_at" = true ->
         (isna (r "published_at") = true \/ parse_utc (r "published_at") = None ->
          r' "published_at" = NaT /\ r' "date" = NaT) /\
         (forall ns, isna (r "published_at") = false ->
                     parse_utc (r "published_at") = Some ns ->
                     r' "published_at" = Timestamp ns /\
                     exists d, r' "date" = Date d /\
                               (d * 86400000000000 <= ns
                                < (d + 1) * 86400000000000)%Z)) /\
      (has_col raw "published_at" = false ->
         r' "published_at" = r "published_at" /\
         r' "date" = novalue /\ isna (r' "date") = true).

End LoadedTables.

(** ** Filter criteria *)

(** The test the date filter applies to the [date] cell of a row. *)
Definition in_range (lo hi : Z) (c : cell) : bool :=
  match c with
  | Date d => (lo <=? d)%Z && (d <=? hi)%Z
  | _ => false
  end.

(** What it means for a row to satisfy the criteria: the topic and the
    sentiment are each either the sentinel or the label of the row, and the
    date of the row lies in the range when one is supplied. *)
Definition satisfies (topic sentiment : string) (range : option (Z * Z))
  (r : Row) : Prop :=
  (topic = "All" \/ r "topic_label" = Str topic) /\
  (sentiment = "All" \/ r "sentiment_label" = Str sentiment) /\
  (forall lo hi, range = Some (lo, hi) ->
     exists d, r "date" = Date d /\ (lo <= d <= hi)%Z).

Definition label_passes (chosen : string) (c : cell) : bool :=
  String.eqb chosen "All" || eq_str chosen c.

Definition range_passes (range : option (Z * Z)) (c : cell) : bool :=
  match range with
  | Some (lo, hi) => in_range lo hi c
  | None => true
  end.

Definition satisfiesb (topic sentiment : string) (range : option (Z * Z))
  (r : Row) : bool :=
  label_passes topic (r "topic_label") &&
  label_passes sentiment (r "sentiment_label") &&
  range_passes range (r "date").

(** ** Counts and percentages *)

Definition count_rows (p : Row -> bool) (df : DataFrame) : nat :=
  List.length (filter p (rows df)).

(** The number of rows of a table whose sentiment is [label]; a row without
    a sentiment counts for no label. *)
Definition count_sentiment (label : string) (df : DataFrame) : nat :=
  List.length (filter (fun r : Row => eq_str label (r "sentiment_label")) (rows df)).

(** [c / n * 100] in binary64, as the scripts compute it. *)
Definition float_pct (c n : nat) : float :=
  PrimFloat.mul (PrimFloat.div (float_of_nat c) (float_of_nat n)) 100%float.

(** [c / n * 100] as a rational number. *)
Definition exact_pct (c n : nat) : Q :=
  (inject_Z (Z.of_nat c) / inject_Z (Z.of_nat n)) * 100.

Definition Qsum (l : list Q) : Q := fold_right Qplus 0%Q l.

Definition dated_on (d : Z) (r : Row) : bool :=
  match r "date" with
  | Date x => Z.eqb x d
  | _ => false
  end.

Definition has_sentiment (r : Row) : bool :=
  match r "sentiment_label" with
  | Str _ => true
  | _ => false
  end.

(** The number of rows on topic [t] with sentiment [l], and with any
    sentiment. *)
Definition topic_sentiment_count (df : DataFrame) (t l : string) : nat :=
  count_rows (fun r => eq_str t (r "topic_label") &&
                       eq_str l (r "sentiment_label")) df.

Definition topic_count (df : DataFrame) (t : string) : nat :=
  count_rows (fun r => eq_str t (r "topic_label") && has_sentiment r) df.

(** The table both scripts compute from the [date] and [sentiment_label]
    columns. *)
Definition daily_counts (df : DataFrame) : Pivot Z nat :=
  unstack Z.eq_dec ZSort.sort 0
    (group_sizes Z.eq_dec ZSort.sort
       (key_pairs date_of (map (fun r : Row => r "date") (rows df))
                          (map (fun r : Row => r "sentiment_label") (rows df)))).

(** The contingency table the batch script builds. *)
Definition topic_crosstab (df : DataFrame) : Pivot string nat :=
  crosstab (map (fun r : Row => r "topic_label") (rows df))
           (map (fun r : Row => r "sentiment_label") (rows df)).

(** ** Group keys, row by row *)

Section RowKeys.

Context {K : Type}.
Variable K_eq_dec : forall a b : K, {a = b} + {a <> b}.
Variable key_of : cell -> option K.
Variables c1 c2 : string.

(** The key pair of a row, when it has both keys. *)
Definition row_keys (r : Row) : option (K * string) :=
  match key_of (r c1), label_of (r c2) with
  | Some k, Some l => Some (k, l)
  | _, _ => None
  end.

Definition carries (p : K * string) (r : Row) : bool :=
  match row_keys r with
  | Some q => pair_eqb K_eq_dec p q
  | None => false
  end.

Definition carries_key (k : K) (r : Row) : bool :=
  match row_keys r with
  | Some q => if K_eq_dec k (fst q) then true else false
  | None => false
  end.

Definition pairs_of_rows (l : list Row) : list (K * string) :=
  flat_map (fun r => match row_keys r with Some p => [p] | None => [] end) l.

End RowKeys.

(** ** Outcomes of a batch view *)








(** What a view does once its figure went to the rendering library: it
    raises when the library raised, and else leaves the output [o]. *)
Definition after_render (res : result unit) (o : Charts.Output)
  : result Charts.Output :=
  match res with
  | Ok _ => Ok o
  | Raise e => Raise e
  end.

(** ** Example tables *)

Definition blank : Row := fun _ => NaN.

Definition comment (topic sentiment date : cell) : Row :=
  set_cell (set_cell (set_cell blank "topic_label" topic)
                     "sentiment_label" sentiment) "date" date.

(** Four comments on two topics and two days. *)
Definition four_comments : DataFrame :=
  {| columns := ["topic_label"; "sentiment_label"; "date"];
     rows := [comment (Str "A") (Str "POSITIVE") (Date 20028);
              comment (Str "A") (Str "NEGATIVE") (Date 20028);
              comment (Str "B") (Str "POSITIVE") (Date 20029);
              comment (Str "B") (Str "POSITIVE") (Date 20029)] |}.

(** One POSITIVE and two NEGATIVE comments; two POSITIVE and nine NEGATIVE. *)
Definition one_of_three : DataFrame :=
  {| columns := ["sentiment_label"];
     rows := [set_cell blank "sentiment_label" (Str "POSITIVE");
              set_cell blank "sentiment_label" (Str "NEGATIVE");
              set_cell blank "sentiment_label" (Str "NEGATIVE")] |}.

Definition two_of_eleven : DataFrame :=
  {| columns := ["sentiment_label"];
     rows := repeat (set_cell blank "sentiment_label" (Str "POSITIVE")) 2
             ++ repeat (set_cell blank "sentiment_label" (Str "NEGATIVE")) 9 |}.

(** Two comments of one day, one of them without a sentiment. *)
Definition unlabelled_comment : DataFrame :=
  {| columns := ["topic_label"; "sentiment_label"; "date"];
     rows := [comment (Str "A") (Str "POSITIVE") (Date 20028);
              comment (Str "A") NaN (Date 20028)] |}.

(** One comment, on topic A, without a sentiment. *)
Definition unlabelled_topic : DataFrame :=
  {| columns := ["topic_label"; "sentiment_label"; "date"];
     rows := [comment (Str "A") NaN (Date 20028)] |}.

(** One comment with a date and neither a topic nor a sentiment. *)
Definition no_labels : DataFrame :=
  {| columns := ["topic_label"; "sentiment_label"; "date"];
     rows := [comment NaN NaN (Date 20028)] |}.

Definition nothing_yet : Charts.Output :=
  {| Charts.saved := []; Charts.printed := [] |}.


(** A raw file: the four comments as the CSV reader returns them, with their
    timestamps as text, and a fifth comment whose timestamp is no date. *)
Definition raw_comment (topic sentiment published_at : cell) : Row :=
  set_cell (set_cell (set_cell blank "topic_label" topic)
                     "sentiment_label" sentiment) "published_at" published_at.

Definition raw_comments : DataFrame :=
  {| columns := ["published_at"; "topic_label"; "sentiment_label"];
     rows := [raw_comment (Str "A") (Str "POSITIVE") (Str "2024-11-01T10:00:00Z");
              raw_comment (Str "A") (Str "NEGATIVE") (Str "2024-11-01T23:59:59Z");
              raw_comment (Str "B") (Str "POSITIVE") (Str "2024-11-02T00:00:00Z");
              raw_comment (Str "B") (Str "POSITIVE") (Str "2024-11-02T08:30:00Z");
              raw_comment (Str "B") (Str "NEGATIVE") (Str "yesterday")] |}.

(** The instants of the timestamps of [raw_comments]; any other text does
    not parse. *)
Definition parse_example (c : cell) : option Z :=
  match c with
  | Str s =>
      if String.eqb s "2024-11-01T10:00:00Z" then Some 1730455200000000000%Z
      else if String.eqb s "2024-11-01T23:59:59Z" then Some 1730505599000000000%Z
      else if String.eqb s "2024-11-02T00:00:00Z" then Some 1730505600000000000%Z
      else if String.eqb s "2024-11-02T08:30:00Z" then Some 1730536200000000000%Z
      else None
  | _ => None
  end.

Definition raw_disk : FileSystem :=
  fun p => if String.eqb p App.CSV_PATH || String.eqb p Charts.INPUT_CSV
           then Some raw_comments else None.


(** The same file without the comment whose timestamp is no date: every row
    of the loaded table has a date. *)
Definition clean_comments : DataFrame :=
  {| columns := columns raw_comments; rows := firstn 4 (rows raw_comments) |}.

Definition clean_disk : FileSystem :=
  fun p => if String.eqb p App.CSV_PATH then Some clean_comments else None.




(** Reductions for the examples.  On a column whose cells are all dates they
    return the least and the greatest date; on a column that holds anything
    else they raise [TypeError], a date and another value having no order. *)
Fixpoint all_dates (s : Series) : option (list Z) :=
  match s with
  | [] => Some []
  | Date d :: s' => option_map (cons d) (all_dates s')
  | _ :: _ => None
  end.

Definition reduce_dates (pick : Z -> Z -> Z) (s : Series) : result cell :=
  match all_dates s with
  | Some [] => Ok NaN
  | Some (d :: l) => Ok (Date (fold_right pick d l))
  | None => Raise TypeError
  end.

Definition dates_min : Series -> result cell := reduce_dates Z.min.
Definition dates_max : Series -> result cell := reduce_dates Z.max.

(** A date widget in which the dates [t] are picked, whatever it is seeded
    with. *)
Definition user_picks (t : list Z) : cell * cell -> result (list Z) :=
  fun _ => Ok t.

(** ** Distributions *)

(** A row has a label in column [c]. *)
Definition labelled (c : string) (r : Row) : bool :=
  match r c with
  | Str _ => true
  | _ => false
  end.

(** A row has a date. *)
Definition dated (r : Row) : bool :=
  match r "date" with
  | Date _ => true
  | _ => false
  end.

(** The counts of a distribution never increase along it. *)
Definition descending (vc : list (string * nat)) : Prop :=
  StronglySorted (fun a b : string * nat => snd b <= snd a) vc.

Definition total_count {K : Type} (vc : list (K * nat)) : nat :=
  fold_right Nat.add 0 (map snd vc).

(** [vc] is the distribution of column [c] of [df]: one entry per label that
    occurs, with the number of rows that carry it, the largest first. *)
Definition distribution_of (c : string) (df : DataFrame)
  (vc : list (string * nat)) : Prop :=
  NoDup (map fst vc) /\
  (forall l n, In (l, n) vc <->
     0 < n /\ n = count_rows (fun r => eq_str l (r c)) df) /\
  descending vc /\
  total_count vc = count_rows (labelled c) df.

(** The labels that occur in column [c] of [df], each once, in ascending
    order. *)
Definition labels_in_order (c : string) (df : DataFrame) (ls : list string)
  : Prop :=
  StronglySorted String_as_OT.lt ls /\
  forall l, In l ls <-> exists r, In r (rows df) /\ r c = Str l.

(** A row has both a date and a sentiment. *)
Definition dated_and_labelled (r : Row) : bool := dated r && has_sentiment r.

(** ** The files of a batch run

    The charts a run on table [df] writes, in the order of the views. *)
Definition written_files (df : DataFrame) : list string :=
  (if has_col df "sentiment_label"
   then [Charts.out_file "overall_sentiment.png"] else []) ++
  (if has_col df "topic_label"
   then [Charts.out_file "topic_distribution.png"] else []) ++
  (if has_col df "topic_label" && has_col df "sentiment_label"
   then [Charts.out_file "sentiment_by_topic.png"] else []) ++
  (if existsb dated (rows df)
   then [Charts.out_file "comments_per_day.png"] else []) ++
  (if has_col df "sentiment_label" && existsb dated_and_labelled (rows df)
   then [Charts.out_file "sentiment_over_time.png"] else []).

(** What one view adds to the output: one console line, and its file when
    it [writes]. *)
Definition view_writes (o : Charts.Output) (out_path : string) (writes : bool)
  (o' : Charts.Output) : Prop :=
  (exists msg, Charts.printed o' = Charts.printed o ++ [msg]) /\
  map fst (Charts.saved o')
  = map fst (Charts.saved o) ++ (if writes then [out_path] else []).

(** ** The page of the dashboard

    A page agrees with the loaded table [df] and the selections: the number
    shown, the total of the metrics and the number of records of the
    download are the number of rows of [df] that satisfy the selections; the
    sample table has at most 200 of them; the download has the columns of
    [df]; each distribution is missing exactly when no row is left. *)
Definition consistent_page (df : DataFrame) (topic sentiment : string)
  (range : option (Z * Z)) (page : App.Page) : Prop :=
  App.shown page = count_rows (satisfiesb topic sentiment range) df /\
  App.shown page <= len df /\
  App.total (App.metrics page) = App.shown page /\
  List.length (records (App.download page)) = App.shown page /\
  header (App.download page) = columns df /\
  len (App.sample page) = Nat.min 200 (App.shown page) /\
  (App.topic_chart page = None <-> App.shown page = 0) /\
  (App.sentiment_chart page = None <-> App.shown page = 0).

(** * Properties *)

(** ** Frames and masks *)

Lemma getcol_present (df : DataFrame) (c : string) :
  has_col df c = true -> getcol df c = Ok (map (fun r : Row => r c) (rows df)).
Proof. intros H. unfold getcol. rewrite H. reflexivity. Qed.

Lemma getcol_absent (df : DataFrame) (c : string) :
  has_col df c = false -> getcol df c = Raise (KeyError c).
Proof. intros H. unfold getcol. rewrite H. reflexivity. Qed.

Lemma mask_of_predicate {A : Type} (p : A -> bool) (l : list A) :
  map fst (filter snd (combine l (map p l))) = filter p l.
Proof.
  induction l as [|a l IH]; simpl; [reflexivity|].
  destruct (p a); simpl; rewrite IH; reflexivity.
Qed.

Lemma select_column_test (df : DataFrame) (c : string) (p : cell -> bool) :
  select df (map p (map (fun r : Row => r c) (rows df)))
  = {| columns := columns df; rows := filter (fun r => p (r c)) (rows df) |}.
Proof.
  unfold select. f_equal. rewrite map_map. apply mask_of_predicate.
Qed.

Lemma mask_and_map {A : Type} (f g : A -> bool) (l : list A) :
  mask_and (map f l) (map g l) = map (fun a => f a && g a) l.
Proof.
  unfold mask_and. induction l as [|a l IH]; simpl; [reflexivity|].
  rewrite IH. reflexivity.
Qed.

Lemma filter_filter {A : Type} (f g : A -> bool) (l : list A) :
  filter g (filter f l) = filter (fun a => f a && g a) l.
Proof.
  induction l as [|a l IH]; simpl; [reflexivity|].
  destruct (f a); simpl; [destruct (g a)|]; rewrite IH; reflexivity.
Qed.

Lemma filter_all {A : Type} (f : A -> bool) (l : list A) :
  (forall a, In a l -> f a = true) -> filter f l = l.
Proof.
  induction l as [|a l IH]; simpl; intros H; [reflexivity|].
  rewrite (H a (or_introl eq_refl)). f_equal. apply IH. intros b Hb. apply H. now right.
Qed.

Lemma filter_none {A : Type} (f : A -> bool) (l : list A) :
  (forall a, In a l -> f a = false) -> filter f l = [].
Proof.
  induction l as [|a l IH]; simpl; intros H; [reflexivity|].
  rewrite (H a (or_introl eq_refl)). apply IH. intros b Hb. apply H. now right.
Qed.

(** ** Normalized tables and the date test *)

Lemma cmp_date_typed (op : Z -> Z -> bool) (d : Z) (s : Series) :
  forallb date_or_na s = true ->
  mapM (cmp_date op d) s
  = Ok (map (fun c => match c with Date x => op x d | _ => false end) s).
Proof.
  induction s as [|c s IH]; simpl; intros H; [reflexivity|].
  apply andb_true_iff in H. destruct H as [Hc Hs].
  rewrite (IH Hs). destruct c; simpl in *; try discriminate; reflexivity.
Qed.

Lemma normalized_date_column (df : DataFrame) :
  normalized df = true ->
  has_col df "date" = true /\
  forallb date_or_na (map (fun r : Row => r "date") (rows df)) = true.
Proof.
  unfold normalized. intros H. apply andb_true_iff in H. destruct H as [H1 H2].
  split; [exact H1|]. rewrite forallb_forall in *. intros c Hc.
  apply in_map_iff in Hc. destruct Hc as [r [<- Hr]]. apply H2, Hr.
Qed.

Lemma filter_dates_range (df : DataFrame) (lo hi : Z) :
  normalized df = true ->
  App.filter_dates df (Some lo) (Some hi)
  = Ok {| columns := columns df;
          rows := filter (fun r : Row => in_range lo hi (r "date")) (rows df) |}.
Proof.
  intros Hn. destruct (normalized_date_column df Hn) as [Hc Ht].
  unfold App.filter_dates. rewrite Hc, (getcol_present df "date" Hc). simpl.
  unfold ge_date, le_date. rewrite !(cmp_date_typed _ _ _ Ht). simpl.
  rewrite mask_and_map. rewrite select_column_test. do 2 f_equal.
  apply filter_ext. intros r. unfold in_range.
  destruct (r "date"); try reflexivity. now rewrite Z.geb_leb.
Qed.

Lemma in_range_spec (lo hi : Z) (c : cell) :
  in_range lo hi c = true <-> exists d, c = Date d /\ (lo <= d <= hi)%Z.
Proof.
  unfold in_range. split.
  - destruct c; try discriminate. intros H. apply andb_true_iff in H.
    exists day. split; [reflexivity|]. lia.
  - intros [d [-> Hd]]. apply andb_true_iff. lia.
Qed.

(** ** The filter engine *)

Lemma eq_str_spec (v : string) (c : cell) : eq_str v c = true <-> c = Str v.
Proof.
  destruct c; simpl; try (split; [discriminate | intros H; discriminate H]).
  rewrite String.eqb_eq. split; [intros ->; reflexivity | intros H; now inversion H].
Qed.

Lemma label_passes_spec (chosen : string) (c : cell) :
  label_passes chosen c = true <-> chosen = "All" \/ c = Str chosen.
Proof.
  unfold label_passes. rewrite orb_true_iff, String.eqb_eq, eq_str_spec. reflexivity.
Qed.

Lemma range_passes_spec (range : option (Z * Z)) (c : cell) :
  range_passes range c = true <->
  (forall lo hi, range = Some (lo, hi) -> exists d, c = Date d /\ (lo <= d <= hi)%Z).
Proof.
  destruct range as [[lo hi]|]; simpl.
  - rewrite in_range_spec. split.
    + intros H lo' hi' E. inversion E; subst. exact H.
    + intros H. apply H. reflexivity.
  - split; [intros _ lo hi E; discriminate E | reflexivity].
Qed.

Lemma satisfiesb_spec (topic sentiment : string) (range : option (Z * Z)) (r : Row) :
  satisfiesb topic sentiment range r = true <-> satisfies topic sentiment range r.
Proof.
  unfold satisfiesb, satisfies.
  rewrite !andb_true_iff, !label_passes_spec, range_passes_spec. tauto.
Qed.

Lemma frame_eta (df : DataFrame) :
  {| columns := columns df; rows := rows df |} = df.
Proof. destruct df; reflexivity. Qed.

Lemma filter_topic_rows (df : DataFrame) (chosen : string) :
  has_col df "topic_label" = true ->
  App.filter_topic df chosen
  = Ok {| columns := columns df;
          rows := filter (fun r : Row => label_passes chosen (r "topic_label"))
                         (rows df) |}.
Proof.
  intros Hc. unfold App.filter_topic, label_passes.
  destruct (String.eqb chosen "All"); simpl.
  - rewrite filter_all by reflexivity. now rewrite frame_eta.
  - rewrite (getcol_present df _ Hc). simpl. now rewrite select_column_test.
Qed.

Lemma filter_sentiment_rows (df : DataFrame) (chosen : string) :
  has_col df "sentiment_label" = true ->
  App.filter_sentiment df chosen
  = Ok {| columns := columns df;
          rows := filter (fun r : Row => label_passes chosen (r "sentiment_label"))
                         (rows df) |}.
Proof.
  intros Hc. unfold App.filter_sentiment, label_passes.
  destruct (String.eqb chosen "All"); simpl.
  - rewrite filter_all by reflexivity. now rewrite frame_eta.
  - rewrite (getcol_present df _ Hc). simpl. now rewrite select_column_test.
Qed.

Lemma filter_dates_rows (df : DataFrame) (range : option (Z * Z)) :
  normalized df = true ->
  App.filter_dates df (option_map fst range) (option_map snd range)
  = Ok {| columns := columns df;
          rows := filter (fun r : Row => range_passes range (r "date")) (rows df) |}.
Proof.
  intros Hn. destruct range as [[lo hi]|]; simpl.
  - now apply filter_dates_range.
  - rewrite filter_all by reflexivity. now rewrite frame_eta.
Qed.

Lemma normalized_filter (df : DataFrame) (p : Row -> bool) :
  normalized df = true ->
  normalized {| columns := columns df; rows := filter p (rows df) |} = true.
Proof.
  unfold normalized, has_col. simpl. intros H.
  apply andb_true_iff in H. destruct H as [H1 H2]. rewrite H1. simpl.
  rewrite forallb_forall in *. intros r Hr. apply filter_In in Hr. now apply H2.
Qed.

(** C2: on a normalized table that has the two label columns, the filters
    return exactly the rows that satisfy every supplied criterion, in their
    original order; the sentinel "All" lets every row pass, whatever its
    label.  Hence no more rows than the table has, and none when no row
    satisfies the criteria. *)
Theorem filter_engine_conjunction (df : DataFrame) (topic sentiment : string)
  (range : option (Z * Z)) :
  normalized df = true ->
  has_col df "topic_label" = true ->
  has_col df "sentiment_label" = true ->
  exists filtered,
    App.apply_filters df topic sentiment
      (option_map fst range) (option_map snd range) = Ok filtered /\
    columns filtered = columns df /\
    rows filtered = filter (satisfiesb topic sentiment range) (rows df) /\
    (forall r, In r (rows filtered) <->
               In r (rows df) /\ satisfies topic sentiment range r) /\
    len filtered <= len df /\
    ((forall r, In r (rows df) -> ~ satisfies topic sentiment range r) ->
     len filtered = 0).
Proof.
  intros Hn Ht Hs.
  exists {| columns := columns df;
            rows := filter (satisfiesb topic sentiment range) (rows df) |}.
  split; [|split; [reflexivity|split; [reflexivity|split; [|split]]]].
  - unfold App.apply_filters.
    rewrite (filter_topic_rows df topic Ht). cbn [bind].
    rewrite filter_sentiment_rows by exact Hs. cbn [bind columns rows].
    rewrite filter_dates_rows
      by (apply (normalized_filter
                   {| columns := columns df; rows := filter _ (rows df) |});
          now apply normalized_filter).
    cbn [columns rows]. rewrite !filter_filter. do 2 f_equal.
    apply filter_ext. intros r. unfold satisfiesb. now rewrite andb_assoc.
  - intros r. cbn [rows]. rewrite filter_In, satisfiesb_spec. reflexivity.
  - unfold len. cbn [rows]. apply filter_length_le.
  - intros Hnone. unfold len. cbn [rows]. rewrite filter_none; [reflexivity|].
    intros r Hr. destruct (satisfiesb topic sentiment range r) eqn:E; [|reflexivity].
    exfalso. apply (Hnone r Hr). now apply satisfiesb_spec.
Qed.

Lemma filter_engine_conjunction_witness :
  normalized four_comments = true /\
  has_col four_comments "topic_label" = true /\
  has_col four_comments "sentiment_label" = true /\
  exists filtered,
    App.apply_filters four_comments "A" "All" (Some 20028%Z) (Some 20029%Z)
    = Ok filtered /\
    rows filtered
    = filter (satisfiesb "A" "All" (Some (20028, 20029)%Z)) (rows four_comments) /\
    len filtered <= len four_comments.
Proof.
  repeat (split; [reflexivity|]).
  destruct (filter_engine_conjunction four_comments "A" "All"
              (Some (20028, 20029)%Z))
    as [f [H1 [_ [H3 [_ [H5 _]]]]]]; [reflexivity | reflexivity | reflexivity |].
  exists f. split; [exact H1 | split; [exact H3 | exact H5]].
Defined.

(** ** The loaders *)

Lemma has_col_add (cols : list string) (c : string) :
  existsb (String.eqb c) (add_col cols c) = true.
Proof.
  unfold add_col. destruct (existsb (String.eqb c) cols) eqn:E; [exact E|].
  rewrite existsb_app. simpl. rewrite String.eqb_refl. now rewrite orb_true_r.
Qed.

Lemma has_col_add_other (cols : list string) (c c' : string) :
  existsb (String.eqb c') cols = true ->
  existsb (String.eqb c') (add_col cols c) = true.
Proof.
  intros H. unfold add_col. destruct (existsb (String.eqb c) cols); [exact H|].
  rewrite existsb_app, H. reflexivity.
Qed.

Lemma add_col_present (cols : list string) (c : string) :
  existsb (String.eqb c) cols = true -> add_col cols c = cols.
Proof. intros H. unfold add_col. now rewrite H. Qed.

Lemma setcol_of_rows (df : DataFrame) (c : string) (h : Row -> cell) :
  setcol df c (map h (rows df))
  = {| columns := add_col (columns df) c;
       rows := map (fun r : Row => set_cell r c (h r)) (rows df) |}.
Proof.
  unfold setcol. f_equal.
  induction (rows df) as [|r l IH]; simpl; [reflexivity|]. now rewrite IH.
Qed.

Section Loaders.

Variable parse_utc : cell -> option Z.

Lemma parse_and_date (raw : DataFrame) :
  has_col raw "published_at" = true ->
  (s <- getcol raw "published_at" ;;
   let df := setcol raw "published_at" (to_datetime parse_utc s) in
   s' <- getcol df "published_at" ;;
   Ok (setcol df "date" (dt_date s')))
  = Ok {| columns := add_col (columns raw) "date";
          rows := map (parsed_row parse_utc) (rows raw) |}.
Proof.
  intros Hc. rewrite (getcol_present raw _ Hc). cbn [bind].
  unfold to_datetime. rewrite map_map.
  rewrite (setcol_of_rows raw "published_at"
             (fun r => to_datetime_cell parse_utc (r "published_at"))).
  rewrite getcol_present
    by (unfold has_col; cbn [columns]; apply has_col_add).
  cbn [bind]. unfold dt_date.
  rewrite (map_map (fun r : Row => r "published_at") dt_date_cell).
  rewrite setcol_of_rows. cbn [columns rows].
  rewrite (add_col_present (columns raw) "published_at") by exact Hc.
  rewrite map_map. reflexivity.
Qed.

Lemma charts_load_data_normalize (fs : FileSystem) (path : string) :
  Charts.load_data parse_utc fs path
  = match fs path with
    | Some raw => Ok (normalize parse_utc NaT raw)
    | None => Raise (FileNotFoundError path)
    end.
Proof.
  unfold Charts.load_data, read_csv. destruct (fs path) as [raw|]; [|reflexivity].
  cbn [bind]. unfold normalize. destruct (has_col raw "published_at") eqn:Hc.
  - now apply parse_and_date.
  - reflexivity.
Qed.

Lemma app_load_data_normalize (fs : FileSystem) :
  App.load_data parse_utc fs
  = match fs App.CSV_PATH with
    | Some raw => Ok (normalize parse_utc PyNone raw)
    | None => Raise (FileNotFoundError App.CSV_PATH)
    end.
Proof.
  unfold App.load_data, read_csv. destruct (fs App.CSV_PATH) as [raw|]; [|reflexivity].
  cbn [bind]. unfold normalize. destruct (has_col raw "published_at") eqn:Hc.
  - now apply parse_and_date.
  - reflexivity.
Qed.

Lemma set_cell_same (r : Row) (c : string) (v : cell) : set_cell r c v c = v.
Proof. unfold set_cell. now rewrite String.eqb_refl. Qed.

Lemma set_cell_other (r : Row) (c c' : string) (v : cell) :
  c' <> c -> set_cell r c v c' = r c'.
Proof. intros H. unfold set_cell. apply String.eqb_neq in H. now rewrite H. Qed.

Lemma in_columns (cols : list string) (c : string) :
  existsb (String.eqb c) cols = true <-> In c cols.
Proof.
  rewrite existsb_exists. split.
  - intros [x [Hx E]]. apply String.eqb_eq in E. now subst x.
  - intros H. exists c. split; [exact H | apply String.eqb_refl].
Qed.

Lemma add_col_columns (cols : list string) (c : string) :
  In c (add_col cols c) /\
  (In c cols -> add_col cols c = cols) /\
  (~ In c cols -> add_col cols c = cols ++ [c]).
Proof.
  unfold add_col. destruct (existsb (String.eqb c) cols) eqn:E.
  - apply in_columns in E. split; [exact E|]. split; [reflexivity|].
    intros H. now elim H.
  - split; [apply in_or_app; right; now left|]. split; [|reflexivity].
    intros H. apply in_columns in H. rewrite H in E. discriminate.
Qed.

(** The day of an instant contains it. *)
Lemma day_of_instant (ns : Z) :
  (ns / ns_per_day * 86400000000000 <= ns
   < (ns / ns_per_day + 1) * 86400000000000)%Z.
Proof.
  unfold ns_per_day.
  assert (Hpos : (0 < 86400000000000)%Z) by reflexivity.
  pose proof (Z.mul_div_le ns 86400000000000 Hpos) as Hle.
  pose proof (Z.mul_succ_div_gt ns 86400000000000 Hpos) as Hgt.
  lia.
Qed.

Lemma normalize_loaded_from (novalue : cell) (raw : DataFrame) :
  isna novalue = true -> loaded_from parse_utc novalue raw (normalize parse_utc novalue raw).
Proof.
  intros Hna. unfold loaded_from, normalize, len, has_col. cbn [columns rows].
  destruct (add_col_columns (columns raw) "date") as [Hin [Hold Hnew]].
  split; [exact Hin|]. split; [apply has_col_add|].
  split; [exact Hold|]. split; [exact Hnew|]. split.
  - destruct (existsb (String.eqb "published_at") (columns raw)); apply length_map.
  - intros i r Hi.
    destruct (existsb (String.eqb "published_at") (columns raw)) eqn:Hc.
    + exists (parsed_row parse_utc r). split; [now rewrite nth_error_map, Hi|].
      split; [|split; [|discriminate]].
      * intros c Hp Hd. unfold parsed_row. now rewrite !set_cell_other.
      * intros _. unfold parsed_row. cbn zeta.
        rewrite set_cell_same, set_cell_other by discriminate.
        rewrite set_cell_same. unfold to_datetime_cell. split.
        -- intros [H|H]; [now rewrite H|].
           destruct (isna (r "published_at")); [now split|]. now rewrite H.
        -- intros ns Hn Hp. rewrite Hn, Hp. split; [reflexivity|].
           exists (ns / ns_per_day)%Z. split; [reflexivity|].
           apply day_of_instant.
    + exists (undated_row novalue r). split; [now rewrite nth_error_map, Hi|].
      split; [|split; [discriminate|]].
      * intros c Hp Hd. unfold undated_row. now rewrite set_cell_other.
      * intros _. unfold undated_row.
        rewrite set_cell_same, set_cell_other by discriminate. now repeat split.
Qed.

Lemma normalize_normalized (novalue : cell) (raw : DataFrame) :
  isna novalue = true -> normalized (normalize parse_utc novalue raw) = true.
Proof.
  intros Hna. unfold normalized, has_col, normalize. cbn [columns rows].
  rewrite has_col_add. cbn [andb]. rewrite forallb_forall. intros r Hr.
  destruct (has_col raw "published_at").
  - apply in_map_iff in Hr. destruct Hr as [r0 [<- _]]. unfold parsed_row. cbn zeta.
    rewrite set_cell_same. unfold to_datetime_cell.
    destruct (isna (r0 "published_at")); [reflexivity|].
    destruct (parse_utc (r0 "published_at")); reflexivity.
  - apply in_map_iff in Hr. destruct Hr as [r0 [<- _]]. unfold undated_row.
    rewrite set_cell_same. destruct novalue; try discriminate; reflexivity.
Qed.

(** C6: neither loader raises on a bad timestamp.  When the file exists the
    loader returns a table that has a [date] column, the other columns of
    the file and its rows in order: a [published_at] that is missing or
    cannot be parsed becomes [NaT] and so does the [date] of that row,
    whatever the other rows hold; one that parses becomes its instant in UTC
    and [date] is the UTC day that contains that instant; without a
    [published_at] column [date] is a missing value on every row, [NaT] in
    the batch script and [None] in the dashboard.  The only failure is the
    missing file. *)
Theorem load_data_lenient (fs : FileSystem) (path : string) :
  match fs path with
  | Some raw =>
      exists df, Charts.load_data parse_utc fs path = Ok df /\
                 loaded_from parse_utc NaT raw df
  | None => Charts.load_data parse_utc fs path = Raise (FileNotFoundError path)
  end /\
  match fs App.CSV_PATH with
  | Some raw =>
      exists df, App.load_data parse_utc fs = Ok df /\
                 loaded_from parse_utc PyNone raw df
  | None => App.load_data parse_utc fs = Raise (FileNotFoundError App.CSV_PATH)
  end.
Proof.
  rewrite charts_load_data_normalize, app_load_data_normalize. split.
  - destruct (fs path) as [raw|]; [|reflexivity].
    exists (normalize parse_utc NaT raw). split; [reflexivity|].
    now apply normalize_loaded_from.
  - destruct (fs App.CSV_PATH) as [raw|]; [|reflexivity].
    exists (normalize parse_utc PyNone raw). split; [reflexivity|].
    now apply normalize_loaded_from.
Qed.

End Loaders.

(** ** The date filter *)

Lemma no_date_any_notna (df : DataFrame) :
  (forall r, In r (rows df) -> isna (r "date") = true) ->
  any_notna (map (fun r : Row => r "date") (rows df)) = false.
Proof.
  intros H. unfold any_notna.
  destruct (existsb notna (map (fun r : Row => r "date") (rows df))) eqn:E;
    [|reflexivity].
  apply existsb_exists in E. destruct E as [c [Hc Hn]].
  apply in_map_iff in Hc. destruct Hc as [r [<- Hr]].
  unfold notna in Hn. now rewrite (H r Hr) in Hn.
Qed.

Lemma date_range_without_dates (series_min series_max : Series -> result cell)
  (date_input : cell * cell -> result (list Z)) (df : DataFrame) :
  (forall r, In r (rows df) -> isna (r "date") = true) ->
  App.date_range series_min series_max date_input df = Ok (None, None).
Proof.
  intros H. unfold App.date_range, App.has_dates.
  destruct (has_col df "date") eqn:Hc; [|reflexivity].
  rewrite (getcol_present df _ Hc). cbn [bind].
  now rewrite (no_date_any_notna df H).
Qed.

(** C5: on a normalized table, a range [lo, hi] keeps exactly the rows whose
    date is present and lies between the two bounds, both included, so no
    row without a date remains; without a range the table passes unchanged,
    and that is what happens when no row has a date: the sidebar then yields
    no range at all. *)
Theorem date_filter_inclusive (series_min series_max : Series -> result cell)
  (date_input : cell * cell -> result (list Z))
  (df : DataFrame) (lo hi : Z) :
  normalized df = true ->
  (exists filtered,
     App.filter_dates df (Some lo) (Some hi) = Ok filtered /\
     columns filtered = columns df /\
     rows filtered = filter (fun r : Row => in_range lo hi (r "date")) (rows df) /\
     (forall r, In r (rows filtered) <->
                In r (rows df) /\
                exists d, r "date" = Date d /\ (lo <= d <= hi)%Z) /\
     (forall r, In r (rows filtered) -> isna (r "date") = false)) /\
  App.filter_dates df None None = Ok df /\
  ((forall r, In r (rows df) -> isna (r "date") = true) ->
   App.date_range series_min series_max date_input df = Ok (None, None) /\
   (rng <- App.date_range series_min series_max date_input df ;;
    App.filter_dates df (fst rng) (snd rng)) = Ok df).
Proof.
  intros Hn. split; [|split].
  - exists {| columns := columns df;
              rows := filter (fun r : Row => in_range lo hi (r "date")) (rows df) |}.
    split; [now apply filter_dates_range|].
    split; [reflexivity|]. split; [reflexivity|]. cbn [rows]. split.
    + intros r. now rewrite filter_In, in_range_spec.
    + intros r Hr. apply filter_In in Hr. destruct Hr as [_ Hr].
      apply in_range_spec in Hr. destruct Hr as [d [-> _]]. reflexivity.
  - reflexivity.
  - intros Hnone.
    rewrite (date_range_without_dates series_min series_max date_input df Hnone).
    split; reflexivity.
Qed.

Lemma date_filter_inclusive_witness :
  normalized four_comments = true /\
  exists filtered,
    App.filter_dates four_comments (Some 20029%Z) (Some 20030%Z) = Ok filtered /\
    len filtered = 2.
Proof.
  split; [reflexivity|].
  destruct (date_filter_inclusive dates_min dates_max (user_picks [])
              four_comments 20029 20030 eq_refl)
    as [[f [H1 [_ [H3 _]]]] _].
  exists f. split; [exact H1|]. unfold len. rewrite H3. reflexivity.
Defined.

(** ** Summary metrics *)

Lemma count_true_map {A : Type} (p : A -> bool) (l : list A) :
  List.length (filter (fun b : bool => b) (map p l)) = List.length (filter p l).
Proof.
  induction l as [|a l IH]; simpl; [reflexivity|].
  destruct (p a); simpl; now rewrite IH.
Qed.

Lemma label_pct_counts (df : DataFrame) (label : string) :
  has_col df "sentiment_label" = true ->
  App.label_pct df label = Ok (float_pct (count_sentiment label df) (len df)).
Proof.
  intros Hc. unfold App.label_pct. rewrite (getcol_present df _ Hc). cbn [bind].
  unfold mean_bool, float_pct, count_sentiment, len.
  rewrite (map_map (fun r : Row => r "sentiment_label") (eq_str label)).
  now rewrite count_true_map, length_map.
Qed.

Lemma filter_disjoint_length {A : Type} (f g : A -> bool) (l : list A) :
  (forall a, f a = true -> g a = false) ->
  List.length (filter f l) + List.length (filter g l) <= List.length l.
Proof.
  intros H. induction l as [|a l IH]; simpl; [lia|].
  destruct (f a) eqn:Ef; [rewrite (H a Ef)|destruct (g a)]; simpl; lia.
Qed.

Lemma filter_cover_length {A : Type} (f g : A -> bool) (l : list A) :
  (forall a, f a = true -> g a = false) ->
  (forall a, In a l -> f a = true \/ g a = true) ->
  List.length (filter f l) + List.length (filter g l) = List.length l.
Proof.
  intros H. induction l as [|a l IH]; simpl; intros Hc; [reflexivity|].
  assert (Hl : forall b, In b l -> f b = true \/ g b = true)
    by (intros b Hb; apply Hc; now right).
  specialize (IH Hl).
  destruct (f a) eqn:Ef.
  - rewrite (H a Ef). simpl. lia.
  - destruct (Hc a (or_introl eq_refl)) as [E|E]; [congruence|]. rewrite E. simpl. lia.
Qed.

Lemma positive_not_negative (c : cell) :
  eq_str "POSITIVE" c = true -> eq_str "NEGATIVE" c = false.
Proof.
  intros H. apply eq_str_spec in H. subst c. reflexivity.
Qed.

Lemma exact_pct_add (c d n : nat) :
  0 < n -> (exact_pct c n + exact_pct d n == exact_pct (c + d) n)%Q.
Proof.
  intros Hn. unfold exact_pct. rewrite Nat2Z.inj_add, inject_Z_plus. field.
  intros E. unfold Qeq in E. simpl in E. lia.
Qed.

Lemma exact_pct_full (n : nat) : 0 < n -> (exact_pct n n == 100)%Q.
Proof.
  intros Hn. unfold exact_pct. field.
  intros E. unfold Qeq in E. simpl in E. lia.
Qed.

Lemma exact_pct_le (c n : nat) : 0 < n -> c <= n -> (exact_pct c n <= 100)%Q.
Proof.
  intros Hn Hc. unfold exact_pct.
  assert (H0 : (0 < inject_Z (Z.of_nat n))%Q)
    by (change 0%Q with (inject_Z 0); rewrite <- Zlt_Qlt; lia).
  assert (H1 : (inject_Z (Z.of_nat c) / inject_Z (Z.of_nat n) <= 1)%Q).
  { apply Qle_shift_div_r; [exact H0|]. rewrite Qmult_1_l.
    rewrite <- Zle_Qle. lia. }
  setoid_replace (100%Q) with (1 * 100)%Q at 2 by reflexivity.
  apply Qmult_le_compat_r; [exact H1|]. discriminate.
Qed.

(** C1, as the code has it: the total is the number of rows; each
    percentage is [count / total * 100] computed in binary64, and [0.0] when
    the table is empty; a row without a sentiment counts in the total only.
    The two counts never exceed the total, so the exact quotients sum to at
    most 100, and to 100 when [total > 0] and every label is POSITIVE or
    NEGATIVE. *)
Theorem summary_metrics_counts (filtered : DataFrame) :
  has_col filtered "sentiment_label" = true ->
  let n := len filtered in
  let p := count_sentiment "POSITIVE" filtered in
  let q := count_sentiment "NEGATIVE" filtered in
  exists m,
    App.summary_metrics filtered = Ok m /\
    App.total m = n /\
    (n = 0 -> App.pos_pct m = 0%float /\ App.neg_pct m = 0%float) /\
    (0 < n -> App.pos_pct m = float_pct p n /\ App.neg_pct m = float_pct q n) /\
    p + q <= n /\
    (0 < n -> (exact_pct p n + exact_pct q n <= 100)%Q) /\
    (0 < n ->
     (forall r, In r (rows filtered) ->
        r "sentiment_label" = Str "POSITIVE" \/
        r "sentiment_label" = Str "NEGATIVE") ->
     p + q = n /\ (exact_pct p n + exact_pct q n == 100)%Q).
Proof.
  intros Hc n p q.
  assert (Hpq : p + q <= n).
  { apply filter_disjoint_length. intros r. apply positive_not_negative. }
  unfold App.summary_metrics. fold n.
  rewrite !(label_pct_counts filtered _ Hc). fold n p q. cbn [bind].
  destruct (Nat.ltb 0 n) eqn:E.
  - apply Nat.ltb_lt in E. eexists. split; [reflexivity|]. cbn.
    split; [reflexivity|]. split; [lia|]. split; [now split|].
    split; [exact Hpq|]. split.
    + intros _. rewrite exact_pct_add by exact E. now apply exact_pct_le.
    + intros _ Hall.
      assert (Heq : p + q = n).
      { apply filter_cover_length.
        - intros r. apply positive_not_negative.
        - intros r Hr. rewrite !eq_str_spec. now apply Hall. }
      split; [exact Heq|]. rewrite exact_pct_add by exact E. rewrite Heq.
      now apply exact_pct_full.
  - apply Nat.ltb_ge in E. eexists. split; [reflexivity|]. cbn.
    split; [reflexivity|]. split; [now split|]. split; [lia|].
    split; [exact Hpq|]. split; intros; lia.
Qed.

Lemma summary_metrics_counts_witness :
  has_col four_comments "sentiment_label" = true /\
  exists m, App.summary_metrics four_comments = Ok m /\ App.total m = 4 /\
            App.pos_pct m = 75%float /\ App.neg_pct m = 25%float.
Proof.
  split; [reflexivity|].
  destruct (summary_metrics_counts four_comments eq_refl)
    as [m [H1 [H2 [_ [H4 _]]]]].
  exists m. split; [exact H1|]. split; [exact H2|].
  destruct H4 as [Hp Hq]; [vm_compute; lia|]. rewrite Hp, Hq.
  split; vm_compute; reflexivity.
Defined.

(** C1 as stated fails on the binary64 values: with only POSITIVE and
    NEGATIVE labels the two percentages of [one_of_three] add up to
    99.99999999999999, and those of [two_of_eleven] to more than 100. *)
Lemma summary_percentages_are_rounded :
  (forall r, In r (rows one_of_three ++ rows two_of_eleven) ->
     r "sentiment_label" = Str "POSITIVE" \/ r "sentiment_label" = Str "NEGATIVE") /\
  (exists m, App.summary_metrics one_of_three = Ok m /\ App.total m = 3 /\
     PrimFloat.add (App.pos_pct m) (App.neg_pct m) = 0x1.8ffffffffffffp+6%float /\
     PrimFloat.eqb (PrimFloat.add (App.pos_pct m) (App.neg_pct m)) 100%float
     = false) /\
  (exists m, App.summary_metrics two_of_eleven = Ok m /\ App.total m = 11 /\
     PrimFloat.ltb 100%float (PrimFloat.add (App.pos_pct m) (App.neg_pct m))
     = true).
Proof.
  split; [|split].
  - intros r Hr. cbn in Hr.
    repeat (destruct Hr as [<-|Hr]; [(now left) || (now right)|]).
    destruct Hr.
  - eexists. split; [vm_compute; reflexivity|]. repeat split; vm_compute; reflexivity.
  - eexists. split; [vm_compute; reflexivity|]. repeat split; vm_compute; reflexivity.
Qed.

(** ** The download *)

Lemma has_col_In (df : DataFrame) (c : string) :
  has_col df c = true <-> In c (columns df).
Proof.
  unfold has_col. rewrite existsb_exists. split.
  - intros [x [Hx E]]. apply String.eqb_eq in E. now subst x.
  - intros H. exists c. split; [exact H | apply String.eqb_refl].
Qed.

(** C9, as the code has it: the download holds every row of the filtered
    table, in order, and every column of that table, with a header and no
    index column.  The columns of the sample table are among them, and so is
    any other column of the table, such as [date], which the sample table
    does not show. *)
Theorem csv_export_all_columns (filtered : DataFrame) :
  header (App.csv_bytes filtered) = columns filtered /\
  records (App.csv_bytes filtered)
  = map (fun r : Row => map r (columns filtered)) (rows filtered) /\
  List.length (records (App.csv_bytes filtered)) = len filtered /\
  columns (App.sample_table filtered) = App.show_cols filtered /\
  incl (App.show_cols filtered) (header (App.csv_bytes filtered)) /\
  (forall c, In c (App.show_cols filtered) <->
             In c App.visible_columns /\ In c (columns filtered)) /\
  (forall c, In c (columns filtered) -> ~ In c App.visible_columns ->
             In c (header (App.csv_bytes filtered)) /\
             ~ In c (columns (App.sample_table filtered))).
Proof.
  unfold App.csv_bytes, to_csv, App.sample_table, head, project, len.
  cbn [header records columns].
  assert (Hshow : forall c, In c (App.show_cols filtered) <->
                            In c App.visible_columns /\ In c (columns filtered)).
  { intros c. unfold App.show_cols. rewrite filter_In, has_col_In. reflexivity. }
  split; [reflexivity|]. split; [reflexivity|]. split; [apply length_map|].
  split; [reflexivity|]. split; [|split].
  - intros c Hc. now apply Hshow in Hc.
  - exact Hshow.
  - intros c Hc Hv. split; [exact Hc|]. intros Hs. apply Hshow in Hs. tauto.
Qed.

(** C9 as stated fails: the download of [four_comments] has a [date] column
    that is not among the columns of the sample table. *)
Lemma csv_export_has_hidden_column :
  normalized four_comments = true /\
  columns (App.sample_table four_comments) = ["topic_label"; "sentiment_label"] /\
  header (App.csv_bytes four_comments) = ["topic_label"; "sentiment_label"; "date"] /\
  header (App.csv_bytes four_comments) <> columns (App.sample_table four_comments).
Proof. repeat split; try reflexivity. discriminate. Qed.

(** ** Counting by group *)

Lemma uniq_labels_In (l : list string) (x : string) :
  In x (uniq_labels l) <-> In x l.
Proof.
  unfold uniq_labels. rewrite <- (nodup_In string_dec l x). split.
  - apply Permutation_in, Permutation_sym, StringSort.Permuted_sort.
  - apply Permutation_in, StringSort.Permuted_sort.
Qed.

Lemma uniq_labels_NoDup (l : list string) : NoDup (uniq_labels l).
Proof.
  unfold uniq_labels.
  apply (Permutation_NoDup (StringSort.Permuted_sort _)), NoDup_nodup.
Qed.

Section GroupByFacts.

Context {K : Type}.
Variable K_eq_dec : forall a b : K, {a = b} + {a <> b}.
Variable K_sort : list K -> list K.
Hypothesis K_sort_perm : forall l, Permutation l (K_sort l).

Lemma uniq_keys_In (l : list K) (x : K) :
  In x (uniq_keys K_eq_dec K_sort l) <-> In x l.
Proof.
  unfold uniq_keys. rewrite <- (nodup_In K_eq_dec l x). split.
  - apply Permutation_in, Permutation_sym, K_sort_perm.
  - apply Permutation_in, K_sort_perm.
Qed.

Lemma uniq_keys_NoDup (l : list K) : NoDup (uniq_keys K_eq_dec K_sort l).
Proof.
  unfold uniq_keys. apply (Permutation_NoDup (K_sort_perm _)), NoDup_nodup.
Qed.

Lemma pair_eqb_spec (p q : K * string) : pair_eqb K_eq_dec p q = true <-> p = q.
Proof.
  unfold pair_eqb. destruct p as [k l], q as [k' l']. simpl.
  destruct (K_eq_dec k k') as [->|N].
  - rewrite String.eqb_eq. split; [intros ->; reflexivity | intros H; now inversion H].
  - split; [discriminate | intros H; inversion H; contradiction].
Qed.

Lemma count_pair_pos (p : K * string) (pairs : list (K * string)) :
  count_pair K_eq_dec p pairs <> 0 <-> In p pairs.
Proof.
  unfold count_pair. induction pairs as [|q pairs IH]; simpl; [tauto|].
  destruct (pair_eqb K_eq_dec p q) eqn:E.
  - apply pair_eqb_spec in E. subst q. simpl. split; [now left | lia].
  - rewrite IH. split; [now right|]. intros [H|H]; [|exact H].
    subst q. rewrite (proj2 (pair_eqb_spec p p) eq_refl) in E. discriminate.
Qed.

Lemma group_sizes_In (pairs : list (K * string)) (e : (K * string) * nat) :
  In e (group_sizes K_eq_dec K_sort pairs) <->
  In (fst e) pairs /\ snd e = count_pair K_eq_dec (fst e) pairs.
Proof.
  unfold group_sizes. rewrite in_flat_map. split.
  - intros [k [_ H]]. apply in_flat_map in H. destruct H as [l [_ H]].
    destruct (Nat.eqb (count_pair K_eq_dec (k, l) pairs) 0) eqn:E; [destruct H|].
    destruct H as [<-|[]]. simpl. split; [|reflexivity].
    apply count_pair_pos. now apply Nat.eqb_neq.
  - destruct e as [[k l] n]. simpl. intros [Hin ->]. exists k. split.
    + apply uniq_keys_In. apply in_map_iff. exists (k, l). now split.
    + apply in_flat_map. exists l. split.
      * apply uniq_labels_In. apply in_map_iff. exists (k, l). now split.
      * apply count_pair_pos, Nat.eqb_neq in Hin. rewrite Hin. now left.
Qed.

Lemma lookup_size_fill (pairs : list (K * string)) (p : K * string) :
  match lookup_size K_eq_dec p (group_sizes K_eq_dec K_sort pairs) with
  | Some n => n
  | None => 0
  end = count_pair K_eq_dec p pairs.
Proof.
  unfold lookup_size.
  destruct (find (fun e => pair_eqb K_eq_dec p (fst e))
                 (group_sizes K_eq_dec K_sort pairs)) as [e|] eqn:F; simpl.
  - apply find_some in F. destruct F as [Hin E].
    apply pair_eqb_spec in E. apply group_sizes_In in Hin. destruct Hin as [_ ->].
    now rewrite E.
  - destruct (Nat.eq_dec (count_pair K_eq_dec p pairs) 0) as [Z|N]; [now rewrite Z|].
    exfalso. apply count_pair_pos in N.
    assert (Hin : In (p, count_pair K_eq_dec p pairs)
                     (group_sizes K_eq_dec K_sort pairs))
      by (apply group_sizes_In; now split).
    apply (find_none _ _ F) in Hin. simpl in Hin.
    rewrite (proj2 (pair_eqb_spec p p) eq_refl) in Hin. discriminate.
Qed.

Lemma observed_keys (pairs : list (K * string)) (k : K) :
  In k (map (fun e : (K * string) * nat => fst (fst e))
            (group_sizes K_eq_dec K_sort pairs)) <->
  exists l, In (k, l) pairs.
Proof.
  rewrite in_map_iff. split.
  - intros [[[k' l] n] [E H]]. simpl in E. subst k'. exists l.
    now apply group_sizes_In in H.
  - intros [l H]. exists ((k, l), count_pair K_eq_dec (k, l) pairs).
    split; [reflexivity|]. apply group_sizes_In. now split.
Qed.

Lemma observed_labels (pairs : list (K * string)) (l : string) :
  In l (map (fun e : (K * string) * nat => snd (fst e))
            (group_sizes K_eq_dec K_sort pairs)) <->
  exists k, In (k, l) pairs.
Proof.
  rewrite in_map_iff. split.
  - intros [[[k l'] n] [E H]]. simpl in E. subst l'. exists k.
    now apply group_sizes_In in H.
  - intros [k H]. exists ((k, l), count_pair K_eq_dec (k, l) pairs).
    split; [reflexivity|]. apply group_sizes_In. now split.
Qed.

(** The table of counts, with its fill value 0, is the table of the number
    of occurrences of each pair. *)
Lemma unstack_counts (pairs : list (K * string)) :
  let t := unstack K_eq_dec K_sort 0 (group_sizes K_eq_dec K_sort pairs) in
  NoDup (index t) /\
  NoDup (labels t) /\
  (forall k, In k (index t) <-> exists l, In (k, l) pairs) /\
  (forall l, In l (labels t) <-> exists k, In (k, l) pairs) /\
  cells t = map (fun k => map (fun l => count_pair K_eq_dec (k, l) pairs)
                              (labels t)) (index t).
Proof.
  cbn zeta. unfold unstack. cbn [index labels cells].
  split; [apply uniq_keys_NoDup|]. split; [apply uniq_labels_NoDup|].
  split; [|split].
  - intros k. rewrite uniq_keys_In. apply observed_keys.
  - intros l. rewrite uniq_labels_In. apply observed_labels.
  - apply map_ext. intros k. apply map_ext. intros l. apply lookup_size_fill.
Qed.

Lemma count_indicator (l : string) (labs : list string) :
  NoDup labs -> In l labs ->
  fold_right Nat.add 0 (map (fun x => if String.eqb x l then 1 else 0) labs) = 1.
Proof.
  induction labs as [|x labs IH]; simpl; intros Hnd Hin; [destruct Hin|].
  inversion Hnd as [|? ? Hx Hnd']; subst.
  destruct (String.eqb x l) eqn:E.
  - apply String.eqb_eq in E. subst x.
    assert (Hz : fold_right Nat.add 0
                   (map (fun x => if String.eqb x l then 1 else 0) labs) = 0).
    { clear IH Hin Hnd Hnd'. induction labs as [|y labs IH]; simpl; [reflexivity|].
      destruct (String.eqb y l) eqn:E.
      - apply String.eqb_eq in E. subst y. exfalso. apply Hx. now left.
      - apply IH. intros H. apply Hx. now right. }
    now rewrite Hz.
  - destruct Hin as [->|Hin]; [now rewrite String.eqb_refl in E|].
    now rewrite IH.
Qed.

Lemma no_indicator (l : string) (labs : list string) (k k' : K) :
  k' <> k ->
  fold_right Nat.add 0
    (map (fun x => if pair_eqb K_eq_dec (k, x) (k', l) then 1 else 0) labs) = 0.
Proof.
  intros N. induction labs as [|x labs IH]; simpl; [reflexivity|].
  rewrite IH. unfold pair_eqb. simpl. destruct (K_eq_dec k k'); [now subst|reflexivity].
Qed.

(** Along a row of the table the counts add up to the number of pairs that
    carry the key of the row. *)
Lemma row_sum_counts (pairs : list (K * string)) (labs : list string) (k : K) :
  NoDup labs ->
  (forall l, In (k, l) pairs -> In l labs) ->
  fold_right Nat.add 0 (map (fun l => count_pair K_eq_dec (k, l) pairs) labs)
  = List.length (filter (fun p : K * string =>
                           if K_eq_dec k (fst p) then true else false) pairs).
Proof.
  intros Hnd. induction pairs as [|[k' l'] pairs IH]; intros Hall.
  - simpl. induction labs; simpl; [reflexivity|].
    inversion Hnd; subst. now apply IHlabs.
  - assert (Hsplit :
      fold_right Nat.add 0
        (map (fun l => count_pair K_eq_dec (k, l) ((k', l') :: pairs)) labs)
      = fold_right Nat.add 0
          (map (fun x => if pair_eqb K_eq_dec (k, x) (k', l') then 1 else 0) labs)
        + fold_right Nat.add 0
            (map (fun l => count_pair K_eq_dec (k, l) pairs) labs)).
    { clear. induction labs as [|x labs IHl]; simpl; [reflexivity|].
      rewrite IHl. unfold count_pair. simpl.
      destruct (pair_eqb K_eq_dec (k, x) (k', l')); simpl; lia. }
    rewrite Hsplit, IH by (intros l Hl; apply Hall; now right).
    simpl. destruct (K_eq_dec k k') as [<-|N]; simpl.
    + assert (Hone :
        fold_right Nat.add 0
          (map (fun x => if pair_eqb K_eq_dec (k, x) (k, l') then 1 else 0) labs)
        = 1).
      { erewrite map_ext;
          [apply (count_indicator l' labs Hnd (Hall l' (or_introl eq_refl)))|].
        intros x. unfold pair_eqb. simpl.
        destruct (K_eq_dec k k); [reflexivity | contradiction]. }
      now rewrite Hone.
    + rewrite no_indicator by (intros E; now subst). reflexivity.
Qed.

End GroupByFacts.

(** ** From key pairs back to rows *)

Section RowsAndPairs.

Context {K : Type}.
Variable K_eq_dec : forall a b : K, {a = b} + {a <> b}.
Variable key_of : cell -> option K.
Variables c1 c2 : string.

Lemma key_pairs_of_columns (l : list Row) :
  key_pairs key_of (map (fun r : Row => r c1) l) (map (fun r : Row => r c2) l)
  = pairs_of_rows key_of c1 c2 l.
Proof.
  unfold key_pairs, pairs_of_rows, row_keys.
  induction l as [|r l IH]; simpl; [reflexivity|]. rewrite IH.
  destruct (key_of (r c1)); [destruct (label_of (r c2))|]; reflexivity.
Qed.

Lemma pairs_of_rows_In (l : list Row) (p : K * string) :
  In p (pairs_of_rows key_of c1 c2 l) <-> exists r, In r l /\ row_keys key_of c1 c2 r = Some p.
Proof.
  unfold pairs_of_rows. rewrite in_flat_map. split.
  - intros [r [Hr H]]. exists r. split; [exact Hr|].
    destruct (row_keys key_of c1 c2 r); [destruct H as [<-|[]]; reflexivity | destruct H].
  - intros [r [Hr E]]. exists r. split; [exact Hr|]. rewrite E. now left.
Qed.

Lemma count_pair_rows (l : list Row) (p : K * string) :
  count_pair K_eq_dec p (pairs_of_rows key_of c1 c2 l) = List.length (filter (carries K_eq_dec key_of c1 c2 p) l).
Proof.
  unfold count_pair, pairs_of_rows, carries.
  induction l as [|r l IH]; simpl; [reflexivity|].
  destruct (row_keys key_of c1 c2 r) as [q|]; simpl; [|exact IH].
  destruct (pair_eqb K_eq_dec p q); simpl; now rewrite IH.
Qed.

Lemma count_key_rows (l : list Row) (k : K) :
  List.length (filter (fun p : K * string =>
                         if K_eq_dec k (fst p) then true else false)
                      (pairs_of_rows key_of c1 c2 l))
  = List.length (filter (carries_key K_eq_dec key_of c1 c2 k) l).
Proof.
  unfold pairs_of_rows, carries_key.
  induction l as [|r l IH]; simpl; [reflexivity|].
  destruct (row_keys key_of c1 c2 r) as [q|]; simpl; [|exact IH].
  destruct (K_eq_dec k (fst q)); simpl; now rewrite IH.
Qed.

End RowsAndPairs.

(** ** Sorted keys *)

Lemma sorted_dates_le (l : list Z) : StronglySorted Z.le (ZSort.sort l).
Proof.
  assert (H : StronglySorted (fun x y => is_true (ZLeb.leb x y)) (ZSort.sort l))
    by (apply ZSort.StronglySorted_sort, ZLeb.leb_trans).
  induction H as [|a s Hs IH Ha]; constructor; [exact IH|].
  rewrite Forall_forall in *. intros x Hx. apply ZLeb.leb_le. now apply Ha.
Qed.

Lemma sorted_nodup_strict (l : list Z) :
  StronglySorted Z.le l -> NoDup l -> StronglySorted Z.lt l.
Proof.
  induction 1 as [|a l Hs IH Ha]; intros Hnd; constructor.
  - apply IH. now inversion Hnd.
  - inversion Hnd as [|? ? Hnotin _]; subst.
    rewrite Forall_forall in *. intros x Hx. specialize (Ha x Hx).
    assert (a <> x) by (intros ->; contradiction). lia.
Qed.

Lemma sorted_permutation_eq (l1 l2 : list Z) :
  StronglySorted Z.le l1 -> StronglySorted Z.le l2 -> Permutation l1 l2 ->
  l1 = l2.
Proof.
  intros H1. revert l2. induction H1 as [|a l1 Hs IH Ha]; intros l2 H2 Hp.
  - apply Permutation_nil in Hp. now subst.
  - destruct H2 as [|b l2 Hs2 Hb].
    + apply Permutation_sym, Permutation_nil in Hp. discriminate.
    + assert (a = b).
      { rewrite Forall_forall in Ha, Hb.
        assert (Hab : In a (b :: l2)) by (apply (Permutation_in _ Hp); now left).
        assert (Hba : In b (a :: l1))
          by (apply (Permutation_in _ (Permutation_sym Hp)); now left).
        destruct Hab as [->|Hab]; [reflexivity|].
        destruct Hba as [->|Hba]; [reflexivity|].
        specialize (Ha b Hba). specialize (Hb a Hab). lia. }
      subst b. f_equal. apply IH; [exact Hs2|].
      now apply Permutation_cons_inv in Hp.
Qed.

Lemma sort_sorted_dates (l : list Z) :
  StronglySorted Z.le l -> ZSort.sort l = l.
Proof.
  intros H. apply sorted_permutation_eq.
  - apply sorted_dates_le.
  - exact H.
  - apply Permutation_sym, ZSort.Permuted_sort.
Qed.

Lemma find_in_combine {V : Type} (idx : list Z) (cs : list V) (e : Z * V) :
  NoDup idx -> In e (combine idx cs) ->
  find (fun x : Z * V => if Z.eq_dec (fst e) (fst x) then true else false)
       (combine idx cs) = Some e.
Proof.
  revert cs. induction idx as [|k idx IH]; intros cs Hnd Hin; [destruct Hin|].
  destruct cs as [|c cs]; [destruct Hin|]. simpl in *.
  inversion Hnd as [|? ? Hk Hnd']; subst.
  destruct Hin as [<-|Hin]; simpl.
  - destruct (Z.eq_dec k k); [reflexivity | contradiction].
  - destruct (Z.eq_dec (fst e) k) as [E|N]; [|now apply IH].
    exfalso. apply Hk. rewrite <- E. destruct e as [k' c']. simpl.
    now apply in_combine_l in Hin.
Qed.

Lemma sort_index_sorted {V : Type} (t : Pivot Z V) :
  StronglySorted Z.lt (index t) ->
  List.length (cells t) = List.length (index t) ->
  sort_index Z.eq_dec ZSort.sort t = t.
Proof.
  intros Hs Hlen. unfold sort_index.
  assert (Hle : StronglySorted Z.le (index t)).
  { clear Hlen. induction Hs as [|a l Hs IH Ha]; constructor; [exact IH|].
    rewrite Forall_forall in *. intros x Hx. specialize (Ha x Hx). lia. }
  assert (Hnd : NoDup (index t)).
  { clear Hlen Hle. induction Hs as [|a l Hs IH Ha]; constructor; [|exact IH].
    rewrite Forall_forall in Ha. intros Hin. specialize (Ha a Hin). lia. }
  rewrite (sort_sorted_dates _ Hle).
  destruct t as [idx labs cs]. cbn [index labels cells] in *. f_equal.
  assert (E1 : map fst (combine idx cs) = idx).
  { clear Hs Hle Hnd. revert cs Hlen.
    induction idx as [|k idx IH]; intros [|c cs] Hlen; simpl in *;
      try reflexivity; try discriminate.
    f_equal. apply IH. lia. }
  assert (E2 : map snd (combine idx cs) = cs).
  { clear Hs Hle Hnd E1. revert cs Hlen.
    induction idx as [|k idx IH]; intros [|c cs] Hlen; simpl in *;
      try reflexivity; try discriminate.
    f_equal. apply IH. lia. }
  rewrite <- E1 at 1. rewrite <- E2 at 2. rewrite map_map.
  apply map_ext_in. intros e He. now rewrite (find_in_combine idx cs e Hnd He).
Qed.

(** ** Sentiment over time *)

Lemma carries_date_label (d : Z) (l : string) (r : Row) :
  carries Z.eq_dec date_of "date" "sentiment_label" (d, l) r
  = dated_on d r && eq_str l (r "sentiment_label").
Proof.
  unfold carries, row_keys, dated_on, pair_eqb.
  destruct (r "date"); simpl; try reflexivity.
  destruct (r "sentiment_label"); simpl; try (now rewrite andb_false_r).
  destruct (Z.eq_dec d day) as [->|N].
  - now rewrite Z.eqb_refl, String.eqb_sym.
  - assert (E : (day =? d)%Z = false) by (apply Z.eqb_neq; congruence).
    now rewrite E.
Qed.

Lemma carries_date (d : Z) (r : Row) :
  carries_key Z.eq_dec date_of "date" "sentiment_label" d r
  = dated_on d r && has_sentiment r.
Proof.
  unfold carries_key, row_keys, dated_on, has_sentiment.
  destruct (r "date"); simpl; try reflexivity.
  destruct (r "sentiment_label"); simpl; try (now rewrite andb_false_r).
  destruct (Z.eq_dec d day) as [->|N].
  - now rewrite Z.eqb_refl.
  - assert (E : (day =? d)%Z = false) by (apply Z.eqb_neq; congruence).
    now rewrite E.
Qed.

Lemma row_keys_date_label (r : Row) (d : Z) (l : string) :
  row_keys date_of "date" "sentiment_label" r = Some (d, l) <->
  r "date" = Date d /\ r "sentiment_label" = Str l.
Proof.
  unfold row_keys.
  destruct (r "date"); simpl; try (split; [discriminate | intros [H _]; discriminate H]).
  destruct (r "sentiment_label"); simpl;
    try (split; [discriminate | intros [_ H]; discriminate H]).
  split; [intros H; inversion H; now split | intros [H1 H2]; inversion H1; now inversion H2].
Qed.

Lemma any_notna_dates (df : DataFrame) :
  (exists r, In r (rows df) /\ isna (r "date") = false) ->
  any_notna (map (fun r : Row => r "date") (rows df)) = true.
Proof.
  intros [r [Hr Hn]]. unfold any_notna. apply existsb_exists.
  exists (r "date"). split; [apply in_map_iff; now exists r|].
  unfold notna. now rewrite Hn.
Qed.

Lemma daily_counts_spec (df : DataFrame) :
  let t := daily_counts df in
  StronglySorted Z.lt (index t) /\
  NoDup (labels t) /\
  (forall d, In d (index t) <->
     exists r, In r (rows df) /\ r "date" = Date d /\ has_sentiment r = true) /\
  (forall l, In l (labels t) <->
     exists r d, In r (rows df) /\ r "date" = Date d /\
                 r "sentiment_label" = Str l) /\
  cells t
  = map (fun d =>
           map (fun l =>
                  count_rows (fun r => dated_on d r &&
                                       eq_str l (r "sentiment_label")) df)
               (labels t)) (index t) /\
  map (fun row => fold_right Nat.add 0 row) (cells t)
  = map (fun d => count_rows (fun r => dated_on d r && has_sentiment r) df)
        (index t).
Proof.
  cbn zeta. unfold daily_counts. rewrite key_pairs_of_columns.
  set (pairs := pairs_of_rows date_of "date" "sentiment_label" (rows df)).
  destruct (unstack_counts Z.eq_dec ZSort.sort ZSort.Permuted_sort pairs)
    as [Hnd [Hndl [Hidx [Hlab Hcells]]]].
  set (t := unstack Z.eq_dec ZSort.sort 0
              (group_sizes Z.eq_dec ZSort.sort pairs)) in *.
  assert (Hcount : forall d l,
            count_pair Z.eq_dec (d, l) pairs
            = count_rows (fun r => dated_on d r && eq_str l (r "sentiment_label")) df).
  { intros d l. unfold pairs, count_rows. rewrite count_pair_rows.
    f_equal. apply filter_ext. intros r. apply carries_date_label. }
  split; [|split; [exact Hndl|split; [|split; [|split]]]].
  - apply sorted_nodup_strict; [|exact Hnd]. apply sorted_dates_le.
  - intros d. rewrite Hidx. split.
    + intros [l H]. apply pairs_of_rows_In in H. destruct H as [r [Hr E]].
      apply row_keys_date_label in E. destruct E as [E1 E2].
      exists r. split; [exact Hr|]. split; [exact E1|].
      unfold has_sentiment. now rewrite E2.
    + intros [r [Hr [E1 E2]]]. unfold has_sentiment in E2.
      destruct (r "sentiment_label") as [| | |l| | | |] eqn:El; try discriminate.
      exists l. apply pairs_of_rows_In. exists r. split; [exact Hr|].
      now apply row_keys_date_label.
  - intros l. rewrite Hlab. split.
    + intros [d H]. apply pairs_of_rows_In in H. destruct H as [r [Hr E]].
      apply row_keys_date_label in E. exists r, d. tauto.
    + intros [r [d [Hr E]]]. exists d. apply pairs_of_rows_In. exists r.
      split; [exact Hr|]. now apply row_keys_date_label.
  - rewrite Hcells. apply map_ext. intros d. apply map_ext. intros l. apply Hcount.
  - rewrite Hcells, map_map. apply map_ext. intros d.
    rewrite (row_sum_counts Z.eq_dec pairs (labels t) d Hndl).
    + unfold pairs, count_rows. rewrite count_key_rows. f_equal.
      apply filter_ext. intros r. apply carries_date.
    + intros l Hl. apply Hlab. now exists d.
Qed.

(** C3, as the code has it: when some row has a date, both scripts compute
    the same table: its rows are the distinct dates of the rows that have a
    date and a sentiment, in ascending order; its columns are the distinct
    sentiments of those rows; each entry is the number of rows with that
    date and that sentiment, zero when there is none; and the entries of a
    date add up to the number of rows with that date and a sentiment.  A row
    without a date, or without a sentiment, is counted nowhere. *)
Theorem sentiment_over_time_table (df : DataFrame) :
  has_col df "date" = true ->
  has_col df "sentiment_label" = true ->
  (exists r, In r (rows df) /\ isna (r "date") = false) ->
  exists t,
    App.sent_time df = Ok (Some t) /\
    Charts.sentiment_over_time_counts df = Ok t /\
    StronglySorted Z.lt (index t) /\
    NoDup (labels t) /\
    (forall d, In d (index t) <->
       exists r, In r (rows df) /\ r "date" = Date d /\ has_sentiment r = true) /\
    (forall l, In l (labels t) <->
       exists r d, In r (rows df) /\ r "date" = Date d /\
                   r "sentiment_label" = Str l) /\
    cells t
    = map (fun d =>
             map (fun l =>
                    count_rows (fun r => dated_on d r &&
                                         eq_str l (r "sentiment_label")) df)
                 (labels t)) (index t) /\
    map (fun row => fold_right Nat.add 0 row) (cells t)
    = map (fun d => count_rows (fun r => dated_on d r && has_sentiment r) df)
          (index t).
Proof.
  intros Hd Hs Hany. exists (daily_counts df).
  pose proof (daily_counts_spec df) as Hspec. cbn zeta in Hspec.
  split; [|split; [|exact Hspec]].
  - unfold App.sent_time, App.has_dates. rewrite Hd.
    rewrite !(getcol_present df _ Hd), (getcol_present df _ Hs). cbn [bind].
    now rewrite (any_notna_dates df Hany).
  - unfold Charts.sentiment_over_time_counts.
    rewrite (getcol_present df _ Hd), (getcol_present df _ Hs). cbn [bind].
    f_equal. apply sort_index_sorted; [apply Hspec|].
    destruct Hspec as [_ [_ [_ [_ [Hc _]]]]].
    fold (daily_counts df). rewrite Hc. apply length_map.
Qed.

Lemma sentiment_over_time_table_witness :
  has_col four_comments "date" = true /\
  has_col four_comments "sentiment_label" = true /\
  exists t, App.sent_time four_comments = Ok (Some t) /\
            index t = [20028; 20029]%Z.
Proof.
  repeat (split; [reflexivity|]).
  assert (Hany : exists r, In r (rows four_comments) /\ isna (r "date") = false).
  { exists (comment (Str "A") (Str "POSITIVE") (Date 20028)).
    split; [now left | reflexivity]. }
  destruct (sentiment_over_time_table four_comments eq_refl eq_refl Hany)
    as [t [H1 _]].
  exists t. split; [exact H1|].
  assert (E : Ok (Some t) = App.sent_time four_comments) by (now rewrite H1).
  vm_compute in E. now inversion E.
Defined.

(** C3 as stated fails: the counts of the day add up to 1 while two rows
    have that date. *)
Lemma over_time_misses_unlabelled :
  App.sent_time unlabelled_comment
  = Ok (Some {| index := [20028%Z]; labels := ["POSITIVE"]; cells := [[1]] |}) /\
  Charts.sentiment_over_time_counts unlabelled_comment
  = Ok {| index := [20028%Z]; labels := ["POSITIVE"]; cells := [[1]] |} /\
  count_rows (dated_on 20028) unlabelled_comment = 2.
Proof. repeat split; vm_compute; reflexivity. Qed.

(** ** Sentiment by topic *)

Lemma carries_topic_label (t l : string) (r : Row) :
  carries string_dec label_of "topic_label" "sentiment_label" (t, l) r
  = eq_str t (r "topic_label") && eq_str l (r "sentiment_label").
Proof.
  unfold carries, row_keys, pair_eqb.
  destruct (r "topic_label"); simpl; try reflexivity.
  destruct (r "sentiment_label"); simpl; try (now rewrite andb_false_r).
  destruct (string_dec t s) as [->|N].
  - now rewrite String.eqb_refl, String.eqb_sym.
  - assert (E : String.eqb s t = false) by (apply String.eqb_neq; congruence).
    now rewrite E.
Qed.

Lemma carries_topic (t : string) (r : Row) :
  carries_key string_dec label_of "topic_label" "sentiment_label" t r
  = eq_str t (r "topic_label") && has_sentiment r.
Proof.
  unfold carries_key, row_keys, has_sentiment.
  destruct (r "topic_label"); simpl; try reflexivity.
  destruct (r "sentiment_label"); simpl; try (now rewrite andb_false_r).
  destruct (string_dec t s) as [->|N].
  - now rewrite String.eqb_refl.
  - assert (E : String.eqb s t = false) by (apply String.eqb_neq; congruence).
    now rewrite E.
Qed.

Lemma row_keys_topic_label (r : Row) (t l : string) :
  row_keys label_of "topic_label" "sentiment_label" r = Some (t, l) <->
  r "topic_label" = Str t /\ r "sentiment_label" = Str l.
Proof.
  unfold row_keys.
  destruct (r "topic_label"); simpl;
    try (split; [discriminate | intros [H _]; discriminate H]).
  destruct (r "sentiment_label"); simpl;
    try (split; [discriminate | intros [_ H]; discriminate H]).
  split; [intros H; inversion H; now split
         | intros [H1 H2]; inversion H1; now inversion H2].
Qed.

Lemma filter_length_pos {A : Type} (p : A -> bool) (l : list A) (a : A) :
  In a l -> p a = true -> 0 < List.length (filter p l).
Proof.
  intros Hin Hp. assert (H : In a (filter p l)) by (apply filter_In; now split).
  destruct (filter p l); [destruct H | simpl; lia].
Qed.

Lemma topic_crosstab_spec (df : DataFrame) :
  let ct := topic_crosstab df in
  NoDup (index ct) /\
  NoDup (labels ct) /\
  (forall t, In t (index ct) <->
     exists r, In r (rows df) /\ r "topic_label" = Str t /\
               has_sentiment r = true) /\
  cells ct
  = map (fun t => map (fun l => topic_sentiment_count df t l) (labels ct))
        (index ct) /\
  sum_axis1 ct = map (fun t => topic_count df t) (index ct) /\
  (forall t, In t (index ct) -> 0 < topic_count df t).
Proof.
  cbn zeta. unfold topic_crosstab, crosstab. rewrite key_pairs_of_columns.
  set (pairs := pairs_of_rows label_of "topic_label" "sentiment_label" (rows df)).
  destruct (unstack_counts string_dec StringSort.sort StringSort.Permuted_sort pairs)
    as [Hnd [Hndl [Hidx [Hlab Hcells]]]].
  set (ct := unstack string_dec StringSort.sort 0
               (group_sizes string_dec StringSort.sort pairs)) in *.
  assert (Hin : forall t, In t (index ct) <->
            exists r, In r (rows df) /\ r "topic_label" = Str t /\
                      has_sentiment r = true).
  { intros t. rewrite Hidx. split.
    - intros [l H]. apply pairs_of_rows_In in H. destruct H as [r [Hr E]].
      apply row_keys_topic_label in E. destruct E as [E1 E2].
      exists r. split; [exact Hr|]. split; [exact E1|].
      unfold has_sentiment. now rewrite E2.
    - intros [r [Hr [E1 E2]]]. unfold has_sentiment in E2.
      destruct (r "sentiment_label") as [| | |l| | | |] eqn:El; try discriminate.
      exists l. apply pairs_of_rows_In. exists r. split; [exact Hr|].
      now apply row_keys_topic_label. }
  assert (Hc : cells ct
               = map (fun t => map (fun l => topic_sentiment_count df t l)
                                   (labels ct)) (index ct)).
  { rewrite Hcells. apply map_ext. intros t. apply map_ext. intros l.
    unfold pairs, topic_sentiment_count, count_rows. rewrite count_pair_rows.
    f_equal. apply filter_ext. intros r. apply carries_topic_label. }
  split; [exact Hnd|]. split; [exact Hndl|]. split; [exact Hin|].
  split; [exact Hc|]. split.
  - unfold sum_axis1. rewrite Hcells, map_map. apply map_ext. intros t.
    rewrite (row_sum_counts string_dec pairs (labels ct) t Hndl).
    + unfold pairs, topic_count, count_rows. rewrite count_key_rows. f_equal.
      apply filter_ext. intros r. apply carries_topic.
    + intros l Hl. apply Hlab. now exists t.
  - intros t Ht. apply Hin in Ht. destruct Ht as [r [Hr [E1 E2]]].
    unfold topic_count, count_rows. apply (filter_length_pos _ _ r Hr).
    rewrite E2, andb_true_r. now apply eq_str_spec.
Qed.



Lemma exact_pct_zero (n : nat) : 0 < n -> (exact_pct 0 n == 0)%Q.
Proof.
  intros Hn. unfold exact_pct. simpl. field.
  intros E. unfold Qeq in E. simpl in E. lia.
Qed.

Lemma exact_pct_sum {A : Type} (f : A -> nat) (l : list A) (n : nat) :
  0 < n ->
  (Qsum (map (fun a => exact_pct (f a) n) l)
   == exact_pct (fold_right Nat.add 0%nat (map f l)) n)%Q.
Proof.
  intros Hn. induction l as [|a l IH]; simpl.
  - symmetry. now apply exact_pct_zero.
  - rewrite IH. now apply exact_pct_add.
Qed.

Lemma combine_map_same {A B C : Type} (f : A -> B) (g : A -> C) (l : list A) :
  combine (map f l) (map g l) = map (fun a => (f a, g a)) l.
Proof. induction l as [|a l IH]; simpl; [reflexivity|]. now rewrite IH. Qed.

(** C4, as the code has it: the table has one row per topic that some row
    carries together with a sentiment; an entry is
    [count(topic, sentiment) / count(topic) * 100] in binary64, where both
    counts range over the rows that have a sentiment; the counts of a row
    add up to its divisor, which is positive, so the exact quotients of a
    row sum to 100.  A topic without such a row has no row in the table. *)
Theorem sentiment_by_topic_rows (df : DataFrame) :
  has_col df "topic_label" = true ->
  has_col df "sentiment_label" = true ->
  exists t,
    Charts.crosstab_pct df = Ok t /\
    NoDup (index t) /\
    NoDup (labels t) /\
    (forall k, In k (index t) <->
       exists r, In r (rows df) /\ r "topic_label" = Str k /\
                 has_sentiment r = true) /\
    cells t
    = map (fun k =>
             map (fun l => float_pct (topic_sentiment_count df k l)
                                     (topic_count df k))
                 (labels t)) (index t) /\
    (forall k, In k (index t) ->
       0 < topic_count df k /\
       fold_right Nat.add 0
         (map (fun l => topic_sentiment_count df k l) (labels t))
       = topic_count df k /\
       (Qsum (map (fun l => exact_pct (topic_sentiment_count df k l)
                                      (topic_count df k))
                  (labels t)) == 100)%Q).
Proof.
  intros Ht Hs.
  destruct (topic_crosstab_spec df) as [Hnd [Hndl [Hin [Hc [Hsum Hpos]]]]].
  cbn zeta in *.
  exists (div_axis0_times100 (topic_crosstab df) (sum_axis1 (topic_crosstab df))).
  split.
  { unfold Charts.crosstab_pct.
    rewrite (getcol_present df _ Ht), (getcol_present df _ Hs). reflexivity. }
  unfold div_axis0_times100. cbn [index labels cells].
  split; [exact Hnd|]. split; [exact Hndl|]. split; [exact Hin|].
  assert (Hrow : forall k, In k (index (topic_crosstab df)) ->
            fold_right Nat.add 0
              (map (fun l => topic_sentiment_count df k l)
                   (labels (topic_crosstab df)))
            = topic_count df k).
  { intros k Hk.
    assert (E : map (fun row => fold_right Nat.add 0 row)
                    (cells (topic_crosstab df))
                = map (fun t => topic_count df t) (index (topic_crosstab df)))
      by exact Hsum.
    rewrite Hc, map_map in E.
    exact (proj1 map_ext_in_iff E k Hk). }
  split.
  - rewrite Hsum, Hc, combine_map_same, map_map. apply map_ext. intros k.
    cbn [fst snd]. rewrite map_map. reflexivity.
  - intros k Hk. split; [now apply Hpos|]. split; [now apply Hrow|].
    pose proof (exact_pct_sum (fun l => topic_sentiment_count df k l)
                  (labels (topic_crosstab df)) (topic_count df k) (Hpos k Hk))
      as HQ.
    cbv beta in HQ. rewrite (Hrow k Hk) in HQ. rewrite HQ.
    apply exact_pct_full. now apply Hpos.
Qed.

Lemma sentiment_by_topic_rows_witness :
  has_col four_comments "topic_label" = true /\
  has_col four_comments "sentiment_label" = true /\
  exists t, Charts.crosstab_pct four_comments = Ok t /\ index t = ["A"; "B"].
Proof.
  repeat (split; [reflexivity|]).
  destruct (sentiment_by_topic_rows four_comments eq_refl eq_refl) as [t [H1 _]].
  exists t. split; [exact H1|].
  assert (E : Ok t = Charts.crosstab_pct four_comments) by (now rewrite H1).
  vm_compute in E. now inversion E.
Defined.

(** C4 as stated fails: topic A has a row, yet the table has no row for it,
    so it has no percentages that could sum to 100. *)
Lemma sentiment_by_topic_drops_unlabelled :
  count_rows (fun r => eq_str "A" (r "topic_label")) unlabelled_topic = 1 /\
  Charts.crosstab_pct unlabelled_topic
  = Ok {| index := []; labels := []; cells := [] |}.
Proof. split; vm_compute; reflexivity. Qed.

(** ** The batch run *)

Section Views.

Variable render : Charts.figure -> result unit.

Section Rendering.

(** The rendering library draws every figure it is given. *)
Hypothesis render_ok : forall fig, render fig = Ok tt.

Lemma draw_and_save_ok (fig : Charts.figure) (p : string) (o : Charts.Output) :
  Charts.draw_and_save render fig p o = Ok (Charts.savefig p fig o).
Proof. unfold Charts.draw_and_save. now rewrite render_ok. Qed.

End Rendering.

Lemma no_dates_value (df : DataFrame) :
  Charts.no_dates df
  = Ok (negb (has_col df "date")
        || all_isna (map (fun r : Row => r "date") (rows df))).
Proof.
  unfold Charts.no_dates. destruct (has_col df "date") eqn:Hc; cbn [negb orb].
  - now rewrite (getcol_present df _ Hc).
  - reflexivity.
Qed.














(** The two views over dates also skip when the column is there but holds no
    date at all. *)
Lemma date_views_skip_without_dates (df : DataFrame) (p : string)
  (o : Charts.Output) :
  (forall r, In r (rows df) -> isna (r "date") = true) ->
  Charts.plot_comments_per_day render df p o
  = Ok (Charts.print
          "No 'date' column or all dates NaT. Skipping comments-per-day chart." o) /\
  Charts.plot_sentiment_over_time render df p o
  = Ok (Charts.print
          "Missing 'date' or 'sentiment_label'. Skipping sentiment-over-time chart." o).
Proof.
  intros H.
  assert (E : all_isna (map (fun r : Row => r "date") (rows df)) = true).
  { unfold all_isna. apply forallb_forall. intros c Hc.
    apply in_map_iff in Hc. destruct Hc as [r [<- Hr]]. now apply H. }
  unfold Charts.plot_comments_per_day, Charts.plot_sentiment_over_time.
  rewrite no_dates_value, E, orb_true_r. split; reflexivity.
Qed.





Variable parse_utc : cell -> option Z.



End Views.

(** C8 on the code: the label columns of [no_labels] exist and hold no
    value, yet the three views over labels are not skipped: each hands a
    figure without data to the rendering library and, when that returns,
    saves the figure and prints its message; whatever the library does, no
    notice is printed.  The view over time does skip. *)
Theorem empty_label_columns_are_plotted (render : Charts.figure -> result unit) :
  Charts.plot_overall_sentiment render no_labels "overall_sentiment.png"
    nothing_yet
  = after_render
      (render (Charts.BarCounts "Overall Sentiment Distribution" []))
      {| Charts.saved :=
           [("overall_sentiment.png",
             Charts.BarCounts "Overall Sentiment Distribution" [])];
         Charts.printed :=
           ["Saved overall sentiment chart -> overall_sentiment.png"] |} /\
  Charts.plot_topic_distribution render no_labels "topic_distribution.png"
    nothing_yet
  = after_render
      (render (Charts.BarCounts
                 "Topic Distribution (Share of Comments per Topic)" []))
      {| Charts.saved :=
           [("topic_distribution.png",
             Charts.BarCounts
               "Topic Distribution (Share of Comments per Topic)" [])];
         Charts.printed :=
           ["Saved topic distribution chart -> topic_distribution.png"] |} /\
  Charts.plot_sentiment_by_topic render no_labels "sentiment_by_topic.png"
    nothing_yet
  = after_render
      (render (Charts.StackedPct "Sentiment within Each Topic (Stacked %)"
                 {| index := []; labels := []; cells := [] |}))
      {| Charts.saved :=
           [("sentiment_by_topic.png",
             Charts.StackedPct "Sentiment within Each Topic (Stacked %)"
               {| index := []; labels := []; cells := [] |})];
         Charts.printed :=
           ["Saved sentiment-by-topic chart -> sentiment_by_topic.png"] |} /\
  Charts.plot_sentiment_over_time render no_labels "sentiment_over_time.png"
    nothing_yet
  = Ok {| Charts.saved := [];
          Charts.printed :=
            ["No data after grouping for sentiment-over-time. Skipping chart."] |}.
Proof.
  repeat split; vm_compute; try reflexivity; destruct (render _); reflexivity.
Qed.



(** ** The scripts on the example file *)

(** The dashboard on [clean_comments] with topic A selected and the whole
    date range picked: two comments, half of them positive. *)
Lemma dashboard_on_example :
  match App.script parse_example dates_min dates_max
          (user_picks [20028; 20029]%Z) clean_disk "A" "All" with
  | Ok page =>
      App.shown page = 2 /\
      App.pos_pct (App.metrics page) = 50%float /\
      App.neg_pct (App.metrics page) = 50%float /\
      App.topic_chart page = Some [("A", 2)] /\
      App.time_chart page
      = Some {| index := [20028%Z];
                labels := ["NEGATIVE"; "POSITIVE"];
                cells := [[1; 1]] |} /\
      columns (App.sample page)
      = ["published_at"; "topic_label"; "sentiment_label"] /\
      header (App.download page)
      = ["published_at"; "topic_label"; "sentiment_label"; "date"] /\
      List.length (records (App.download page)) = 2
  | Raise _ => False
  end.
Proof. vm_compute. repeat split. Qed.

Lemma dashboard_unfiltered_on_example :
  match App.script parse_example dates_min dates_max
          (user_picks [20028; 20029]%Z) clean_disk "All" "All" with
  | Ok page =>
      App.shown page = 4 /\
      App.time_chart page
      = Some {| index := [20028; 20029]%Z;
                labels := ["NEGATIVE"; "POSITIVE"];
                cells := [[1; 1]; [0; 2]] |}
  | Raise _ => False
  end.
Proof. vm_compute. repeat split. Qed.

(** While only the first day of a new range is picked the widget returns one
    date, and the run raises. *)
Lemma dashboard_on_partial_range :
  App.script parse_example dates_min dates_max (user_picks [20028]%Z)
    clean_disk "All" "All"
  = Raise ValueError.
Proof. reflexivity. Qed.

(** On [raw_comments] the date column mixes dates with the missing date of
    the comment whose timestamp did not parse: with reductions that raise on
    such a column the run raises before the widget is shown. *)
Lemma dashboard_on_mixed_dates :
  App.script parse_example dates_min dates_max
    (user_picks [20028; 20029]%Z) raw_disk "All" "All"
  = Raise TypeError.
Proof. reflexivity. Qed.

(** The batch run on the same file writes its five charts. *)
Lemma batch_on_example :
  match Charts.main parse_example (fun _ => Ok tt) raw_disk nothing_yet with
  | Ok o =>
      map fst (Charts.saved o)
      = ["charts/overall_sentiment.png"; "charts/topic_distribution.png";
         "charts/sentiment_by_topic.png"; "charts/comments_per_day.png";
         "charts/sentiment_over_time.png"] /\
      In ("charts/sentiment_by_topic.png",
          Charts.StackedPct "Sentiment within Each Topic (Stacked %)"
            {| index := ["A"; "B"];
               labels := ["NEGATIVE"; "POSITIVE"];
               cells := [[50%float; 50%float];
                         [0x1.0aaaaaaaaaaaap+5%float; 0x1.0aaaaaaaaaaaap+6%float]] |})
         (Charts.saved o) /\
      In ("charts/comments_per_day.png",
          Charts.BarDays "Number of Comments per Day"
            [(20028%Z, 2); (20029%Z, 2)])
         (Charts.saved o)
  | Raise _ => False
  end.
Proof. vm_compute. repeat split; auto 10. Qed.

(** * Further properties of the two scripts *)

(** ** Sorted labels *)

Lemma sorted_labels_strict (l : list string) :
  StronglySorted String_as_OT.lt (uniq_labels l).
Proof.
  pose proof (uniq_labels_NoDup l) as Hnd. unfold uniq_labels in *.
  assert (H : StronglySorted (fun x y => is_true (StringLeb.leb x y))
                (StringSort.sort (nodup string_dec l)))
    by (apply StringSort.StronglySorted_sort, StringLeb.leb_trans).
  induction H as [|a s Hs IH Ha]; constructor.
  - apply IH. now inversion Hnd.
  - inversion Hnd as [|? ? Hnotin _]; subst.
    rewrite Forall_forall in *. intros x Hx.
    pose proof (Ha x Hx) as Hle. apply StringLeb.leb_le in Hle.
    destruct Hle as [Hlt|Heq]; [exact Hlt|].
    exfalso. apply Hnotin. unfold StringFull.eq in Heq. now subst x.
Qed.

Lemma strict_sorted_NoDup (l : list string) :
  StronglySorted String_as_OT.lt l -> NoDup l.
Proof.
  induction 1 as [|a l Hs IH Ha]; constructor; [|exact IH].
  intros Hin. rewrite Forall_forall in Ha.
  exact (@StrictOrder_Irreflexive _ _ String_as_OT.lt_strorder a (Ha a Hin)).
Qed.

Lemma strict_sorted_permutation_eq (l1 l2 : list string) :
  StronglySorted String_as_OT.lt l1 -> StronglySorted String_as_OT.lt l2 ->
  Permutation l1 l2 -> l1 = l2.
Proof.
  intros H1. revert l2. induction H1 as [|a l1 Hs IH Ha]; intros l2 H2 Hp.
  - apply Permutation_nil in Hp. now subst.
  - destruct H2 as [|b l2 Hs2 Hb].
    + apply Permutation_sym, Permutation_nil in Hp. discriminate.
    + assert (a = b).
      { rewrite Forall_forall in Ha, Hb.
        assert (Hab : In a (b :: l2)) by (apply (Permutation_in _ Hp); now left).
        assert (Hba : In b (a :: l1))
          by (apply (Permutation_in _ (Permutation_sym Hp)); now left).
        destruct Hab as [->|Hab]; [reflexivity|].
        destruct Hba as [->|Hba]; [reflexivity|].
        specialize (Ha b Hba). specialize (Hb a Hab).
        exfalso. apply (@StrictOrder_Irreflexive _ _ String_as_OT.lt_strorder a).
        apply (@StrictOrder_Transitive _ _ String_as_OT.lt_strorder a b a);
          assumption. }
      subst b. f_equal. apply IH; [exact Hs2|].
      now apply Permutation_cons_inv in Hp.
Qed.

Lemma sort_permutation_of_sorted (l u : list string) :
  StronglySorted String_as_OT.lt u -> Permutation l u ->
  StringSort.sort l = u.
Proof.
  intros Hu Hp.
  assert (Hnd : NoDup l)
    by (apply (Permutation_NoDup (Permutation_sym Hp)), strict_sorted_NoDup, Hu).
  assert (E : StringSort.sort l = uniq_labels l).
  { unfold uniq_labels. now rewrite nodup_fixed_point. }
  rewrite E. apply strict_sorted_permutation_eq.
  - apply sorted_labels_strict.
  - exact Hu.
  - rewrite <- E.
    apply (Permutation_trans (Permutation_sym (StringSort.Permuted_sort l)) Hp).
Qed.

(** ** Labels of a column *)

Lemma labels_of_In (c : string) (l : list Row) (x : string) :
  In x (labels_of (map (fun r : Row => r c) l)) <->
  exists r, In r l /\ r c = Str x.
Proof.
  unfold labels_of. rewrite in_flat_map. split.
  - intros [v [Hv H]]. apply in_map_iff in Hv. destruct Hv as [r [<- Hr]].
    exists r. split; [exact Hr|].
    destruct (r c); simpl in H; try contradiction.
    destruct H as [->|[]]. reflexivity.
  - intros [r [Hr E]]. exists (r c). split; [apply in_map_iff; now exists r|].
    rewrite E. now left.
Qed.

Lemma count_label_rows (c : string) (l : list Row) (x : string) :
  count_label x (labels_of (map (fun r : Row => r c) l))
  = List.length (filter (fun r : Row => eq_str x (r c)) l).
Proof.
  unfold count_label, labels_of. induction l as [|r l IH]; simpl; [reflexivity|].
  destruct (r c); simpl; try exact IH.
  rewrite (String.eqb_sym s x). destruct (String.eqb x s); simpl; now rewrite IH.
Qed.

Lemma labels_of_length (c : string) (l : list Row) :
  List.length (labels_of (map (fun r : Row => r c) l))
  = List.length (filter (labelled c) l).
Proof.
  unfold labels_of, labelled. induction l as [|r l IH]; simpl; [reflexivity|].
  destruct (r c); simpl; now rewrite IH.
Qed.

Lemma count_label_pos (x : string) (ls : list string) :
  0 < count_label x ls <-> In x ls.
Proof.
  unfold count_label. induction ls as [|a ls IH]; simpl; [split; [lia | tauto]|].
  destruct (String.eqb x a) eqn:E.
  - apply String.eqb_eq in E. subst a. simpl. split; [now left | lia].
  - rewrite IH. apply String.eqb_neq in E. split; [now right|].
    intros [H|H]; [congruence | exact H].
Qed.

Lemma options_of_column (c : string) (df : DataFrame) :
  labels_in_order c df (uniq_labels (labels_of (map (fun r : Row => r c) (rows df)))).
Proof.
  split; [apply sorted_labels_strict|].
  intros l. rewrite uniq_labels_In. apply labels_of_In.
Qed.

(** X1: The options of the two select boxes: the sentinel first, then the labels
    that occur in the column, each once, in ascending order; a table without
    the column raises [KeyError]. *)
Theorem sidebar_options (df : DataFrame) :
  (has_col df "topic_label" = true ->
   exists ls, App.topic_options df = Ok ("All" :: ls) /\
              labels_in_order "topic_label" df ls) /\
  (has_col df "topic_label" = false ->
   App.topic_options df = Raise (KeyError "topic_label")) /\
  (has_col df "sentiment_label" = true ->
   exists ls, App.sentiment_options df = Ok ("All" :: ls) /\
              labels_in_order "sentiment_label" df ls) /\
  (has_col df "sentiment_label" = false ->
   App.sentiment_options df = Raise (KeyError "sentiment_label")).
Proof.
  unfold App.topic_options, App.sentiment_options. repeat split.
  - intros Hc. rewrite (getcol_present df _ Hc). cbn [bind]. eexists.
    split; [reflexivity | apply options_of_column].
  - intros Hc. now rewrite (getcol_absent df _ Hc).
  - intros Hc. rewrite (getcol_present df _ Hc). cbn [bind]. eexists.
    split; [reflexivity | apply options_of_column].
  - intros Hc. now rewrite (getcol_absent df _ Hc).
Qed.

(** ** Distributions *)

Lemma insert_by_count_perm (e : string * nat) (l : list (string * nat)) :
  Permutation (insert_by_count e l) (e :: l).
Proof.
  induction l as [|x l IH]; simpl; [reflexivity|].
  destruct (Nat.ltb (snd x) (snd e)); [reflexivity|].
  rewrite IH. apply perm_swap.
Qed.

Lemma sort_by_count_perm (l : list (string * nat)) :
  Permutation (fold_right insert_by_count [] l) l.
Proof.
  induction l as [|e l IH]; simpl; [reflexivity|].
  rewrite insert_by_count_perm. now constructor.
Qed.

Lemma insert_by_count_descending (e : string * nat) (l : list (string * nat)) :
  descending l -> descending (insert_by_count e l).
Proof.
  unfold descending. induction 1 as [|x l Hs IH Hx]; simpl.
  - constructor; constructor.
  - destruct (Nat.ltb (snd x) (snd e)) eqn:E.
    + apply Nat.ltb_lt in E. constructor; [now constructor|].
      constructor; [lia|]. rewrite Forall_forall in *.
      intros y Hy. specialize (Hx y Hy). lia.
    + apply Nat.ltb_ge in E. constructor; [exact IH|].
      rewrite Forall_forall in *. intros y Hy.
      apply (Permutation_in _ (insert_by_count_perm e l)) in Hy.
      destruct Hy as [<-|Hy]; [exact E | now apply Hx].
Qed.

Lemma sort_by_count_descending (l : list (string * nat)) :
  descending (fold_right insert_by_count [] l).
Proof.
  induction l as [|e l IH]; simpl; [constructor|].
  now apply insert_by_count_descending.
Qed.

Lemma total_count_perm {K : Type} (l1 l2 : list (K * nat)) :
  Permutation l1 l2 -> total_count l1 = total_count l2.
Proof.
  unfold total_count. induction 1; simpl; lia.
Qed.

Section CountSum.

Context {A : Type}.
Variable eqb : A -> A -> bool.
Hypothesis eqb_spec : forall x y, eqb x y = true <-> x = y.

Lemma indicator_sum (a : A) (u : list A) :
  NoDup u -> In a u ->
  fold_right Nat.add 0 (map (fun x => if eqb x a then 1 else 0) u) = 1.
Proof.
  induction u as [|x u IH]; simpl; intros Hnd Hin; [destruct Hin|].
  inversion Hnd as [|? ? Hx Hnd']; subst.
  destruct (eqb x a) eqn:E.
  - apply eqb_spec in E. subst x.
    assert (Hz : fold_right Nat.add 0
                   (map (fun x => if eqb x a then 1 else 0) u) = 0).
    { clear IH Hin Hnd Hnd'. induction u as [|y u IH]; simpl; [reflexivity|].
      destruct (eqb y a) eqn:E.
      - apply eqb_spec in E. subst y. exfalso. apply Hx. now left.
      - apply IH. intros H. apply Hx. now right. }
    now rewrite Hz.
  - destruct Hin as [->|Hin]; [|now rewrite IH].
    assert (T : eqb a a = true) by (now apply eqb_spec). congruence.
Qed.

(** The numbers of occurrences of the distinct values of a list add up to
    its length. *)
Lemma occurrences_sum (l u : list A) :
  NoDup u -> incl l u ->
  fold_right Nat.add 0 (map (fun x => List.length (filter (eqb x) l)) u)
  = List.length l.
Proof.
  intros Hnd. induction l as [|a l IH]; intros Hin.
  - simpl. clear Hnd Hin. induction u; simpl; [reflexivity | exact IHu].
  - assert (Hsplit :
      fold_right Nat.add 0
        (map (fun x => List.length (filter (eqb x) (a :: l))) u)
      = fold_right Nat.add 0 (map (fun x => if eqb x a then 1 else 0) u)
        + fold_right Nat.add 0
            (map (fun x => List.length (filter (eqb x) l)) u)).
    { clear. induction u as [|x u IHu]; cbn [map fold_right]; [reflexivity|].
      rewrite IHu. cbn [filter]. destruct (eqb x a); simpl; lia. }
    rewrite Hsplit, IH by (intros x Hx; apply Hin; now right).
    rewrite indicator_sum; [reflexivity | exact Hnd | apply Hin; now left].
Qed.

End CountSum.

Lemma string_eqb_iff (x y : string) : String.eqb x y = true <-> x = y.
Proof. apply String.eqb_eq. Qed.

(** [value_counts] of a column of a table. *)
Lemma value_counts_distribution (c : string) (df : DataFrame) :
  distribution_of c df (value_counts (map (fun r : Row => r c) (rows df))).
Proof.
  unfold value_counts.
  set (ls := labels_of (map (fun r : Row => r c) (rows df))).
  set (f := fun l : string => (l, count_label l ls)).
  pose proof (sort_by_count_perm (map f (uniq_labels ls))) as Hp.
  assert (Hfst : map fst (map f (uniq_labels ls)) = uniq_labels ls).
  { rewrite map_map. simpl. apply map_id. }
  split; [|split; [|split]].
  - apply (Permutation_NoDup (Permutation_map fst (Permutation_sym Hp))).
    rewrite Hfst. apply uniq_labels_NoDup.
  - intros l n. split.
    + intros H. apply (Permutation_in _ Hp) in H. apply in_map_iff in H.
      destruct H as [x [E Hx]]. unfold f in E. injection E as El En.
      rewrite <- El, <- En. apply (proj1 (uniq_labels_In _ _)) in Hx.
      split; [exact (proj2 (count_label_pos x ls) Hx)|].
      unfold ls, count_rows. apply count_label_rows.
    + intros [Hpos ->]. apply (Permutation_in _ (Permutation_sym Hp)).
      apply in_map_iff. exists l. unfold f. split.
      * f_equal. unfold ls. apply count_label_rows.
      * apply uniq_labels_In, count_label_pos. unfold ls.
        now rewrite count_label_rows.
  - apply sort_by_count_descending.
  - rewrite (total_count_perm _ _ Hp). unfold total_count.
    rewrite map_map. simpl. unfold count_label.
    rewrite (occurrences_sum String.eqb string_eqb_iff ls (uniq_labels ls)).
    + unfold ls, count_rows. apply labels_of_length.
    + apply uniq_labels_NoDup.
    + intros x Hx. now apply uniq_labels_In.
Qed.

Lemma distribution_perm (c : string) (df : DataFrame) (vc vc' : list (string * nat)) :
  distribution_of c df vc -> Permutation vc vc' -> descending vc' ->
  distribution_of c df vc'.
Proof.
  intros [Hnd [Hin [_ Htot]]] Hp Hd. split; [|split; [|split]].
  - apply (Permutation_NoDup (Permutation_map fst Hp) Hnd).
  - intros l n. rewrite <- Hin. split; apply Permutation_in;
      [now apply Permutation_sym | exact Hp].
  - exact Hd.
  - now rewrite <- (total_count_perm _ _ Hp).
Qed.

(** X2: The two distributions of the dashboard: on a table with rows, each is
    the distribution of its column (one entry per label that occurs, its
    count, largest first; rows without a label are left out); on an empty
    table, or without the column, no chart is made and nothing is raised. *)
Theorem dashboard_distributions (filtered : DataFrame) :
  (has_col filtered "topic_label" = true -> 0 < len filtered ->
   exists tc, App.topic_counts filtered = Ok (Some tc) /\
              distribution_of "topic_label" filtered tc) /\
  (has_col filtered "sentiment_label" = true -> 0 < len filtered ->
   exists sc, App.sent_counts filtered = Ok (Some sc) /\
              distribution_of "sentiment_label" filtered sc) /\
  (has_col filtered "topic_label" = false \/ len filtered = 0 ->
   App.topic_counts filtered = Ok None) /\
  (has_col filtered "sentiment_label" = false \/ len filtered = 0 ->
   App.sent_counts filtered = Ok None).
Proof.
  unfold App.topic_counts, App.sent_counts. repeat split.
  - intros Hc Hl. apply Nat.ltb_lt in Hl. rewrite Hc, Hl. cbn [andb].
    rewrite (getcol_present filtered _ Hc). cbn [bind]. eexists.
    split; [reflexivity|].
    apply (distribution_perm _ _ _ _ (value_counts_distribution _ filtered)).
    + apply Permutation_sym, sort_by_count_perm.
    + apply sort_by_count_descending.
  - intros Hc Hl. apply Nat.ltb_lt in Hl. rewrite Hc, Hl. cbn [andb].
    rewrite (getcol_present filtered _ Hc). cbn [bind]. eexists.
    split; [reflexivity | apply value_counts_distribution].
  - intros [Hc|Hl]; [now rewrite Hc|]. rewrite Hl. cbn. now rewrite andb_false_r.
  - intros [Hc|Hl]; [now rewrite Hc|]. rewrite Hl. cbn. now rewrite andb_false_r.
Qed.

(** ** The figures of the batch views *)

Lemma flat_map_singletons {A B : Type} (g : A -> list B) (f : A -> B) (l : list A) :
  (forall a, In a l -> g a = [f a]) -> flat_map g l = map f l.
Proof.
  induction l as [|a l IH]; simpl; intros H; [reflexivity|].
  rewrite (H a (or_introl eq_refl)). simpl. f_equal. apply IH.
  intros b Hb. apply H. now right.
Qed.

(** [value_counts().sort_index()]: the labels in ascending order, each with
    its count. *)
Lemma sort_index_value_counts (s : Series) :
  sort_index_counts (value_counts s)
  = map (fun l => (l, count_label l (labels_of s))) (uniq_labels (labels_of s)).
Proof.
  unfold sort_index_counts, value_counts.
  set (ls := labels_of s). set (f := fun l : string => (l, count_label l ls)).
  set (vc := fold_right insert_by_count [] (map f (uniq_labels ls))).
  assert (Hp : Permutation vc (map f (uniq_labels ls)))
    by apply sort_by_count_perm.
  assert (Hfst : map fst (map f (uniq_labels ls)) = uniq_labels ls).
  { rewrite map_map. simpl. apply map_id. }
  assert (Hs : StringSort.sort (map fst vc) = uniq_labels ls).
  { apply sort_permutation_of_sorted; [apply sorted_labels_strict|].
    rewrite <- Hfst. now apply Permutation_map. }
  rewrite Hs. apply flat_map_singletons. intros l Hl.
  destruct (find (fun e : string * nat => String.eqb l (fst e)) vc) as [e|] eqn:F.
  - apply find_some in F. destruct F as [He E]. apply String.eqb_eq in E.
    apply (Permutation_in _ Hp) in He. apply in_map_iff in He.
    destruct He as [x [<- _]]. simpl in E. now subst x.
  - exfalso. assert (Hin : In (f l) vc).
    { apply (Permutation_in _ (Permutation_sym Hp)), in_map_iff. now exists l. }
    apply (find_none _ _ F) in Hin. simpl in Hin.
    now rewrite String.eqb_refl in Hin.
Qed.

Lemma dates_of_In (l : list Row) (d : Z) :
  In d (dates_of (map (fun r : Row => r "date") l)) <->
  exists r, In r l /\ r "date" = Date d.
Proof.
  unfold dates_of. rewrite in_flat_map. split.
  - intros [v [Hv H]]. apply in_map_iff in Hv. destruct Hv as [r [<- Hr]].
    exists r. split; [exact Hr|].
    destruct (r "date"); simpl in H; try contradiction.
    destruct H as [->|[]]. reflexivity.
  - intros [r [Hr E]]. exists (r "date").
    split; [apply in_map_iff; now exists r|]. rewrite E. now left.
Qed.

Lemma count_date_rows (l : list Row) (d : Z) :
  count_date d (dates_of (map (fun r : Row => r "date") l))
  = List.length (filter (dated_on d) l).
Proof.
  unfold count_date, dates_of, dated_on.
  induction l as [|r l IH]; simpl; [reflexivity|].
  destruct (r "date"); simpl; try exact IH.
  rewrite (Z.eqb_sym day d). destruct (Z.eqb d day); simpl; now rewrite IH.
Qed.

Lemma dates_of_length (l : list Row) :
  List.length (dates_of (map (fun r : Row => r "date") l))
  = List.length (filter dated l).
Proof.
  unfold dates_of, dated. induction l as [|r l IH]; simpl; [reflexivity|].
  destruct (r "date"); simpl; now rewrite IH.
Qed.

Lemma uniq_dates_In (l : list Z) (d : Z) : In d (uniq_dates l) <-> In d l.
Proof. apply (uniq_keys_In Z.eq_dec ZSort.sort ZSort.Permuted_sort). Qed.

Lemma uniq_dates_sorted (l : list Z) : StronglySorted Z.lt (uniq_dates l).
Proof.
  apply sorted_nodup_strict; [apply sorted_dates_le|].
  apply (uniq_keys_NoDup Z.eq_dec ZSort.sort ZSort.Permuted_sort).
Qed.

Lemma strict_dates_NoDup (l : list Z) : StronglySorted Z.lt l -> NoDup l.
Proof.
  induction 1 as [|a l Hs IH Ha]; constructor; [|exact IH].
  intros Hin. rewrite Forall_forall in Ha. specialize (Ha a Hin). lia.
Qed.

(** On a normalized table a cell of [date] that is not missing is a date. *)
Lemma normalized_dated (df : DataFrame) (r : Row) :
  normalized df = true -> In r (rows df) -> dated r = negb (isna (r "date")).
Proof.
  intros Hn Hr. unfold normalized in Hn. apply andb_true_iff in Hn.
  destruct Hn as [_ Hn]. rewrite forallb_forall in Hn. specialize (Hn r Hr).
  unfold dated. destruct (r "date"); simpl in *; try reflexivity; discriminate.
Qed.

Lemma all_isna_no_dated (df : DataFrame) :
  normalized df = true ->
  all_isna (map (fun r : Row => r "date") (rows df))
  = negb (existsb dated (rows df)).
Proof.
  intros Hn. unfold all_isna.
  assert (H : forall l, (forall r, In r l -> In r (rows df)) ->
            forallb isna (map (fun r : Row => r "date") l)
            = negb (existsb dated l)).
  { induction l as [|r l IH]; intros Hl; simpl; [reflexivity|].
    rewrite (normalized_dated df r Hn (Hl r (or_introl eq_refl))).
    rewrite IH by (intros x Hx; apply Hl; now right).
    destruct (isna (r "date")); reflexivity. }
  apply H. auto.
Qed.

Section Figures.

Variable render : Charts.figure -> result unit.
Hypothesis render_ok : forall fig, render fig = Ok tt.

(** X3: The overall-sentiment chart: when the column exists the view saves one
    bar per sentiment that occurs, in ascending order of the labels, as high
    as the number of rows with that sentiment. *)
Theorem overall_sentiment_bars (df : DataFrame) (out_path : string)
  (o : Charts.Output) :
  has_col df "sentiment_label" = true ->
  exists ls,
    labels_in_order "sentiment_label" df ls /\
    Charts.plot_overall_sentiment render df out_path o
    = Ok (Charts.print ("Saved overall sentiment chart -> " ++ out_path)
            (Charts.savefig out_path
               (Charts.BarCounts "Overall Sentiment Distribution"
                  (map (fun l => (l, count_sentiment l df)) ls)) o)).
Proof.
  intros Hc.
  exists (uniq_labels (labels_of (map (fun r : Row => r "sentiment_label") (rows df)))).
  split; [apply options_of_column|].
  unfold Charts.plot_overall_sentiment. rewrite Hc. cbn [negb].
  rewrite (getcol_present df _ Hc). cbn [bind].
  rewrite draw_and_save_ok by exact render_ok. cbn [bind].
  rewrite sort_index_value_counts. do 4 f_equal.
  apply map_ext. intros l. f_equal. apply count_label_rows.
Qed.

(** X4: The topic chart: when the column exists the view saves the distribution
    of the topics: one bar per topic that occurs, as high as the number of
    rows on that topic, the highest first. *)
Theorem topic_distribution_bars (df : DataFrame) (out_path : string)
  (o : Charts.Output) :
  has_col df "topic_label" = true ->
  exists bars,
    distribution_of "topic_label" df bars /\
    Charts.plot_topic_distribution render df out_path o
    = Ok (Charts.print ("Saved topic distribution chart -> " ++ out_path)
            (Charts.savefig out_path
               (Charts.BarCounts
                  "Topic Distribution (Share of Comments per Topic)" bars) o)).
Proof.
  intros Hc. eexists. split.
  2:{ unfold Charts.plot_topic_distribution. rewrite Hc. cbn [negb].
      rewrite (getcol_present df _ Hc). cbn [bind].
      rewrite draw_and_save_ok by exact render_ok. reflexivity. }
  apply (distribution_perm _ _ _ _ (value_counts_distribution _ df)).
  - apply Permutation_sym, sort_by_count_perm.
  - apply sort_by_count_descending.
Qed.

(** X5: The comments-per-day chart on a normalized table: when some row has a
    date the view saves one bar per date that occurs, in ascending order, as
    high as the number of rows of that date, and the bars add up to the
    number of rows with a date; when no row has a date it prints its notice
    and saves nothing. *)
Theorem comments_per_day_bars (df : DataFrame) (out_path : string)
  (o : Charts.Output) :
  normalized df = true ->
  exists ds,
    StronglySorted Z.lt ds /\
    (forall d, In d ds <-> exists r, In r (rows df) /\ r "date" = Date d) /\
    total_count (map (fun d => (d, count_rows (dated_on d) df)) ds)
    = count_rows dated df /\
    Charts.plot_comments_per_day render df out_path o
    = if existsb dated (rows df)
      then Ok (Charts.print ("Saved comments-per-day chart -> " ++ out_path)
                 (Charts.savefig out_path
                    (Charts.BarDays "Number of Comments per Day"
                       (map (fun d => (d, count_rows (dated_on d) df)) ds)) o))
      else Ok (Charts.print
                 "No 'date' column or all dates NaT. Skipping comments-per-day chart."
                 o).
Proof.
  intros Hn. destruct (normalized_date_column df Hn) as [Hc _].
  set (col := map (fun r : Row => r "date") (rows df)).
  exists (uniq_dates (dates_of col)).
  assert (Hbars : map (fun d => (d, count_date d (dates_of col)))
                      (uniq_dates (dates_of col))
                  = map (fun d => (d, count_rows (dated_on d) df))
                        (uniq_dates (dates_of col))).
  { apply map_ext. intros d. f_equal. apply count_date_rows. }
  split; [apply uniq_dates_sorted|]. split; [|split].
  - intros d. rewrite uniq_dates_In. apply dates_of_In.
  - rewrite <- Hbars. unfold total_count. rewrite map_map. simpl.
    unfold count_date.
    rewrite (occurrences_sum Z.eqb Z.eqb_eq (dates_of col) (uniq_dates (dates_of col))).
    + apply dates_of_length.
    + apply strict_dates_NoDup, uniq_dates_sorted.
    + intros d Hd. now apply uniq_dates_In.
  - unfold Charts.plot_comments_per_day. rewrite no_dates_value, Hc.
    cbn [negb orb bind]. rewrite (all_isna_no_dated df Hn).
    destruct (existsb dated (rows df)); cbn [negb]; [|reflexivity].
    rewrite (getcol_present df _ Hc). cbn [bind].
    rewrite draw_and_save_ok by exact render_ok. cbn [bind].
    unfold groupby_size. fold col. now rewrite Hbars.
Qed.

End Figures.

Lemma overall_sentiment_bars_witness :
  (forall fig : Charts.figure, (fun _ => Ok tt) fig = Ok tt) /\
  has_col four_comments "sentiment_label" = true /\
  exists ls,
    labels_in_order "sentiment_label" four_comments ls /\
    Charts.plot_overall_sentiment (fun _ => Ok tt) four_comments
      "overall_sentiment.png" nothing_yet
    = Ok (Charts.print "Saved overall sentiment chart -> overall_sentiment.png"
            (Charts.savefig "overall_sentiment.png"
               (Charts.BarCounts "Overall Sentiment Distribution"
                  (map (fun l => (l, count_sentiment l four_comments)) ls))
               nothing_yet)).
Proof.
  split; [reflexivity|]. split; [reflexivity|].
  exact (overall_sentiment_bars (fun _ => Ok tt) (fun _ => eq_refl)
           four_comments "overall_sentiment.png" nothing_yet eq_refl).
Defined.

Lemma topic_distribution_bars_witness :
  (forall fig : Charts.figure, (fun _ => Ok tt) fig = Ok tt) /\
  has_col four_comments "topic_label" = true /\
  exists bars,
    distribution_of "topic_label" four_comments bars /\
    Charts.plot_topic_distribution (fun _ => Ok tt) four_comments
      "topic_distribution.png" nothing_yet
    = Ok (Charts.print "Saved topic distribution chart -> topic_distribution.png"
            (Charts.savefig "topic_distribution.png"
               (Charts.BarCounts
                  "Topic Distribution (Share of Comments per Topic)" bars)
               nothing_yet)).
Proof.
  split; [reflexivity|]. split; [reflexivity|].
  exact (topic_distribution_bars (fun _ => Ok tt) (fun _ => eq_refl)
           four_comments "topic_distribution.png" nothing_yet eq_refl).
Defined.

Lemma comments_per_day_bars_witness :
  (forall fig : Charts.figure, (fun _ => Ok tt) fig = Ok tt) /\
  normalized four_comments = true /\
  exists ds,
    StronglySorted Z.lt ds /\
    Charts.plot_comments_per_day (fun _ => Ok tt) four_comments
      "comments_per_day.png" nothing_yet
    = Ok (Charts.print "Saved comments-per-day chart -> comments_per_day.png"
            (Charts.savefig "comments_per_day.png"
               (Charts.BarDays "Number of Comments per Day"
                  (map (fun d => (d, count_rows (dated_on d) four_comments)) ds))
               nothing_yet)).
Proof.
  split; [reflexivity|]. split; [reflexivity|].
  destruct (comments_per_day_bars (fun _ => Ok tt) (fun _ => eq_refl)
              four_comments "comments_per_day.png" nothing_yet eq_refl)
    as [ds [H1 [_ [_ H4]]]].
  exists ds. split; [exact H1 | exact H4].
Defined.

(** ** The chart over time and its three outcomes *)

Lemma batch_counts_daily (df : DataFrame) :
  has_col df "date" = true -> has_col df "sentiment_label" = true ->
  Charts.sentiment_over_time_counts df = Ok (daily_counts df).
Proof.
  intros Hd Hs. unfold Charts.sentiment_over_time_counts.
  rewrite (getcol_present df _ Hd), (getcol_present df _ Hs). cbn [bind].
  pose proof (daily_counts_spec df) as Hspec. cbn zeta in Hspec.
  f_equal. apply sort_index_sorted; [apply Hspec|].
  destruct Hspec as [_ [_ [_ [_ [Hc _]]]]].
  fold (daily_counts df). rewrite Hc. apply length_map.
Qed.

(** The table over time is empty exactly when no row has both a date and a
    sentiment. *)
Lemma daily_counts_empty (df : DataFrame) :
  empty (daily_counts df) = negb (existsb dated_and_labelled (rows df)).
Proof.
  destruct (daily_counts_spec df) as [_ [_ [Hidx [Hlab _]]]]. cbn zeta in *.
  destruct (existsb dated_and_labelled (rows df)) eqn:E; cbn [negb].
  - apply existsb_exists in E. destruct E as [r [Hr H]].
    unfold dated_and_labelled in H. apply andb_true_iff in H.
    destruct H as [H1 H2]. unfold dated in H1. unfold has_sentiment in H2.
    destruct (r "date") as [| | | | | | |d] eqn:Ed; try discriminate.
    destruct (r "sentiment_label") as [| | |l| | | |] eqn:El; try discriminate.
    assert (Hi : In d (index (daily_counts df))).
    { apply Hidx. exists r. split; [exact Hr|]. split; [exact Ed|].
      unfold has_sentiment. now rewrite El. }
    assert (Hl : In l (labels (daily_counts df))).
    { apply Hlab. exists r, d. now repeat split. }
    unfold empty. destruct (index (daily_counts df)); [destruct Hi|].
    destruct (labels (daily_counts df)); [destruct Hl | reflexivity].
  - unfold empty. destruct (index (daily_counts df)) as [|d idx] eqn:Ei;
      [reflexivity|].
    exfalso. assert (Hi : In d (d :: idx)) by now left.
    apply (proj1 (Hidx d)) in Hi. destruct Hi as [r [Hr [Ed Hs]]].
    assert (T : existsb dated_and_labelled (rows df) = true).
    { apply existsb_exists. exists r. split; [exact Hr|].
      unfold dated_and_labelled, dated. now rewrite Ed, Hs. }
    congruence.
Qed.

Lemma any_notna_dated (df : DataFrame) :
  normalized df = true ->
  any_notna (map (fun r : Row => r "date") (rows df)) = existsb dated (rows df).
Proof.
  intros Hn. unfold any_notna.
  assert (H : forall l, (forall r, In r l -> In r (rows df)) ->
            existsb notna (map (fun r : Row => r "date") l) = existsb dated l).
  { induction l as [|r l IH]; intros Hl; simpl; [reflexivity|].
    rewrite (normalized_dated df r Hn (Hl r (or_introl eq_refl))).
    rewrite IH by (intros x Hx; apply Hl; now right). reflexivity. }
  apply H. auto.
Qed.

(** X6: The time chart of the batch script on a normalized table that has the
    sentiment column: it saves the table of daily counts when some row has
    both a date and a sentiment; it prints its second notice when rows have
    dates but none of them has a sentiment; it prints its first notice when
    no row has a date.  In the last two cases nothing is saved. *)
Theorem sentiment_over_time_outcomes (render : Charts.figure -> result unit)
  (df : DataFrame) (out_path : string) (o : Charts.Output) :
  (forall fig, render fig = Ok tt) ->
  normalized df = true ->
  has_col df "sentiment_label" = true ->
  Charts.plot_sentiment_over_time render df out_path o
  = if existsb dated_and_labelled (rows df) then
      Ok (Charts.print ("Saved sentiment-over-time chart -> " ++ out_path)
            (Charts.savefig out_path
               (Charts.Lines "Sentiment Over Time (Daily Counts)"
                  (daily_counts df)) o))
    else if existsb dated (rows df) then
      Ok (Charts.print
            "No data after grouping for sentiment-over-time. Skipping chart." o)
    else
      Ok (Charts.print
            "Missing 'date' or 'sentiment_label'. Skipping sentiment-over-time chart."
            o).
Proof.
  intros Hr Hn Hs. destruct (normalized_date_column df Hn) as [Hc _].
  unfold Charts.plot_sentiment_over_time. rewrite no_dates_value, Hc, Hs.
  cbn [negb orb bind]. rewrite (all_isna_no_dated df Hn), orb_false_r.
  destruct (existsb dated (rows df)) eqn:Ed; cbn [negb].
  - rewrite (batch_counts_daily df Hc Hs). cbn [bind].
    rewrite daily_counts_empty.
    destruct (existsb dated_and_labelled (rows df)); cbn [negb]; [|reflexivity].
    rewrite (draw_and_save_ok render Hr). reflexivity.
  - assert (E : existsb dated_and_labelled (rows df) = false).
    { destruct (existsb dated_and_labelled (rows df)) eqn:E; [|reflexivity].
      apply existsb_exists in E. destruct E as [r [Hin H]].
      unfold dated_and_labelled in H. apply andb_true_iff in H.
      assert (T : existsb dated (rows df) = true)
        by (apply existsb_exists; exists r; tauto).
      congruence. }
    now rewrite E.
Qed.

Lemma sentiment_over_time_outcomes_witness :
  (forall fig : Charts.figure, (fun _ => Ok tt) fig = Ok tt) /\
  normalized unlabelled_topic = true /\
  has_col unlabelled_topic "sentiment_label" = true /\
  Charts.plot_sentiment_over_time (fun _ => Ok tt) unlabelled_topic
    "sentiment_over_time.png" nothing_yet
  = Ok (Charts.print
          "No data after grouping for sentiment-over-time. Skipping chart."
          nothing_yet).
Proof.
  split; [reflexivity|]. split; [reflexivity|]. split; [reflexivity|].
  exact (sentiment_over_time_outcomes (fun _ => Ok tt) unlabelled_topic
           "sentiment_over_time.png" nothing_yet (fun _ => eq_refl)
           eq_refl eq_refl).
Defined.

(** X7: The time section of the dashboard on a normalized table: it is not
    rendered when no row has a date; with dated rows it raises [KeyError]
    when the table has no sentiment column, shows its no-data text when no
    dated row has a sentiment, and else charts the table of daily counts. *)
Theorem time_section_outcomes (filtered : DataFrame) :
  normalized filtered = true ->
  App.time_section filtered
  = if negb (existsb dated (rows filtered)) then Ok None
    else if negb (has_col filtered "sentiment_label") then
      Raise (KeyError "sentiment_label")
    else if existsb dated_and_labelled (rows filtered) then
      Ok (Some (App.LineChart (daily_counts filtered)))
    else Ok (Some (App.NoData "No data to show for selected filters.")).
Proof.
  intros Hn. destruct (normalized_date_column filtered Hn) as [Hc _].
  unfold App.time_section, App.sent_time, App.has_dates. rewrite Hc.
  rewrite !(getcol_present filtered _ Hc). cbn [bind].
  rewrite (any_notna_dated filtered Hn).
  destruct (existsb dated (rows filtered)); cbn [negb]; [|reflexivity].
  destruct (has_col filtered "sentiment_label") eqn:Hs; cbn [negb].
  - rewrite (getcol_present filtered _ Hs). cbn [bind].
    fold (daily_counts filtered). rewrite daily_counts_empty.
    destruct (existsb dated_and_labelled (rows filtered)); reflexivity.
  - now rewrite (getcol_absent filtered _ Hs).
Qed.

Lemma time_section_outcomes_witness :
  normalized unlabelled_topic = true /\
  App.time_section unlabelled_topic
  = Ok (Some (App.NoData "No data to show for selected filters.")).
Proof.
  split; [reflexivity|].
  exact (time_section_outcomes unlabelled_topic eq_refl).
Defined.

(** ** The filters, step by step *)

Lemma apply_filters_rows (df : DataFrame) (topic sentiment : string)
  (range : option (Z * Z)) :
  normalized df = true ->
  has_col df "topic_label" = true ->
  has_col df "sentiment_label" = true ->
  App.apply_filters df topic sentiment (option_map fst range) (option_map snd range)
  = Ok {| columns := columns df;
          rows := filter (satisfiesb topic sentiment range) (rows df) |}.
Proof.
  intros Hn Ht Hs. unfold App.apply_filters.
  rewrite (filter_topic_rows df topic Ht). cbn [bind].
  rewrite filter_sentiment_rows by exact Hs. cbn [bind columns rows].
  rewrite filter_dates_rows
    by (apply (normalized_filter
                 {| columns := columns df; rows := filter _ (rows df) |});
        now apply normalized_filter).
  cbn [columns rows]. rewrite !filter_filter. do 2 f_equal.
  apply filter_ext. intros r. unfold satisfiesb. now rewrite andb_assoc.
Qed.

(** X8: The three filter steps commute and repeat: on a normalized table with
    the two label columns, running them in the opposite order gives the
    table the script computes, and filtering the result again with the same
    selections changes nothing. *)
Theorem filter_steps_commute (df : DataFrame) (topic sentiment : string)
  (range : option (Z * Z)) :
  normalized df = true ->
  has_col df "topic_label" = true ->
  has_col df "sentiment_label" = true ->
  (f1 <- App.filter_dates df (option_map fst range) (option_map snd range) ;;
   f2 <- App.filter_sentiment f1 sentiment ;;
   App.filter_topic f2 topic)
  = App.apply_filters df topic sentiment
      (option_map fst range) (option_map snd range) /\
  (f <- App.apply_filters df topic sentiment
          (option_map fst range) (option_map snd range) ;;
   App.apply_filters f topic sentiment
     (option_map fst range) (option_map snd range))
  = App.apply_filters df topic sentiment
      (option_map fst range) (option_map snd range).
Proof.
  intros Hn Ht Hs. rewrite (apply_filters_rows df topic sentiment range Hn Ht Hs).
  split.
  - rewrite (filter_dates_rows df range Hn). cbn [bind].
    rewrite filter_sentiment_rows by exact Hs. cbn [bind columns rows].
    rewrite filter_topic_rows by exact Ht. cbn [columns rows].
    rewrite !filter_filter. do 2 f_equal. apply filter_ext. intros r.
    unfold satisfiesb.
    destruct (label_passes topic (r "topic_label")),
             (label_passes sentiment (r "sentiment_label")),
             (range_passes range (r "date")); reflexivity.
  - cbn [bind].
    rewrite apply_filters_rows;
      [|now apply normalized_filter | exact Ht | exact Hs].
    cbn [columns rows]. rewrite filter_filter. do 2 f_equal.
    apply filter_ext. intros r.
    destruct (satisfiesb topic sentiment range r); reflexivity.
Qed.

Lemma filter_steps_commute_witness :
  normalized four_comments = true /\
  has_col four_comments "topic_label" = true /\
  has_col four_comments "sentiment_label" = true /\
  (f1 <- App.filter_dates four_comments (Some 20029%Z) (Some 20029%Z) ;;
   f2 <- App.filter_sentiment f1 "POSITIVE" ;;
   App.filter_topic f2 "B")
  = App.apply_filters four_comments "B" "POSITIVE" (Some 20029%Z) (Some 20029%Z).
Proof.
  repeat (split; [reflexivity|]).
  exact (proj1 (filter_steps_commute four_comments "B" "POSITIVE"
                  (Some (20029, 20029)%Z) eq_refl eq_refl eq_refl)).
Defined.

(** X9: A filter whose widget is left on its sentinel does not look at its
    column: without any selection the table passes unchanged, whatever its
    columns, and a range is ignored when the table has no [date] column.  A
    selected label on a missing column raises [KeyError]. *)
Theorem unselected_filters_skip (df : DataFrame) (topic sentiment : string)
  (lo hi : option Z) :
  App.apply_filters df "All" "All" None None = Ok df /\
  (has_col df "date" = false ->
   App.apply_filters df "All" "All" lo hi = Ok df) /\
  (topic <> "All" -> has_col df "topic_label" = false ->
   App.apply_filters df topic sentiment lo hi = Raise (KeyError "topic_label")) /\
  (has_col df "topic_label" = true -> sentiment <> "All" ->
   has_col df "sentiment_label" = false ->
   App.apply_filters df topic sentiment lo hi
   = Raise (KeyError "sentiment_label")).
Proof.
  split; [reflexivity|]. split; [|split].
  - intros Hd. unfold App.apply_filters. cbn [App.filter_topic
      App.filter_sentiment String.eqb Ascii.eqb Bool.eqb negb bind].
    unfold App.filter_dates. rewrite Hd. now destruct lo, hi.
  - intros Hne Hc. apply String.eqb_neq in Hne.
    unfold App.apply_filters, App.filter_topic. rewrite Hne. cbn [negb].
    now rewrite (getcol_absent df _ Hc).
  - intros Ht Hne Hc. apply String.eqb_neq in Hne. unfold App.apply_filters.
    rewrite (filter_topic_rows df topic Ht). cbn [bind].
    unfold App.filter_sentiment. rewrite Hne. cbn [negb].
    rewrite getcol_absent by exact Hc. reflexivity.
Qed.

(** ** Options and what they select *)

(** X10: Every label a select box offers selects at least one row, and a label it
    does not offer selects none: on a table with the two label columns, the
    filter on a label other than the sentinel keeps exactly the rows with
    that label, and the result has rows exactly when the label is among the
    options. *)
Theorem offered_options_select_rows (df : DataFrame) (chosen : string) :
  has_col df "topic_label" = true ->
  has_col df "sentiment_label" = true ->
  chosen <> "All" ->
  (exists opts filtered,
     App.topic_options df = Ok opts /\
     App.filter_topic df chosen = Ok filtered /\
     (forall r, In r (rows filtered) <->
                In r (rows df) /\ r "topic_label" = Str chosen) /\
     (In chosen opts <-> 0 < len filtered)) /\
  (exists opts filtered,
     App.sentiment_options df = Ok opts /\
     App.filter_sentiment df chosen = Ok filtered /\
     (forall r, In r (rows filtered) <->
                In r (rows df) /\ r "sentiment_label" = Str chosen) /\
     (In chosen opts <-> 0 < len filtered)).
Proof.
  intros Ht Hs Hne.
  assert (Hpass : forall c, label_passes chosen c = eq_str chosen c).
  { intros c. unfold label_passes. apply String.eqb_neq in Hne. now rewrite Hne. }
  assert (Hgen : forall c : string,
    (forall r, In r (filter (fun r : Row => label_passes chosen (r c)) (rows df)) <->
               In r (rows df) /\ r c = Str chosen) /\
    (In chosen ("All" :: uniq_labels (labels_of (map (fun r : Row => r c) (rows df))))
     <-> 0 < List.length (filter (fun r : Row => label_passes chosen (r c)) (rows df)))).
  { intros c.
    set (fl := filter (fun r : Row => label_passes chosen (r c)) (rows df)).
    assert (Hin : forall r, In r fl <-> In r (rows df) /\ r c = Str chosen).
    { intros r. unfold fl. now rewrite filter_In, Hpass, eq_str_spec. }
    split; [exact Hin|]. split.
    - intros [E|H]; [now elim Hne|].
      apply (proj1 (uniq_labels_In _ _)) in H.
      apply (proj1 (labels_of_In c (rows df) chosen)) in H.
      destruct H as [r Hr]. apply (proj2 (Hin r)) in Hr.
      destruct fl; [destruct Hr | simpl; lia].
    - intros Hl. right. apply uniq_labels_In, labels_of_In.
      destruct fl as [|r l]; [simpl in Hl; lia|].
      exists r. apply Hin. now left. }
  split.
  - unfold App.topic_options. rewrite (getcol_present df _ Ht). cbn [bind].
    rewrite (filter_topic_rows df chosen Ht).
    do 2 eexists. split; [reflexivity|]. split; [reflexivity|].
    unfold len. cbn [rows]. apply Hgen.
  - unfold App.sentiment_options. rewrite (getcol_present df _ Hs). cbn [bind].
    rewrite (filter_sentiment_rows df chosen Hs).
    do 2 eexists. split; [reflexivity|]. split; [reflexivity|].
    unfold len. cbn [rows]. apply Hgen.
Qed.

Lemma offered_options_select_rows_witness :
  has_col four_comments "topic_label" = true /\
  has_col four_comments "sentiment_label" = true /\
  "NEGATIVE" <> "All" /\
  exists opts filtered,
    App.sentiment_options four_comments = Ok opts /\
    App.filter_sentiment four_comments "NEGATIVE" = Ok filtered /\
    (In "NEGATIVE" opts <-> 0 < len filtered).
Proof.
  split; [reflexivity|]. split; [reflexivity|]. split; [discriminate|].
  destruct (offered_options_select_rows four_comments "NEGATIVE"
              eq_refl eq_refl ltac:(discriminate))
    as [_ [opts [f [H1 [H2 [_ H4]]]]]].
  exists opts, f. split; [exact H1|]. split; [exact H2 | exact H4].
Defined.

(** ** One sentiment selected *)

Lemma single_entry {A : Type} (e : A * nat) (vc : list (A * nat)) :
  NoDup (map fst vc) -> In e vc -> (forall x, In x vc -> x = e) -> vc = [e].
Proof.
  intros Hnd Hin Hall. destruct vc as [|a [|b vc]].
  - destruct Hin.
  - now rewrite (Hall a (or_introl eq_refl)).
  - exfalso. rewrite (Hall a (or_introl eq_refl)) in Hnd.
    rewrite (Hall b (or_intror (or_introl eq_refl))) in Hnd.
    inversion Hnd as [|x l Hx _]. apply Hx. now left.
Qed.

(** X11: With one sentiment selected the view is uniform: every row of the result
    has that sentiment, so its count is the total, the count of any other
    sentiment is zero, and the sentiment chart is a single bar as high as
    the total; when no row is left there is no chart. *)
Theorem single_sentiment_view (df : DataFrame) (chosen : string) :
  has_col df "sentiment_label" = true ->
  chosen <> "All" ->
  exists filtered,
    App.filter_sentiment df chosen = Ok filtered /\
    count_sentiment chosen filtered = len filtered /\
    (forall other, other <> chosen -> count_sentiment other filtered = 0) /\
    App.sent_counts filtered
    = Ok (if Nat.ltb 0 (len filtered) then Some [(chosen, len filtered)]
          else None).
Proof.
  intros Hs Hne. rewrite (filter_sentiment_rows df chosen Hs).
  eexists. split; [reflexivity|].
  set (f := {| columns := columns df;
               rows := filter (fun r : Row => label_passes chosen (r "sentiment_label"))
                              (rows df) |}).
  assert (Hrow : forall r, In r (rows f) -> r "sentiment_label" = Str chosen).
  { intros r Hr. unfold f in Hr. cbn [rows] in Hr. apply filter_In in Hr.
    destruct Hr as [_ Hr]. unfold label_passes in Hr.
    apply String.eqb_neq in Hne. rewrite Hne in Hr. now apply eq_str_spec. }
  assert (Hall : count_sentiment chosen f = len f).
  { unfold count_sentiment, len. rewrite filter_all; [reflexivity|].
    intros r Hr. apply eq_str_spec. now apply Hrow. }
  assert (Hnone : forall other, other <> chosen -> count_sentiment other f = 0).
  { intros other Ho. unfold count_sentiment. rewrite filter_none; [reflexivity|].
    intros r Hr. rewrite (Hrow r Hr). simpl. apply String.eqb_neq.
    intros E. now apply Ho. }
  split; [exact Hall|]. split; [exact Hnone|].
  unfold App.sent_counts.
  assert (Hc : has_col f "sentiment_label" = true) by exact Hs.
  rewrite Hc. cbn [andb]. destruct (Nat.ltb 0 (len f)) eqn:El; [|reflexivity].
  apply Nat.ltb_lt in El. rewrite (getcol_present f _ Hc). cbn [bind].
  do 2 f_equal.
  destruct (value_counts_distribution "sentiment_label" f) as [Hnd [Hin _]].
  apply single_entry; [exact Hnd | |].
  - apply Hin. split; [exact El|]. symmetry. exact Hall.
  - intros [l n] Hx. apply Hin in Hx. destruct Hx as [Hpos Hn].
    destruct (String.eqb_spec l chosen) as [->|Hl].
    + f_equal. rewrite Hn. exact Hall.
    + exfalso. change (n = count_sentiment l f) in Hn.
      rewrite (Hnone l Hl) in Hn. lia.
Qed.

Lemma single_sentiment_view_witness :
  has_col four_comments "sentiment_label" = true /\
  "POSITIVE" <> "All" /\
  exists filtered,
    App.filter_sentiment four_comments "POSITIVE" = Ok filtered /\
    App.sent_counts filtered = Ok (Some [("POSITIVE", 3)]).
Proof.
  split; [reflexivity|]. split; [discriminate|].
  destruct (single_sentiment_view four_comments "POSITIVE" eq_refl
              ltac:(discriminate)) as [f [H1 [_ [_ H4]]]].
  exists f. split; [exact H1|]. rewrite H4.
  injection H1 as <-. reflexivity.
Defined.

(** ** The sample table *)

(** X12: The sample table shows the first 200 rows of the view, in order: all of
    them when the view has at most 200 rows, and fewer records than the
    download holds otherwise; no column is shown twice. *)
Theorem sample_table_prefix (filtered : DataFrame) :
  rows (App.sample_table filtered) = firstn 200 (rows filtered) /\
  len (App.sample_table filtered) = Nat.min 200 (len filtered) /\
  (len filtered <= 200 -> rows (App.sample_table filtered) = rows filtered) /\
  (200 < len filtered ->
   len (App.sample_table filtered)
   < List.length (records (App.csv_bytes filtered))) /\
  NoDup (columns (App.sample_table filtered)).
Proof.
  unfold App.sample_table, App.csv_bytes, to_csv, head, project, len.
  cbn [rows columns records]. split; [reflexivity|].
  split; [apply length_firstn|]. split; [|split].
  - intros H. now apply firstn_all2.
  - intros H. rewrite length_firstn, length_map. lia.
  - unfold App.show_cols. apply NoDup_filter. unfold App.visible_columns.
    repeat (constructor; [simpl; intuition discriminate|]). constructor.
Qed.

(** ** One run of the dashboard *)

Lemma normalize_has_col (parse_utc : cell -> option Z) (novalue : cell)
  (raw : DataFrame) (c : string) :
  c <> "date" -> has_col (normalize parse_utc novalue raw) c = has_col raw c.
Proof.
  intros Hc. unfold has_col, normalize, add_col. cbn [columns].
  destruct (existsb (String.eqb "date") (columns raw)); [reflexivity|].
  rewrite existsb_app. simpl. apply String.eqb_neq in Hc. rewrite Hc.
  now rewrite !orb_false_r.
Qed.

Lemma normalize_len (parse_utc : cell -> option Z) (novalue : cell)
  (raw : DataFrame) :
  len (normalize parse_utc novalue raw) = len raw.
Proof.
  unfold len, normalize. cbn [rows].
  destruct (has_col raw "published_at"); apply length_map.
Qed.

Section Dashboard.

Variable parse_utc : cell -> option Z.
Variable series_min series_max : Series -> result cell.
Variable date_input : cell * cell -> result (list Z).

Lemma loaded_normalized (fs : FileSystem) (df : DataFrame) :
  App.load_data parse_utc fs = Ok df -> normalized df = true.
Proof.
  rewrite app_load_data_normalize.
  destruct (fs App.CSV_PATH) as [raw|]; [|discriminate].
  intros E. injection E as <-. now apply normalize_normalized.
Qed.

Lemma summary_metrics_total (filtered : DataFrame) :
  has_col filtered "sentiment_label" = true ->
  exists m, App.summary_metrics filtered = Ok m /\ App.total m = len filtered.
Proof.
  intros Hs. unfold App.summary_metrics.
  rewrite !(label_pct_counts filtered _ Hs). cbn [bind].
  destruct (Nat.ltb 0 (len filtered)); eexists; split; reflexivity.
Qed.

Lemma counts_made (filtered : DataFrame) :
  has_col filtered "topic_label" = true ->
  has_col filtered "sentiment_label" = true ->
  exists tc sc,
    App.topic_counts filtered = Ok tc /\ (tc = None <-> len filtered = 0) /\
    App.sent_counts filtered = Ok sc /\ (sc = None <-> len filtered = 0).
Proof.
  intros Ht Hs. unfold App.topic_counts, App.sent_counts. rewrite Ht, Hs.
  cbn [andb]. rewrite (getcol_present filtered _ Ht), (getcol_present filtered _ Hs).
  cbn [bind]. destruct (Nat.ltb 0 (len filtered)) eqn:E.
  - apply Nat.ltb_lt in E. do 2 eexists.
    split; [reflexivity|]. split; [split; [discriminate | lia]|].
    split; [reflexivity|]. split; [discriminate | lia].
  - apply Nat.ltb_ge in E. do 2 eexists.
    split; [reflexivity|]. split; [split; [lia | reflexivity]|].
    split; [reflexivity|]. split; [lia | reflexivity].
Qed.

Lemma sent_time_made (filtered : DataFrame) :
  has_col filtered "sentiment_label" = true ->
  exists st, App.sent_time filtered = Ok st.
Proof.
  intros Hs. unfold App.sent_time, App.has_dates.
  destruct (has_col filtered "date") eqn:Hd; [|eexists; reflexivity].
  rewrite !(getcol_present filtered _ Hd). cbn [bind].
  destruct (any_notna _); [|eexists; reflexivity].
  rewrite (getcol_present filtered _ Hs). cbn [bind]. eexists. reflexivity.
Qed.

(** What the sidebar yields on a normalized table: no range when no row has
    a date; otherwise the two reductions run, the widget is asked and its
    tuple is unpacked. *)
Lemma date_range_value (df : DataFrame) :
  normalized df = true ->
  App.date_range series_min series_max date_input df
  = if existsb dated (rows df) then
      min_date <- series_min (map (fun r : Row => r "date") (rows df)) ;;
      max_date <- series_max (map (fun r : Row => r "date") (rows df)) ;;
      t <- date_input (min_date, max_date) ;;
      bounds <- App.unpack_pair t ;;
      Ok (Some (fst bounds), Some (snd bounds))
    else Ok (None, None).
Proof.
  intros Hn. destruct (normalized_date_column df Hn) as [Hd _].
  unfold App.date_range, App.has_dates. rewrite Hd.
  rewrite !(getcol_present df _ Hd). cbn [bind].
  rewrite (any_notna_dated df Hn).
  destruct (existsb dated (rows df)); reflexivity.
Qed.

(** The rest of the script, once the sidebar is done: an exception of the
    sidebar ends the run, and a range gives a page. *)
Lemma script_after_sidebar (fs : FileSystem) (df : DataFrame)
  (chosen_topic chosen_sentiment : string) :
  App.load_data parse_utc fs = Ok df ->
  has_col df "topic_label" = true ->
  has_col df "sentiment_label" = true ->
  (forall e, App.date_range series_min series_max date_input df = Raise e ->
     App.script parse_utc series_min series_max date_input fs
       chosen_topic chosen_sentiment = Raise e) /\
  (forall range,
     App.date_range series_min series_max date_input df
     = Ok (option_map fst range, option_map snd range) ->
     exists page,
       App.script parse_utc series_min series_max date_input fs
         chosen_topic chosen_sentiment = Ok page /\
       consistent_page df chosen_topic chosen_sentiment range page).
Proof.
  intros Hload Ht Hs.
  assert (Hn : normalized df = true) by exact (loaded_normalized fs df Hload).
  unfold App.script. rewrite Hload. cbn [bind].
  unfold App.topic_options, App.sentiment_options.
  rewrite (getcol_present df _ Ht), (getcol_present df _ Hs). cbn [bind].
  split.
  - intros e He. now rewrite He.
  - intros range Hr. rewrite Hr. cbn [bind fst snd].
    rewrite (apply_filters_rows df chosen_topic chosen_sentiment range Hn Ht Hs).
    cbn [bind].
    set (filtered := {| columns := columns df;
                        rows := filter (satisfiesb chosen_topic chosen_sentiment range)
                                       (rows df) |}).
    destruct (summary_metrics_total filtered Hs) as [m [Em Hm]].
    destruct (counts_made filtered Ht Hs) as [tc [sc [Etc [Htc [Esc Hsc]]]]].
    destruct (sent_time_made filtered Hs) as [st Est].
    rewrite Em. cbn [bind]. rewrite Etc. cbn [bind]. rewrite Esc. cbn [bind].
    rewrite Est. cbn [bind]. eexists. split; [reflexivity|].
    unfold consistent_page.
    cbn [App.shown App.metrics App.download App.sample App.topic_chart
         App.sentiment_chart].
    split; [reflexivity|].
    split; [unfold filtered, len; cbn [rows]; apply filter_length_le|].
    split; [exact Hm|].
    split; [unfold App.csv_bytes, to_csv; cbn [records]; apply length_map|].
    split; [reflexivity|].
    split; [unfold App.sample_table, head, project, len; cbn [rows];
            apply length_firstn|].
    split; assumption.
Qed.

(** X13: One run of the dashboard on a loaded table that has the two label
    columns, for every selection.  When no row has a date the run returns a
    page, without a range.  When some row has a date the run raises what
    the first reduction of the date column raises, else what the second
    raises, else what the date widget raises, else [ValueError] unless the
    widget returned exactly two dates; with two dates it returns a page for
    that range.  A returned page agrees with the table and the selections. *)
Theorem script_outcomes (fs : FileSystem) (df : DataFrame)
  (chosen_topic chosen_sentiment : string) :
  App.load_data parse_utc fs = Ok df ->
  has_col df "topic_label" = true ->
  has_col df "sentiment_label" = true ->
  (existsb dated (rows df) = false ->
   exists page,
     App.script parse_utc series_min series_max date_input fs
       chosen_topic chosen_sentiment = Ok page /\
     consistent_page df chosen_topic chosen_sentiment None page) /\
  (existsb dated (rows df) = true ->
   (forall e,
      series_min (map (fun r : Row => r "date") (rows df)) = Raise e ->
      App.script parse_utc series_min series_max date_input fs
        chosen_topic chosen_sentiment = Raise e) /\
   (forall min_date e,
      series_min (map (fun r : Row => r "date") (rows df)) = Ok min_date ->
      series_max (map (fun r : Row => r "date") (rows df)) = Raise e ->
      App.script parse_utc series_min series_max date_input fs
        chosen_topic chosen_sentiment = Raise e) /\
   (forall min_date max_date,
      series_min (map (fun r : Row => r "date") (rows df)) = Ok min_date ->
      series_max (map (fun r : Row => r "date") (rows df)) = Ok max_date ->
      (forall e, date_input (min_date, max_date) = Raise e ->
         App.script parse_utc series_min series_max date_input fs
           chosen_topic chosen_sentiment = Raise e) /\
      (forall t, date_input (min_date, max_date) = Ok t ->
         List.length t <> 2 ->
         App.script parse_utc series_min series_max date_input fs
           chosen_topic chosen_sentiment = Raise ValueError) /\
      (forall lo hi, date_input (min_date, max_date) = Ok [lo; hi] ->
         exists page,
           App.script parse_utc series_min series_max date_input fs
             chosen_topic chosen_sentiment = Ok page /\
           consistent_page df chosen_topic chosen_sentiment
             (Some (lo, hi)) page))).
Proof.
  intros Hload Ht Hs.
  assert (Hn : normalized df = true) by exact (loaded_normalized fs df Hload).
  destruct (script_after_sidebar fs df chosen_topic chosen_sentiment Hload Ht Hs)
    as [Hraise Hpage].
  rewrite (date_range_value df Hn) in Hraise, Hpage.
  split.
  - intros Hd. rewrite Hd in Hpage. exact (Hpage None eq_refl).
  - intros Hd. rewrite Hd in Hraise, Hpage. split; [|split].
    + intros e E1. apply Hraise. now rewrite E1.
    + intros min_date e E1 E2. apply Hraise. rewrite E1. cbn [bind].
      now rewrite E2.
    + intros min_date max_date E1 E2. rewrite E1, E2 in Hraise, Hpage.
      cbn [bind] in Hraise, Hpage. split; [|split].
      * intros e E3. apply Hraise. now rewrite E3.
      * intros t E3 Hlen. apply Hraise. rewrite E3. cbn [bind].
        destruct t as [|a [|b [|c t]]]; try reflexivity.
        now elim Hlen.
      * intros lo hi E3. apply (Hpage (Some (lo, hi))). now rewrite E3.
Qed.

End Dashboard.

Lemma script_outcomes_witness :
  App.load_data parse_example clean_disk
  = Ok (normalize parse_example PyNone clean_comments) /\
  has_col (normalize parse_example PyNone clean_comments) "topic_label" = true /\
  has_col (normalize parse_example PyNone clean_comments) "sentiment_label"
  = true /\
  exists page,
    App.script parse_example dates_min dates_max
      (user_picks [20028; 20029]%Z) clean_disk "B" "POSITIVE" = Ok page /\
    App.shown page = 2 /\
    App.total (App.metrics page) = 2.
Proof.
  assert (Hload : App.load_data parse_example clean_disk
                  = Ok (normalize parse_example PyNone clean_comments))
    by reflexivity.
  split; [exact Hload|]. split; [reflexivity|]. split; [reflexivity|].
  destruct (script_outcomes parse_example dates_min dates_max
              (user_picks [20028; 20029]%Z) clean_disk
              (normalize parse_example PyNone clean_comments)
              "B" "POSITIVE" Hload eq_refl eq_refl) as [_ H].
  destruct (H eq_refl) as [_ [_ H3]].
  destruct (H3 (Date 20028) (Date 20029) eq_refl eq_refl) as [_ [_ H4]].
  destruct (H4 20028%Z 20029%Z eq_refl) as [page [Hp [Hshown [_ [Htotal _]]]]].
  exists page. split; [exact Hp|].
  rewrite Htotal, Hshown. split; reflexivity.
Defined.

(** X14: What the dashboard needs of its file: without the file the run raises
    [FileNotFoundError]; without the topic column it raises [KeyError] on
    that column, and with it but without the sentiment column on that one,
    whatever is selected, even when both widgets would stay on their
    sentinel: the options of the select boxes are read from the columns
    before any filter runs. *)
Theorem script_requires_label_columns (parse_utc : cell -> option Z)
  (series_min series_max : Series -> result cell)
  (date_input : cell * cell -> result (list Z)) (fs : FileSystem)
  (chosen_topic chosen_sentiment : string) :
  (fs App.CSV_PATH = None ->
   App.script parse_utc series_min series_max date_input fs
     chosen_topic chosen_sentiment
   = Raise (FileNotFoundError App.CSV_PATH)) /\
  (forall raw, fs App.CSV_PATH = Some raw ->
     has_col raw "topic_label" = false ->
     App.script parse_utc series_min series_max date_input fs
       chosen_topic chosen_sentiment
     = Raise (KeyError "topic_label")) /\
  (forall raw, fs App.CSV_PATH = Some raw ->
     has_col raw "topic_label" = true ->
     has_col raw "sentiment_label" = false ->
     App.script parse_utc series_min series_max date_input fs
       chosen_topic chosen_sentiment
     = Raise (KeyError "sentiment_label")).
Proof.
  unfold App.script. rewrite app_load_data_normalize. split; [|split].
  - intros H. now rewrite H.
  - intros raw H Ht. rewrite H. cbn [bind]. unfold App.topic_options.
    rewrite getcol_absent; [reflexivity|].
    rewrite normalize_has_col by discriminate. exact Ht.
  - intros raw H Ht Hs. rewrite H. cbn [bind].
    unfold App.topic_options, App.sentiment_options.
    rewrite getcol_present
      by (rewrite normalize_has_col by discriminate; exact Ht).
    cbn [bind]. rewrite getcol_absent; [reflexivity|].
    rewrite normalize_has_col by discriminate. exact Hs.
Qed.

(** ** The two scripts on one file *)

Lemma undated_rows_no_date (novalue : cell) (l : list Row) :
  isna novalue = true -> existsb dated (map (undated_row novalue) l) = false.
Proof.
  intros Hna. induction l as [|r l IH]; simpl; [reflexivity|].
  rewrite IH, orb_false_r. unfold dated, undated_row. rewrite set_cell_same.
  destruct novalue; try reflexivity; discriminate.
Qed.

(** X15: The two loaders agree on a file: the tables have the same columns and
    the same cells outside [date], they are the same table when the file has
    a [published_at] column, and they agree on whether any row has a date.
    So the dashboard offers its date widget exactly when the batch script
    does not skip its chart of comments per day. *)
Theorem scripts_agree_on_dates (parse_utc : cell -> option Z)
  (fs : FileSystem) (path : string) (raw : DataFrame) :
  fs App.CSV_PATH = Some raw ->
  fs path = Some raw ->
  exists da dc b,
    App.load_data parse_utc fs = Ok da /\
    Charts.load_data parse_utc fs path = Ok dc /\
    (has_col raw "published_at" = true -> da = dc) /\
    columns da = columns dc /\
    (forall c, c <> "date" ->
       map (fun r : Row => r c) (rows da) = map (fun r : Row => r c) (rows dc)) /\
    App.has_dates da = Ok b /\
    Charts.no_dates dc = Ok (negb b).
Proof.
  intros Ha Hc. rewrite app_load_data_normalize, charts_load_data_normalize.
  rewrite Ha, Hc.
  set (da := normalize parse_utc PyNone raw).
  set (dc := normalize parse_utc NaT raw).
  assert (Hna : normalized da = true) by now apply normalize_normalized.
  assert (Hnc : normalized dc = true) by now apply normalize_normalized.
  assert (Hsame : has_col raw "published_at" = true -> da = dc).
  { intros Hp. unfold da, dc, normalize. now rewrite Hp. }
  assert (Hdated : existsb dated (rows da) = existsb dated (rows dc)).
  { destruct (has_col raw "published_at") eqn:Hp; [now rewrite Hsame|].
    unfold da, dc, normalize. cbn [rows]. rewrite Hp.
    now rewrite !undated_rows_no_date. }
  exists da, dc, (existsb dated (rows da)).
  split; [reflexivity|]. split; [reflexivity|]. split; [exact Hsame|].
  split; [reflexivity|]. split; [|split].
  - intros c Hne. destruct (has_col raw "published_at") eqn:Hp;
      [now rewrite Hsame|].
    unfold da, dc, normalize. cbn [rows]. rewrite Hp. rewrite !map_map.
    apply map_ext. intros r. unfold undated_row.
    now rewrite !set_cell_other.
  - destruct (normalized_date_column da Hna) as [Hd _].
    unfold App.has_dates. rewrite Hd, (getcol_present da _ Hd). cbn [bind].
    now rewrite (any_notna_dated da Hna).
  - destruct (normalized_date_column dc Hnc) as [Hd _].
    rewrite no_dates_value, Hd. cbn [negb orb].
    now rewrite (all_isna_no_dated dc Hnc), Hdated.
Qed.

Lemma scripts_agree_on_dates_witness :
  raw_disk App.CSV_PATH = Some raw_comments /\
  raw_disk Charts.INPUT_CSV = Some raw_comments /\
  exists da dc,
    App.load_data parse_example raw_disk = Ok da /\
    Charts.load_data parse_example raw_disk Charts.INPUT_CSV = Ok dc /\
    da = dc.
Proof.
  split; [reflexivity|]. split; [reflexivity|].
  destruct (scripts_agree_on_dates parse_example raw_disk Charts.INPUT_CSV
              raw_comments eq_refl eq_refl) as [da [dc [b [H1 [H2 [H3 _]]]]]].
  exists da, dc. split; [exact H1|]. split; [exact H2|]. now apply H3.
Defined.

(** ** The files of a batch run *)

Lemma view_skips (o : Charts.Output) (p notice : string) :
  view_writes o p false (Charts.print notice o).
Proof.
  split; [now exists notice|]. cbn [Charts.print Charts.saved].
  now rewrite app_nil_r.
Qed.

Lemma view_saves (o : Charts.Output) (p msg : string) (fig : Charts.figure) :
  view_writes o p true (Charts.print msg (Charts.savefig p fig o)).
Proof.
  split; [now exists msg|]. cbn [Charts.print Charts.savefig Charts.saved].
  now rewrite map_app.
Qed.

Section BatchFiles.

Variable parse_utc : cell -> option Z.
Variable render : Charts.figure -> result unit.
Hypothesis render_ok : forall fig, render fig = Ok tt.

Lemma overall_sentiment_writes (df : DataFrame) (p : string) (o : Charts.Output) :
  exists o', Charts.plot_overall_sentiment render df p o = Ok o' /\
             view_writes o p (has_col df "sentiment_label") o'.
Proof.
  unfold Charts.plot_overall_sentiment.
  destruct (has_col df "sentiment_label") eqn:Hc; cbn [negb].
  - rewrite (getcol_present df _ Hc). cbn [bind].
    rewrite (draw_and_save_ok render render_ok). cbn [bind].
    eexists. split; [reflexivity | apply view_saves].
  - eexists. split; [reflexivity | apply view_skips].
Qed.

Lemma topic_distribution_writes (df : DataFrame) (p : string) (o : Charts.Output) :
  exists o', Charts.plot_topic_distribution render df p o = Ok o' /\
             view_writes o p (has_col df "topic_label") o'.
Proof.
  unfold Charts.plot_topic_distribution.
  destruct (has_col df "topic_label") eqn:Hc; cbn [negb].
  - rewrite (getcol_present df _ Hc). cbn [bind].
    rewrite (draw_and_save_ok render render_ok). cbn [bind].
    eexists. split; [reflexivity | apply view_saves].
  - eexists. split; [reflexivity | apply view_skips].
Qed.

Lemma sentiment_by_topic_writes (df : DataFrame) (p : string) (o : Charts.Output) :
  exists o', Charts.plot_sentiment_by_topic render df p o = Ok o' /\
             view_writes o p
               (has_col df "topic_label" && has_col df "sentiment_label") o'.
Proof.
  unfold Charts.plot_sentiment_by_topic, Charts.crosstab_pct.
  destruct (has_col df "topic_label") eqn:Ht; cbn [negb orb andb];
    [destruct (has_col df "sentiment_label") eqn:Hs; cbn [negb]|].
  - rewrite (getcol_present df _ Ht), (getcol_present df _ Hs). cbn [bind].
    rewrite (draw_and_save_ok render render_ok). cbn [bind].
    eexists. split; [reflexivity | apply view_saves].
  - eexists. split; [reflexivity | apply view_skips].
  - eexists. split; [reflexivity | apply view_skips].
Qed.

Lemma comments_per_day_writes (df : DataFrame) (p : string) (o : Charts.Output) :
  normalized df = true ->
  exists o', Charts.plot_comments_per_day render df p o = Ok o' /\
             view_writes o p (existsb dated (rows df)) o'.
Proof.
  intros Hn. destruct (normalized_date_column df Hn) as [Hd _].
  unfold Charts.plot_comments_per_day. rewrite no_dates_value, Hd.
  cbn [negb orb bind]. rewrite (all_isna_no_dated df Hn).
  destruct (existsb dated (rows df)); cbn [negb].
  - rewrite (getcol_present df _ Hd). cbn [bind].
    rewrite (draw_and_save_ok render render_ok). cbn [bind].
    eexists. split; [reflexivity | apply view_saves].
  - eexists. split; [reflexivity | apply view_skips].
Qed.

Lemma dated_and_labelled_dated (l : list Row) :
  existsb dated l = false -> existsb dated_and_labelled l = false.
Proof.
  induction l as [|r l IH]; simpl; [reflexivity|]. intros H.
  apply orb_false_iff in H. destruct H as [H1 H2].
  unfold dated_and_labelled. rewrite H1. now apply IH.
Qed.

Lemma sentiment_over_time_writes (df : DataFrame) (p : string) (o : Charts.Output) :
  normalized df = true ->
  exists o', Charts.plot_sentiment_over_time render df p o = Ok o' /\
             view_writes o p
               (has_col df "sentiment_label"
                && existsb dated_and_labelled (rows df)) o'.
Proof.
  intros Hn. destruct (normalized_date_column df Hn) as [Hd _].
  unfold Charts.plot_sentiment_over_time. rewrite no_dates_value, Hd.
  cbn [negb orb bind]. rewrite (all_isna_no_dated df Hn).
  destruct (has_col df "sentiment_label") eqn:Hs; cbn [negb andb];
    [|rewrite orb_true_r; eexists; split; [reflexivity | apply view_skips]].
  rewrite orb_false_r.
  destruct (existsb dated (rows df)) eqn:Ed; cbn [negb].
  - rewrite (batch_counts_daily df Hd Hs). cbn [bind].
    rewrite daily_counts_empty.
    destruct (existsb dated_and_labelled (rows df)); cbn [negb].
    + rewrite (draw_and_save_ok render render_ok). cbn [bind].
      eexists. split; [reflexivity | apply view_saves].
    + eexists. split; [reflexivity | apply view_skips].
  - rewrite (dated_and_labelled_dated _ Ed).
    eexists. split; [reflexivity | apply view_skips].
Qed.

(** X16: The files of a run: with a rendering library that draws every figure and
    the input file in place, the run prints five lines after those already
    printed and writes, after the files already written and in the order of
    the views, exactly the charts the loaded table has data for: the
    sentiment chart and the topic chart when their column exists, the
    stacked chart when both exist, the chart of comments per day when some
    row has a date, the chart over time when some row has both a date and a
    sentiment. *)
Theorem batch_files_written (fs : FileSystem) (raw : DataFrame)
  (o : Charts.Output) :
  fs Charts.INPUT_CSV = Some raw ->
  exists o' msgs,
    Charts.main parse_utc render fs o = Ok o' /\
    map fst (Charts.saved o')
    = map fst (Charts.saved o) ++ written_files (normalize parse_utc NaT raw) /\
    Charts.printed o' = Charts.printed o ++ msgs /\
    List.length msgs = 5.
Proof.
  intros Hfs. unfold Charts.main, path_exists. rewrite Hfs. cbn [negb].
  rewrite charts_load_data_normalize, Hfs. cbn [bind].
  set (df := normalize parse_utc NaT raw).
  assert (Hn : normalized df = true) by now apply normalize_normalized.
  destruct (overall_sentiment_writes df
              (Charts.out_file "overall_sentiment.png") o)
    as [o1 [E1 [[m1 P1] S1]]].
  destruct (topic_distribution_writes df
              (Charts.out_file "topic_distribution.png") o1)
    as [o2 [E2 [[m2 P2] S2]]].
  destruct (sentiment_by_topic_writes df
              (Charts.out_file "sentiment_by_topic.png") o2)
    as [o3 [E3 [[m3 P3] S3]]].
  destruct (comments_per_day_writes df
              (Charts.out_file "comments_per_day.png") o3 Hn)
    as [o4 [E4 [[m4 P4] S4]]].
  destruct (sentiment_over_time_writes df
              (Charts.out_file "sentiment_over_time.png") o4 Hn)
    as [o5 [E5 [[m5 P5] S5]]].
  rewrite E1. cbn [bind]. rewrite E2. cbn [bind]. rewrite E3. cbn [bind].
  rewrite E4. cbn [bind]. rewrite E5.
  exists o5, [m1; m2; m3; m4; m5]. split; [reflexivity|]. split; [|split].
  - rewrite S5, S4, S3, S2, S1. unfold written_files.
    rewrite <- !app_assoc. reflexivity.
  - rewrite P5, P4, P3, P2, P1. rewrite <- !app_assoc. reflexivity.
  - reflexivity.
Qed.

End BatchFiles.

Lemma batch_files_written_witness :
  (forall fig : Charts.figure, (fun _ => Ok tt) fig = Ok tt) /\
  raw_disk Charts.INPUT_CSV = Some raw_comments /\
  exists o',
    Charts.main parse_example (fun _ => Ok tt) raw_disk nothing_yet = Ok o' /\
    map fst (Charts.saved o')
    = ["charts/overall_sentiment.png"; "charts/topic_distribution.png";
       "charts/sentiment_by_topic.png"; "charts/comments_per_day.png";
       "charts/sentiment_over_time.png"].
Proof.
  split; [reflexivity|]. split; [reflexivity|].
  destruct (batch_files_written parse_example (fun _ => Ok tt)
              (fun _ => eq_refl) raw_disk raw_comments nothing_yet eq_refl)
    as [o' [msgs [H1 [H2 _]]]].
  exists o'. split; [exact H1|]. rewrite H2. reflexivity.
Defined.

(** ** The rendering library fails *)

(** X17: The run has no handler around its views: when the rendering library
    raises on every figure, a run on a file with a label column raises that
    error at the first view that draws; a run on a file without label
    columns and without timestamps never calls the library and completes
    with its five notices and no file written. *)
Theorem render_failure_aborts_run (parse_utc : cell -> option Z)
  (render : Charts.figure -> result unit) (e : exn) (fs : FileSystem)
  (raw : DataFrame) (o : Charts.Output) :
  (forall fig, render fig = Raise e) ->
  fs Charts.INPUT_CSV = Some raw ->
  (has_col raw "sentiment_label" = true \/ has_col raw "topic_label" = true ->
   Charts.main parse_utc render fs o = Raise e) /\
  (has_col raw "sentiment_label" = false ->
   has_col raw "topic_label" = false ->
   has_col raw "published_at" = false ->
   exists o', Charts.main parse_utc render fs o = Ok o' /\
              Charts.saved o' = Charts.saved o /\
              List.length (Charts.printed o')
              = List.length (Charts.printed o) + 5).
Proof.
  intros Hfail Hfs. unfold Charts.main, path_exists. rewrite Hfs. cbn [negb].
  rewrite charts_load_data_normalize, Hfs. cbn [bind].
  set (df := normalize parse_utc NaT raw).
  assert (Hcol : forall c, c <> "date" -> has_col df c = has_col raw c)
    by (intros c Hc; now apply normalize_has_col).
  split.
  - intros Hlab. unfold Charts.plot_overall_sentiment.
    destruct (has_col raw "sentiment_label") eqn:Hs.
    + rewrite (Hcol "sentiment_label") by discriminate. rewrite Hs. cbn [negb].
      rewrite getcol_present
        by (rewrite (Hcol "sentiment_label") by discriminate; exact Hs).
      cbn [bind]. unfold Charts.draw_and_save. now rewrite Hfail.
    + destruct Hlab as [Hx|Ht]; [discriminate|].
      rewrite (Hcol "sentiment_label") by discriminate. rewrite Hs.
      cbn [negb bind]. unfold Charts.plot_topic_distribution.
      rewrite (Hcol "topic_label") by discriminate. rewrite Ht. cbn [negb].
      rewrite getcol_present
        by (rewrite (Hcol "topic_label") by discriminate; exact Ht).
      cbn [bind]. unfold Charts.draw_and_save. now rewrite Hfail.
  - intros Hs Ht Hp.
    assert (Hnone : forall r, In r (rows df) -> isna (r "date") = true).
    { intros r Hr. unfold df, normalize in Hr. cbn [rows] in Hr.
      rewrite Hp in Hr. apply in_map_iff in Hr. destruct Hr as [r0 [<- _]].
      unfold undated_row. now rewrite set_cell_same. }
    unfold Charts.plot_overall_sentiment, Charts.plot_topic_distribution,
      Charts.plot_sentiment_by_topic.
    rewrite (Hcol "sentiment_label") by discriminate.
    rewrite (Hcol "topic_label") by discriminate.
    rewrite Hs, Ht. cbn [negb orb bind].
    match goal with
    | |- context [Charts.plot_comments_per_day render df ?p ?o0] =>
        destruct (date_views_skip_without_dates render df p o0 Hnone) as [E4 _];
        rewrite E4
    end.
    cbn [bind].
    match goal with
    | |- context [Charts.plot_sentiment_over_time render df ?p ?o0] =>
        destruct (date_views_skip_without_dates render df p o0 Hnone) as [_ E5];
        rewrite E5
    end.
    eexists. split; [reflexivity|]. split; [reflexivity|].
    cbn [Charts.print Charts.printed]. rewrite !length_app. simpl. lia.
Qed.

Lemma render_failure_aborts_run_witness :
  (forall fig : Charts.figure,
     (fun _ : Charts.figure => @Raise unit TypeError) fig = Raise TypeError) /\
  raw_disk Charts.INPUT_CSV = Some raw_comments /\
  has_col raw_comments "sentiment_label" = true /\
  Charts.main parse_example (fun _ => Raise TypeError) raw_disk nothing_yet
  = Raise TypeError.
Proof.
  split; [reflexivity|]. split; [reflexivity|]. split; [reflexivity|].
  exact (proj1 (render_failure_aborts_run parse_example
                  (fun _ => Raise TypeError) TypeError raw_disk raw_comments
                  nothing_yet (fun _ => eq_refl) eq_refl)
               (or_introl eq_refl)).
Defined.

(** ** The time chart of a filtered view *)

(** X18: The time chart follows the filters: on a normalized table with the two
    label columns, the chart of the filtered view is made exactly when a row
    with a date is left, and it is the table of daily counts of the rows
    left; its days lie in the selected range, its only column is the
    selected sentiment when one is selected, and it has no day and no
    column that the chart of the whole table lacks. *)
Theorem time_chart_follows_filters (df : DataFrame) (topic sentiment : string)
  (range : option (Z * Z)) :
  normalized df = true ->
  has_col df "topic_label" = true ->
  has_col df "sentiment_label" = true ->
  exists filtered,
    App.apply_filters df topic sentiment
      (option_map fst range) (option_map snd range) = Ok filtered /\
    App.sent_time filtered
    = Ok (if existsb dated (rows filtered) then Some (daily_counts filtered)
          else None) /\
    (forall d lo hi, In d (index (daily_counts filtered)) ->
       range = Some (lo, hi) -> (lo <= d <= hi)%Z) /\
    (sentiment <> "All" ->
     forall l, In l (labels (daily_counts filtered)) -> l = sentiment) /\
    incl (index (daily_counts filtered)) (index (daily_counts df)) /\
    incl (labels (daily_counts filtered)) (labels (daily_counts df)).
Proof.
  intros Hn Ht Hs.
  rewrite (apply_filters_rows df topic sentiment range Hn Ht Hs).
  set (filtered := {| columns := columns df;
                      rows := filter (satisfiesb topic sentiment range) (rows df) |}).
  exists filtered. split; [reflexivity|].
  assert (Hnf : normalized filtered = true) by now apply normalized_filter.
  assert (Hsf : has_col filtered "sentiment_label" = true) by exact Hs.
  assert (Hrow : forall r, In r (rows filtered) ->
                           In r (rows df) /\ satisfiesb topic sentiment range r = true).
  { intros r Hr. unfold filtered in Hr. cbn [rows] in Hr. now apply filter_In. }
  destruct (daily_counts_spec filtered) as [_ [_ [Hidx [Hlab _]]]].
  destruct (daily_counts_spec df) as [_ [_ [Hidx0 [Hlab0 _]]]].
  cbn zeta in *.
  split; [|split; [|split; [|split]]].
  - destruct (normalized_date_column filtered Hnf) as [Hd _].
    unfold App.sent_time, App.has_dates. rewrite Hd.
    rewrite !(getcol_present filtered _ Hd). cbn [bind].
    rewrite (any_notna_dated filtered Hnf).
    destruct (existsb dated (rows filtered)); [|reflexivity].
    now rewrite (getcol_present filtered _ Hsf).
  - intros d lo hi Hd ->. apply (proj1 (Hidx d)) in Hd.
    destruct Hd as [r [Hr [Ed _]]]. destruct (Hrow r Hr) as [_ Hsat].
    unfold satisfiesb in Hsat. apply andb_true_iff in Hsat.
    destruct Hsat as [_ Hrange]. rewrite Ed in Hrange. cbn in Hrange. lia.
  - intros Hne l Hl. apply (proj1 (Hlab l)) in Hl.
    destruct Hl as [r [d [Hr [_ El]]]]. destruct (Hrow r Hr) as [_ Hsat].
    unfold satisfiesb in Hsat. apply andb_true_iff in Hsat.
    destruct Hsat as [Hsat _]. apply andb_true_iff in Hsat.
    destruct Hsat as [_ Hlp]. apply label_passes_spec in Hlp.
    destruct Hlp as [E|E]; [now elim Hne|]. rewrite El in E.
    now injection E.
  - intros d Hd. apply (proj1 (Hidx d)) in Hd. destruct Hd as [r [Hr H]].
    apply Hidx0. exists r. split; [apply (Hrow r Hr) | exact H].
  - intros l Hl. apply (proj1 (Hlab l)) in Hl. destruct Hl as [r [d [Hr H]]].
    apply Hlab0. exists r, d. split; [apply (Hrow r Hr) | exact H].
Qed.

Lemma time_chart_follows_filters_witness :
  normalized four_comments = true /\
  has_col four_comments "topic_label" = true /\
  has_col four_comments "sentiment_label" = true /\
  exists filtered,
    App.apply_filters four_comments "All" "POSITIVE"
      (Some 20029%Z) (Some 20029%Z) = Ok filtered /\
    App.sent_time filtered
    = Ok (Some {| index := [20029%Z]; labels := ["POSITIVE"]; cells := [[2]] |}).
Proof.
  repeat (split; [reflexivity|]).
  destruct (time_chart_follows_filters four_comments "All" "POSITIVE"
              (Some (20029, 20029)%Z) eq_refl eq_refl eq_refl)
    as [f [H1 [H2 _]]].
  exists f. split; [exact H1|]. rewrite H2.
  injection H1 as <-. reflexivity.
Defined.
